(** * nest-initializer: the fluent application builder and its scanner

    A shallow embedding of the TypeScript sources
    - [src/core/app-initializer.ts]   (class [AppInitializer]),
    - [src/core/auto-discovery.helper.ts] (function [discoverComponents]),
    - [src/core/config-validator.helper.ts],
    - [src/features/health.controller.ts] (class [HealthController]),
    - the starters and the plugins,
    followed by the properties of the specification that were checked
    against them.

    JavaScript values are modelled by [JsValue]; an exception is a value of
    type [Thrown]; a computation that may throw returns a [Completion].
    Code that talks to the framework (NestFactory, the application handle,
    the logger, the process) is written in the monad [M], which records
    every call in a trace and asks a [Framework] oracle whether the call
    throws. *)

From Stdlib Require Import String Ascii List ZArith Bool Arith Lia.
Import ListNotations.
Local Open Scope string_scope.
Local Open Scope list_scope.

Set Implicit Arguments.
Set Warnings "-register-all".

(* ================================================================== *)
(** ** JavaScript values *)
(* ================================================================== *)

(** A JavaScript number, as far as this program computes with numbers:
    ports, thresholds in megabytes, time-to-live values. *)
Inductive JsNum : Type :=
| Finite (z : Z)
| NaN.

(** A function object.  [fnPrototype] tells whether its [prototype]
    property is truthy: classes and ordinary functions have one, arrow
    functions and bound methods do not. *)
Record FunctionObject : Type := mkFunction {
  fnName : string;
  fnPrototype : bool
}.

(** [Type] of [@nestjs/common]: a class constructor. *)
Definition ClassType : Type := FunctionObject.

Inductive JsValue : Type :=
| JsUndefined
| JsNull
| JsBool (b : bool)
| JsNumber (n : JsNum)
| JsString (s : string)
| JsObject (props : list (string * JsValue))
| JsFunction (f : FunctionObject).

(** An object literal, as the list of its own enumerable properties in
    insertion order. *)
Definition Props : Type := list (string * JsValue).

(** ToBoolean. *)
Definition truthy (v : JsValue) : bool :=
  match v with
  | JsUndefined => false
  | JsNull => false
  | JsBool b => b
  | JsNumber (Finite z) => negb (Z.eqb z 0)
  | JsNumber NaN => false
  | JsString s => negb (String.eqb s "")
  | JsObject _ => true
  | JsFunction _ => true
  end.

(** [{ ...a, ...b }]: the properties of [a], overridden by those of [b];
    keys new in [b] come last. *)
Fixpoint setProp (k : string) (v : JsValue) (o : Props) : Props :=
  match o with
  | [] => [(k, v)]
  | (k', v') :: rest =>
      if String.eqb k k' then (k', v) :: rest else (k', v') :: setProp k v rest
  end.

Definition spread (a b : Props) : Props :=
  fold_left (fun acc kv => setProp (fst kv) (snd kv) acc) b a.

(** What a [throw] carries: an [Error] object (its constructor name, its
    message and its stack), or any other value. *)
Inductive Thrown : Type :=
| ErrorObject (name message stack : string)
| NonError (v : JsValue).

(** The outcome of evaluating a piece of code: it returns or it throws
    (for an [async] function that is awaited: its promise resolves or
    rejects). *)
Inductive Completion (A : Type) : Type :=
| Normal (a : A)
| Throws (e : Thrown).

Arguments Normal {A} a.
Arguments Throws {A} e.

(* ================================================================== *)
(** ** The auto-discovery scanner ([auto-discovery.helper.ts]) *)
(* ================================================================== *)

Module AutoDiscovery.

Record DiscoveredComponents : Type := mkDiscovered {
  providers : list ClassType;
  controllers : list ClassType
}.

(** [type RequireFn = (id: string) => any].  The result is given by the
    enumerable properties a [for ... in] loop visits, in order; a value
    with no enumerable property ([undefined], a number) is the empty
    list. *)
Definition RequireFn : Type := string -> Completion Props.

(** [Reflector.get(metadataKey, target)]: the metadata stored on the
    target under the key, [undefined] when there is none.  The reflector
    of [@nestjs/core] always returns; one handed in by a caller may
    throw. *)
Definition Reflector : Type := string -> FunctionObject -> Completion JsValue.

Record GlobOptions : Type := mkGlobOptions {
  ignore : list string;
  absolute : bool
}.

(** The file system, seen through [path.join] and [globSync]. *)
Record FileSystem : Type := mkFileSystem {
  join : list string -> string;
  globSync : string -> GlobOptions -> list string
}.

(** The body of the inner [for (const key in exports)] loop. *)
Definition examineExport (reflectorInst : Reflector)
    (acc : DiscoveredComponents) (exportedClass : JsValue)
  : Completion DiscoveredComponents :=
  match exportedClass with
  | JsFunction f =>
      if fnPrototype f then
        match reflectorInst "path" f with
        | Throws e => Throws e
        | Normal routingPath =>
            if truthy routingPath then
              Normal (mkDiscovered (providers acc) (controllers acc ++ [f]))
            else
              match reflectorInst "__injectable__" f with
              | Throws e => Throws e
              | Normal marker =>
                  if truthy marker then
                    Normal (mkDiscovered (providers acc ++ [f]) (controllers acc))
                  else Normal acc
              end
        end
      else Normal acc
  | _ => Normal acc
  end.

(** The inner loop, inside the [try] block: when the reflector throws,
    the loop is left and what was pushed before stays in the arrays. *)
Fixpoint examineExports (reflectorInst : Reflector)
    (acc : DiscoveredComponents) (exports : Props) : DiscoveredComponents :=
  match exports with
  | [] => acc
  | (_, exportedClass) :: rest =>
      match examineExport reflectorInst acc exportedClass with
      | Normal acc' => examineExports reflectorInst acc' rest
      | Throws _ => acc
      end
  end.

(** The body of the outer [for (const file of files)] loop: the [try]
    block with its empty [catch]. *)
Definition scanFile (requireFn : RequireFn) (reflectorInst : Reflector)
    (acc : DiscoveredComponents) (file : string) : DiscoveredComponents :=
  match requireFn file with
  | Throws _ => acc
  | Normal exports => examineExports reflectorInst acc exports
  end.

Definition ignorePatterns : list string :=
  [ "**/*.module.{ts,js}";
    "**/*.spec.{ts,js}";
    "**/node_modules/**";
    "**/features/**";
    "**/plugins/**" ].

Definition enumerateFiles (fs : FileSystem) (basePath : string) : list string :=
  globSync fs (join fs [basePath; "**/*.{ts,js}"])
           (mkGlobOptions ignorePatterns true).

Definition scanFiles (requireFn : RequireFn) (reflectorInst : Reflector)
    (files : list string) : DiscoveredComponents :=
  fold_left (scanFile requireFn reflectorInst) files (mkDiscovered [] []).

Definition discoverComponents (fs : FileSystem) (basePath : string)
    (reflectorInst : Reflector) (requireFn : RequireFn)
  : DiscoveredComponents :=
  scanFiles requireFn reflectorInst (enumerateFiles fs basePath).

End AutoDiscovery.

(* ================================================================== *)
(** ** The health endpoint ([health.controller.ts]) *)
(* ================================================================== *)

Module Health.

Record MemoryOptions : Type := mkMemoryOptions {
  heapThreshold : option Z;
  rssThreshold : option Z
}.

(** [TerminusHealthCheckOptions]: both properties are optional. *)
Record TerminusHealthCheckOptions : Type := mkHealthOptions {
  database : option bool;
  memory : option MemoryOptions
}.

(** A call on one of the Terminus indicators. *)
Inductive IndicatorCall : Type :=
| Db_pingCheck (key : string)
| Memory_checkHeap (key : string) (bytes : Z)
| Memory_checkRSS (key : string) (bytes : Z).

(** [HealthIndicatorFunction]: a thunk; calling it calls the indicator. *)
Definition HealthIndicatorFunction : Type := unit -> IndicatorCall.

(** The controller's injected fields.  [db] is [@Optional()]: [false]
    when the container has no [TypeOrmHealthIndicator]. *)
Record HealthController : Type := mkHealthController {
  options : TerminusHealthCheckOptions;
  db : bool
}.

Definition orDefault (v : option Z) (d : Z) : Z :=
  match v with Some x => x | None => d end.

(** The array [checks] that [check()] hands to [this.health.check]. *)
Definition checks (this : HealthController) : list HealthIndicatorFunction :=
  let databaseChecks :=
    match database (options this) with
    | Some true =>
        if db this then [fun _ : unit => Db_pingCheck "database"] else []
    | _ => []
    end in
  let memoryChecks :=
    match memory (options this) with
    | Some m =>
        let heap := orDefault (heapThreshold m) 200 in
        let rss := orDefault (rssThreshold m) 300 in
        [ (fun _ : unit => Memory_checkHeap "memory_heap" (heap * 1024 * 1024));
          (fun _ : unit => Memory_checkRSS "memory_rss" (rss * 1024 * 1024)) ]
    | None => []
    end in
  databaseChecks ++ memoryChecks.

(** [HealthCheckService.check] of Terminus calls every indicator
    function it is given, once each. *)
Definition HealthCheckService_check (fs : list HealthIndicatorFunction)
  : list IndicatorCall :=
  map (fun f => f tt) fs.

Definition check (this : HealthController) : list IndicatorCall :=
  HealthCheckService_check (checks this).

End Health.

(* ================================================================== *)
(** ** Configuration validation ([config-validator.helper.ts]) *)
(* ================================================================== *)

Module ConfigValidator.

(** [ValidationError] of class-validator: only [constraints] is read. *)
Record ValidationError : Type := mkValidationError {
  constraints : option (list (string * string))
}.

(** A schema class, with what class-transformer and class-validator
    compute from its decorators. *)
Record Schema : Type := mkSchema {
  schemaClass : ClassType;
  plainToInstance : Props -> Props;
  validateSync : Props -> list ValidationError
}.

(** [Object.values(error.constraints || {}).join(', ')]. *)
Definition constraintMessages (error : ValidationError) : string :=
  String.concat ", "
    (map snd (match constraints error with Some c => c | None => [] end)).

(** [stack] is the stack trace the runtime records for the new error. *)
Definition validateConfig (stack : string) (config : Props) (schema : Schema)
  : Completion Props :=
  let validatedConfig := plainToInstance schema config in
  let errors := validateSync schema validatedConfig in
  if Nat.ltb 0 (List.length errors) then
    let errorMessages := String.concat "; " (map constraintMessages errors) in
    Throws (ErrorObject "Error"
              ("[Configuração Inválida] " ++ errorMessages) stack)
  else Normal validatedConfig.

End ConfigValidator.

(* ================================================================== *)
(** ** What the builder accumulates *)
(* ================================================================== *)

(** The injection tokens of [@nestjs/core] used for global providers. *)
Inductive InjectionToken : Type :=
| APP_PIPE
| APP_FILTER
| APP_GUARD
| APP_INTERCEPTOR.

(** [ConfigService.get]. *)
Definition ConfigService : Type := string -> JsValue.

(** A [Provider]: a class, or a binding of a token to a class or a value.
    The only value bound is [new ValidationPipe(finalOptions)]. *)
Inductive Provider : Type :=
| ClassProvider (cls : ClassType)
| UseClass (provide : InjectionToken) (useClass : ClassType)
| UseValue_ValidationPipe (provide : InjectionToken) (finalOptions : Props).

(** [AnyModule]: the root module class, or the dynamic module one of the
    framework's factories returned.  A dynamic module is kept as the
    arguments the builder passed to its factory. *)
Inductive AnyModule : Type :=
| ModuleClass (cls : ClassType)
| TerminusHealthCheckModule_forRoot (options : Health.TerminusHealthCheckOptions)
| MetricsModule_forRoot
| ConfigModule_forRoot (isGlobal : bool)
    (validate : string -> Props -> Completion Props)
| TypeOrmModule_forRootAsync (useFactory : ConfigService -> Props)
| MongooseModule_forRootAsync (useFactory : ConfigService -> Props)
| CacheModule_registerAsync (isGlobal : bool) (urlKey : string) (ttl : JsNum).

(** The three closures the builder pushes on [setupFunctions]. *)
Inductive SetupFunction : Type :=
| Setup_enableShutdownHooks     (* (app) => app.enableShutdownHooks() *)
| Setup_useHelmet               (* (app) => app.use(helmet()) *)
| Setup_useCompression.         (* (app) => app.use(compression()) *)

(** Express middleware handed to [app.use]. *)
Inductive Middleware : Type :=
| Helmet
| Compression
| Morgan (format : string)
| RateLimit (options : Props).

(** [type ResponseMapper<T> = (data, context) => T], by reference. *)
Definition ResponseMapper : Type := string.

Inductive NestInterceptor : Type :=
| ResponsePatternInterceptor (mapper : ResponseMapper)
| InterceptorInstance (ref : string).

Record SwaggerDocumentTags : Type := mkTag {
  tagName : string;
  tagDescription : option string
}.

(** [SwaggerOptions]; [None] is an absent (or [undefined]) property. *)
Record SwaggerOptions : Type := mkSwaggerOptions {
  title : string;
  description : string;
  version : string;
  tags : option (list SwaggerDocumentTags);
  path : option string;
  documentOptions : option Props;
  customOptions : option Props
}.

Record AdvancedSwaggerUiOptions : Type := mkAdvancedSwaggerUi {
  customCss : option string;
  customJs : option string
}.

(** [AbstractHttpAdapter], by reference. *)
Inductive AbstractHttpAdapter : Type :=
| HttpAdapter (ref : string).

(** The class [DynamicRootModule] that [listen] declares, as the argument
    of its [@Module] decorator. *)
Record DynamicRootModule : Type := mkRootModule {
  imports : list AnyModule;
  rootControllers : list ClassType;
  rootProviders : list Provider
}.

(* ================================================================== *)
(** ** Calls into the framework, and the trace *)
(* ================================================================== *)

(** The second argument of [logger.error]: a stack trace ([error.stack])
    or the thrown value itself. *)
Inductive LogDetail : Type :=
| StackTrace (stack : string)
| ThrownValue (error : Thrown).

Inductive FrameworkCall : Type :=
| Logger_log (context message : string)
| Logger_error (context message : string) (detail : LogDetail)
| NestFactory_create (root : DynamicRootModule) (adapter : option AbstractHttpAdapter)
| App_setGlobalPrefix (prefix : string)
| App_enableCors (options : Props)
| App_enableVersioning (options : Props)
| App_enableShutdownHooks
| App_use (middleware : Middleware)
| App_get (token : string)
| DataSource_runMigrations
| App_useGlobalInterceptors (interceptor : NestInterceptor)
| DocumentBuilder_new
| DocumentBuilder_setTitle (t : string)
| DocumentBuilder_setDescription (d : string)
| DocumentBuilder_setVersion (v : string)
| DocumentBuilder_addTag (name : string) (description : option string)
| DocumentBuilder_build
| SwaggerModule_createDocument (documentOptions : option Props)
| SwaggerModule_setup (path : string) (customOptions : option Props)
| App_listen (port : JsNum)
| App_getUrl
| Process_exit (code : Z).

(** One entry of the trace.  Besides the framework calls the code makes,
    the trace records when [listen] calls the [apply] of the plugin at
    position [index] of [plugins]; when that application is complete,
    that is when the call returns something that is not a promise or
    throws, or when the promise it returns settles; and, opaquely, what a
    plugin written by the user does. *)
Inductive Event : Type :=
| Call (c : FrameworkCall)
| ApplyCalled (index : nat)
| ApplySettled (index : nat) (rejection : option Thrown)
| PluginEffect (index : nat) (what : string).

Definition Trace : Type := list Event.

(** [apply(app): Promise<void> | void]: what the [apply] of a plugin of the
    user gives back, after what it did during the call.  It threw; it
    returned nothing; or it returned a promise, which settles, fulfilled
    or rejected, once the plugin has done the rest of its work. *)
Inductive Returned : Type :=
| Threw (error : Thrown)
| ReturnedVoid
| ReturnedPromise (deferred : list string) (rejection : option Thrown).

(** [AppInitializerPlugin]: the three plugins of the package, or an
    object of the user's.  For the latter, [apply] gives, from the trace
    so far, what the plugin does during the call and what the call gives
    back. *)
Inductive Plugin : Type :=
| RequestLoggerPlugin
| RateLimiterPlugin (options : Props)
| TypeOrmMigrationPlugin
| CustomPlugin (constructorName : string)
    (apply : Trace -> list string * Returned).

(** [plugin.constructor.name]. *)
Definition pluginName (p : Plugin) : string :=
  match p with
  | RequestLoggerPlugin => "RequestLoggerPlugin"
  | RateLimiterPlugin _ => "RateLimiterPlugin"
  | TypeOrmMigrationPlugin => "TypeOrmMigrationPlugin"
  | CustomPlugin n _ => n
  end.

(** The constructor of [RateLimiterPlugin]. *)
Definition newRateLimiterPlugin (options : Props) : Plugin :=
  RateLimiterPlugin
    (spread
       [ ("windowMs", JsNumber (Finite (15 * 60 * 1000)));
         ("limit", JsNumber (Finite 100));
         ("statusCode", JsNumber (Finite 429));
         ("message",
          JsString "Too many requests from this IP, please try again after 15 minutes");
         ("standardHeaders", JsBool true);
         ("legacyHeaders", JsBool false) ]
       options).

(* ================================================================== *)
(** ** The starters *)
(* ================================================================== *)

Module Starters.

Record TypeOrmStarterOptions : Type := mkTypeOrmOptions {
  autoLoadEntities : option bool;
  runMigrationsOnStartup : option bool;
  databaseUrlEnvKey : option string;
  typeOrmOptions : option Props
}.

Record MongooseStarterOptions : Type := mkMongooseOptions {
  uriEnvKey : option string;
  mongooseOptions : option Props
}.

Record CachingStarterOptions : Type := mkCachingOptions {
  redisUrlEnvKey : option string;
  defaultTtlInSeconds : option JsNum
}.

Record Starter : Type := mkStarter {
  module : AnyModule;
  plugins : list Plugin
}.

Definition dflt {A : Type} (v : option A) (d : A) : A :=
  match v with Some x => x | None => d end.

Definition createTypeOrmStarter (options : TypeOrmStarterOptions) : Starter :=
  let autoLoad := dflt (autoLoadEntities options) true in
  let runMigrations := dflt (runMigrationsOnStartup options) false in
  let urlKey := dflt (databaseUrlEnvKey options) "DATABASE_URL" in
  let extra := dflt (typeOrmOptions options) [] in
  let typeOrmDynamicModule :=
    TypeOrmModule_forRootAsync
      (fun configService =>
         spread [ ("url", configService urlKey);
                  ("autoLoadEntities", JsBool autoLoad);
                  ("synchronize", JsBool false) ]
                extra) in
  mkStarter typeOrmDynamicModule
            (if runMigrations then [TypeOrmMigrationPlugin] else []).

Definition createMongooseStarter (options : MongooseStarterOptions) : Starter :=
  let uriKey := dflt (uriEnvKey options) "MONGO_URI" in
  let extra := dflt (mongooseOptions options) [] in
  mkStarter
    (MongooseModule_forRootAsync
       (fun configService => spread [("uri", configService uriKey)] extra))
    [].

Definition createCachingStarter (options : CachingStarterOptions) : AnyModule :=
  CacheModule_registerAsync true
    (dflt (redisUrlEnvKey options) "REDIS_URL")
    (dflt (defaultTtlInSeconds options) (Finite 300)).

End Starters.

(* ================================================================== *)
(** ** The builder ([app-initializer.ts]) *)
(* ================================================================== *)

(** What the builder reads from the process it runs in. *)
Record Host : Type := mkHost {
  env_PORT : option string;                 (* process.env.PORT *)
  dirname : string;                         (* __dirname *)
  fileSystem : AutoDiscovery.FileSystem;
  require : AutoDiscovery.RequireFn;        (* Node's require *)
  metadata : AutoDiscovery.Reflector        (* what new Reflector() reads *)
}.

Definition isWhiteSpace (c : ascii) : bool :=
  let n := nat_of_ascii c in
  (n =? 32)%nat || ((9 <=? n)%nat && (n <=? 13)%nat).

Fixpoint skipWhiteSpace (s : string) : string :=
  match s with
  | String c rest => if isWhiteSpace c then skipWhiteSpace rest else s
  | EmptyString => s
  end.

Definition digitValue (c : ascii) : option Z :=
  let n := nat_of_ascii c in
  if ((48 <=? n)%nat && (n <=? 57)%nat) then Some (Z.of_nat (n - 48)) else None.

Fixpoint parseDigits (s : string) (acc : option Z) : option Z :=
  match s with
  | String c rest =>
      match digitValue c with
      | Some d =>
          parseDigits rest
            (Some (10 * (match acc with Some a => a | None => 0 end) + d)%Z)
      | None => acc
      end
  | EmptyString => acc
  end.

(** [parseInt(s, 10)]: leading white space, a sign, then the longest run
    of decimal digits; [NaN] when there is no digit. *)
Definition parseInt10 (s : string) : JsNum :=
  let s1 := skipWhiteSpace s in
  let '(negative, s2) :=
    match s1 with
    | String "-"%char rest => (true, rest)
    | String "+"%char rest => (false, rest)
    | _ => (false, s1)
    end in
  match parseDigits s2 None with
  | Some n => Finite (if negative then (- n)%Z else n)
  | None => NaN
  end.

(** [process.env.PORT || '3000']. *)
Definition portSource (h : Host) : string :=
  match env_PORT h with
  | Some s => if String.eqb s "" then "3000" else s
  | None => "3000"
  end.

(** The fields of [AppInitializer].  [objId] is the identity of the
    object: methods that [return this] return a builder with the same
    [objId].  The field [app] is not kept: the application handle is
    known by the calls made on it, which the trace records. *)
Record AppInitializer : Type := mkAppInitializer {
  objId : nat;
  module : ClassType;
  adapter : option AbstractHttpAdapter;
  port : JsNum;
  globalPrefix : option string;
  versioningOptions : option Props;
  corsOptions : option Props;
  swaggerOptions : option SwaggerOptions;
  setupFunctions : list SetupFunction;
  plugins : list Plugin;
  featureModules : list AnyModule;
  advancedSwaggerUiOptions : option AdvancedSwaggerUiOptions;
  autoDiscoveredComponents : option AutoDiscovery.DiscoveredComponents;
  globalProviders : list Provider;
  globalInterceptors : list NestInterceptor;
  factoryGeneratedControllers : list ClassType
}.

(** The private constructor, with the field initialisers. *)
Definition newAppInitializer (h : Host) (id : nat) (module : ClassType)
    (adapter : option AbstractHttpAdapter) : AppInitializer :=
  {| objId := id;
     module := module;
     adapter := adapter;
     port := parseInt10 (portSource h);
     globalPrefix := None;
     versioningOptions := None;
     corsOptions := None;
     swaggerOptions := None;
     setupFunctions := [];
     plugins := [];
     featureModules := [];
     advancedSwaggerUiOptions := None;
     autoDiscoveredComponents := None;
     globalProviders := [];
     globalInterceptors := [];
     factoryGeneratedControllers := [] |}.

(** Assignments to one field: [this.f = v]. *)
Definition set_port (v : JsNum) (b : AppInitializer) : AppInitializer :=
  mkAppInitializer (objId b) (module b) (adapter b) v (globalPrefix b)
    (versioningOptions b) (corsOptions b) (swaggerOptions b) (setupFunctions b)
    (plugins b) (featureModules b) (advancedSwaggerUiOptions b)
    (autoDiscoveredComponents b) (globalProviders b) (globalInterceptors b)
    (factoryGeneratedControllers b).

Definition set_globalPrefix (v : option string) (b : AppInitializer) : AppInitializer :=
  mkAppInitializer (objId b) (module b) (adapter b) (port b) v
    (versioningOptions b) (corsOptions b) (swaggerOptions b) (setupFunctions b)
    (plugins b) (featureModules b) (advancedSwaggerUiOptions b)
    (autoDiscoveredComponents b) (globalProviders b) (globalInterceptors b)
    (factoryGeneratedControllers b).

Definition set_versioningOptions (v : option Props) (b : AppInitializer) : AppInitializer :=
  mkAppInitializer (objId b) (module b) (adapter b) (port b) (globalPrefix b)
    v (corsOptions b) (swaggerOptions b) (setupFunctions b)
    (plugins b) (featureModules b) (advancedSwaggerUiOptions b)
    (autoDiscoveredComponents b) (globalProviders b) (globalInterceptors b)
    (factoryGeneratedControllers b).

Definition set_corsOptions (v : option Props) (b : AppInitializer) : AppInitializer :=
  mkAppInitializer (objId b) (module b) (adapter b) (port b) (globalPrefix b)
    (versioningOptions b) v (swaggerOptions b) (setupFunctions b)
    (plugins b) (featureModules b) (advancedSwaggerUiOptions b)
    (autoDiscoveredComponents b) (globalProviders b) (globalInterceptors b)
    (factoryGeneratedControllers b).

Definition set_swaggerOptions (v : option SwaggerOptions) (b : AppInitializer) : AppInitializer :=
  mkAppInitializer (objId b) (module b) (adapter b) (port b) (globalPrefix b)
    (versioningOptions b) (corsOptions b) v (setupFunctions b)
    (plugins b) (featureModules b) (advancedSwaggerUiOptions b)
    (autoDiscoveredComponents b) (globalProviders b) (globalInterceptors b)
    (factoryGeneratedControllers b).

Definition set_setupFunctions (v : list SetupFunction) (b : AppInitializer) : AppInitializer :=
  mkAppInitializer (objId b) (module b) (adapter b) (port b) (globalPrefix b)
    (versioningOptions b) (corsOptions b) (swaggerOptions b) v
    (plugins b) (featureModules b) (advancedSwaggerUiOptions b)
    (autoDiscoveredComponents b) (globalProviders b) (globalInterceptors b)
    (factoryGeneratedControllers b).

Definition set_plugins (v : list Plugin) (b : AppInitializer) : AppInitializer :=
  mkAppInitializer (objId b) (module b) (adapter b) (port b) (globalPrefix b)
    (versioningOptions b) (corsOptions b) (swaggerOptions b) (setupFunctions b)
    v (featureModules b) (advancedSwaggerUiOptions b)
    (autoDiscoveredComponents b) (globalProviders b) (globalInterceptors b)
    (factoryGeneratedControllers b).

Definition set_featureModules (v : list AnyModule) (b : AppInitializer) : AppInitializer :=
  mkAppInitializer (objId b) (module b) (adapter b) (port b) (globalPrefix b)
    (versioningOptions b) (corsOptions b) (swaggerOptions b) (setupFunctions b)
    (plugins b) v (advancedSwaggerUiOptions b)
    (autoDiscoveredComponents b) (globalProviders b) (globalInterceptors b)
    (factoryGeneratedControllers b).

Definition set_advancedSwaggerUiOptions (v : option AdvancedSwaggerUiOptions)
    (b : AppInitializer) : AppInitializer :=
  mkAppInitializer (objId b) (module b) (adapter b) (port b) (globalPrefix b)
    (versioningOptions b) (corsOptions b) (swaggerOptions b) (setupFunctions b)
    (plugins b) (featureModules b) v
    (autoDiscoveredComponents b) (globalProviders b) (globalInterceptors b)
    (factoryGeneratedControllers b).

Definition set_autoDiscoveredComponents
    (v : option AutoDiscovery.DiscoveredComponents)
    (b : AppInitializer) : AppInitializer :=
  mkAppInitializer (objId b) (module b) (adapter b) (port b) (globalPrefix b)
    (versioningOptions b) (corsOptions b) (swaggerOptions b) (setupFunctions b)
    (plugins b) (featureModules b) (advancedSwaggerUiOptions b)
    v (globalProviders b) (globalInterceptors b)
    (factoryGeneratedControllers b).

Definition set_globalProviders (v : list Provider) (b : AppInitializer) : AppInitializer :=
  mkAppInitializer (objId b) (module b) (adapter b) (port b) (globalPrefix b)
    (versioningOptions b) (corsOptions b) (swaggerOptions b) (setupFunctions b)
    (plugins b) (featureModules b) (advancedSwaggerUiOptions b)
    (autoDiscoveredComponents b) v (globalInterceptors b)
    (factoryGeneratedControllers b).

Definition set_globalInterceptors (v : list NestInterceptor) (b : AppInitializer) : AppInitializer :=
  mkAppInitializer (objId b) (module b) (adapter b) (port b) (globalPrefix b)
    (versioningOptions b) (corsOptions b) (swaggerOptions b) (setupFunctions b)
    (plugins b) (featureModules b) (advancedSwaggerUiOptions b)
    (autoDiscoveredComponents b) (globalProviders b) v
    (factoryGeneratedControllers b).

(** [this.seq.push(x)]. *)
Definition push {A : Type} (l : list A) (x : A) : list A := l ++ [x].

(** *** The chained configuration methods.  Each returns [this]. *)

Definition withHealthCheck (options : Health.TerminusHealthCheckOptions)
    (this : AppInitializer) : AppInitializer :=
  set_featureModules
    (push (featureModules this) (TerminusHealthCheckModule_forRoot options)) this.

Definition withMetrics (this : AppInitializer) : AppInitializer :=
  set_featureModules (push (featureModules this) MetricsModule_forRoot) this.

Definition onPort (port : JsNum) (this : AppInitializer) : AppInitializer :=
  set_port port this.

Definition withPlugin (plugin : Plugin) (this : AppInitializer) : AppInitializer :=
  set_plugins (push (plugins this) plugin) this.

Definition withVersioning (options : Props) (this : AppInitializer) : AppInitializer :=
  set_versioningOptions (Some options) this.

(** [prefix.startsWith('/') ? prefix : `/${prefix}`]. *)
Definition normalizePrefix (prefix : string) : string :=
  if String.prefix "/" prefix then prefix else "/" ++ prefix.

Definition withGlobalPrefix (prefix : string) (this : AppInitializer) : AppInitializer :=
  set_globalPrefix (Some (normalizePrefix prefix)) this.

(** [options: CorsOptions = {}]: [None] is an omitted argument. *)
Definition withCors (options : option Props) (this : AppInitializer) : AppInitializer :=
  set_corsOptions (Some (Starters.dflt options [])) this.

Definition defaultValidationPipeOptions : Props :=
  [ ("whitelist", JsBool true);
    ("forbidNonWhitelisted", JsBool true);
    ("transform", JsBool true);
    ("transformOptions", JsObject [("enableImplicitConversion", JsBool true)]) ].

Definition withValidationPipe (options : option Props) (this : AppInitializer)
  : AppInitializer :=
  let finalOptions := spread defaultValidationPipeOptions (Starters.dflt options []) in
  set_globalProviders
    (push (globalProviders this) (UseValue_ValidationPipe APP_PIPE finalOptions)) this.

Definition useGlobalPipe (pipe : ClassType) (this : AppInitializer) : AppInitializer :=
  set_globalProviders (push (globalProviders this) (UseClass APP_PIPE pipe)) this.

Definition useGlobalFilter (filter : ClassType) (this : AppInitializer) : AppInitializer :=
  set_globalProviders (push (globalProviders this) (UseClass APP_FILTER filter)) this.

Definition useGlobalGuard (guard : ClassType) (this : AppInitializer) : AppInitializer :=
  set_globalProviders (push (globalProviders this) (UseClass APP_GUARD guard)) this.

Definition useGlobalInterceptor (interceptor : ClassType) (this : AppInitializer)
  : AppInitializer :=
  set_globalProviders
    (push (globalProviders this) (UseClass APP_INTERCEPTOR interceptor)) this.

Definition ClassSerializerInterceptor : ClassType :=
  mkFunction "ClassSerializerInterceptor" true.

Definition withClassSerializer (this : AppInitializer) : AppInitializer :=
  set_globalProviders
    (push (globalProviders this) (UseClass APP_INTERCEPTOR ClassSerializerInterceptor))
    this.

(** [{ path: 'docs', ...options }].  (For an [options] whose [path] is
    present and [undefined] the object stores [undefined], which [listen]
    reads as ['docs'] again.) *)
Definition withSwagger (options : SwaggerOptions) (this : AppInitializer)
  : AppInitializer :=
  set_swaggerOptions
    (Some (mkSwaggerOptions (title options) (description options) (version options)
             (tags options) (Some (Starters.dflt (path options) "docs"))
             (documentOptions options) (customOptions options)))
    this.

Definition withAdvancedSwaggerUI (h : Host) (this : AppInitializer) : AppInitializer :=
  set_advancedSwaggerUiOptions
    (Some (mkAdvancedSwaggerUi
             (Some (AutoDiscovery.join (fileSystem h)
                      [dirname h; "swagger-ui-customization"; "swagger-dark-theme.css"]))
             (Some (AutoDiscovery.join (fileSystem h)
                      [dirname h; "swagger-ui-customization"; "swagger-custom.js"]))))
    this.

Definition withGracefulShutdown (this : AppInitializer) : AppInitializer :=
  set_setupFunctions (push (setupFunctions this) Setup_enableShutdownHooks) this.

Definition useHelmet (this : AppInitializer) : AppInitializer :=
  set_setupFunctions (push (setupFunctions this) Setup_useHelmet) this.

Definition enableCompression (this : AppInitializer) : AppInitializer :=
  set_setupFunctions (push (setupFunctions this) Setup_useCompression) this.

Definition withValidatedConfig (schema : ConfigValidator.Schema)
    (this : AppInitializer) : AppInitializer :=
  let configModule :=
    ConfigModule_forRoot true
      (fun stack config => ConfigValidator.validateConfig stack config schema) in
  set_featureModules (push (featureModules this) configModule) this.

Definition emptyTypeOrmOptions : Starters.TypeOrmStarterOptions :=
  Starters.mkTypeOrmOptions None None None None.

(** The loop [for (const plugin of starter.plugins) this.withPlugin(plugin)]. *)
Definition withTypeOrm (options : option Starters.TypeOrmStarterOptions)
    (this : AppInitializer) : AppInitializer :=
  let starter :=
    Starters.createTypeOrmStarter (Starters.dflt options emptyTypeOrmOptions) in
  let this1 :=
    set_featureModules (push (featureModules this) (Starters.module starter)) this in
  fold_left (fun b plugin => withPlugin plugin b) (Starters.plugins starter) this1.

Definition withMongoose (options : option Starters.MongooseStarterOptions)
    (this : AppInitializer) : AppInitializer :=
  let starter :=
    Starters.createMongooseStarter
      (Starters.dflt options (Starters.mkMongooseOptions None None)) in
  set_featureModules (push (featureModules this) (Starters.module starter)) this.

Definition withCaching (options : option Starters.CachingStarterOptions)
    (this : AppInitializer) : AppInitializer :=
  let cacheDynamicModule :=
    Starters.createCachingStarter
      (Starters.dflt options (Starters.mkCachingOptions None None)) in
  set_featureModules (push (featureModules this) cacheDynamicModule) this.

Definition withAutoDiscovery (h : Host) (basePath : string) (this : AppInitializer)
  : AppInitializer :=
  let reflector := metadata h in
  set_autoDiscoveredComponents
    (Some (AutoDiscovery.discoverComponents (fileSystem h) basePath reflector (require h)))
    this.

Definition addGlobalInterceptor (interceptor : NestInterceptor)
    (this : AppInitializer) : AppInitializer :=
  set_globalInterceptors (push (globalInterceptors this) interceptor) this.

Definition withResponseMapper (mapper : ResponseMapper) (this : AppInitializer)
  : AppInitializer :=
  set_globalInterceptors
    (push (globalInterceptors this) (ResponsePatternInterceptor mapper)) this.

(** [{ ...swaggerOptions, path: 'docs' }], then the request logger. *)
Definition useDevelopmentDefaults (swaggerOptions : SwaggerOptions)
    (this : AppInitializer) : AppInitializer :=
  let this1 :=
    withSwagger
      (mkSwaggerOptions (title swaggerOptions) (description swaggerOptions)
         (version swaggerOptions) (tags swaggerOptions) (Some "docs")
         (documentOptions swaggerOptions) (customOptions swaggerOptions))
      this in
  withPlugin RequestLoggerPlugin this1.

Definition useProductionDefaults (this : AppInitializer) : AppInitializer :=
  let this1 := useHelmet this in
  let this2 := enableCompression this1 in
  let this3 := withGracefulShutdown this2 in
  withPlugin (newRateLimiterPlugin []) this3.

(** [when]: the callback receives the builder; it returns or throws. *)
Definition when (condition : bool)
    (configure : AppInitializer -> Completion AppInitializer)
    (this : AppInitializer) : Completion AppInitializer :=
  if condition then configure this else Normal this.

(** *** Scripts of configuration calls

    A call of one of the chained methods, with its arguments.  The
    callback given to [when] (and the configurator given to [bootstrap])
    is a piece of the user's code: a sequence of calls on the builder it
    receives, which may end by throwing.  The callback of [when] is an
    ordinary function. *)
Inductive Method : Type :=
| UseDevelopmentDefaults (swaggerOptions : SwaggerOptions)
| UseProductionDefaults
| When (condition : bool) (calls : list Method) (raises : option Thrown)
| WithHealthCheck (options : Health.TerminusHealthCheckOptions)
| WithMetrics
| OnPort (port : JsNum)
| WithPlugin (plugin : Plugin)
| WithVersioning (options : Props)
| WithGlobalPrefix (prefix : string)
| WithCors (options : option Props)
| WithValidationPipe (options : option Props)
| UseGlobalPipe (pipe : ClassType)
| UseGlobalFilter (filter : ClassType)
| UseGlobalGuard (guard : ClassType)
| UseGlobalInterceptor (interceptor : ClassType)
| WithClassSerializer
| WithSwagger (options : SwaggerOptions)
| WithAdvancedSwaggerUI
| WithGracefulShutdown
| UseHelmet
| EnableCompression
| WithValidatedConfig (schema : ConfigValidator.Schema)
| WithTypeOrm (options : option Starters.TypeOrmStarterOptions)
| WithMongoose (options : option Starters.MongooseStarterOptions)
| WithCaching (options : option Starters.CachingStarterOptions)
| WithAutoDiscovery (basePath : string)
| AddGlobalInterceptor (interceptor : NestInterceptor)
| WithResponseMapper (mapper : ResponseMapper).

(** A callback: an ordinary function or an [async] one, its calls, then
    the value it throws, if any.  [AppConfigurator] is declared to return
    [void], which admits both kinds, and the README passes
    [async (app) => { ... }].  The body of an [async] callback does not
    [await]. *)
Record Callback : Type := mkCallback {
  isAsync : bool;
  calls : list Method;
  raises : option Thrown
}.

Definition finish (raises : option Thrown) (b : AppInitializer)
  : Completion AppInitializer :=
  match raises with
  | Some e => Throws e
  | None => Normal b
  end.

Fixpoint invoke (h : Host) (m : Method) (this : AppInitializer) {struct m}
  : Completion AppInitializer :=
  match m with
  | UseDevelopmentDefaults o => Normal (useDevelopmentDefaults o this)
  | UseProductionDefaults => Normal (useProductionDefaults this)
  | When condition body raises =>
      when condition
        (fun builder =>
           (fix runBody (l : list Method) (b : AppInitializer) {struct l}
              : Completion AppInitializer :=
              match l with
              | [] => finish raises b
              | m' :: rest =>
                  match invoke h m' b with
                  | Normal b' => runBody rest b'
                  | Throws e => Throws e
                  end
              end) body builder)
        this
  | WithHealthCheck o => Normal (withHealthCheck o this)
  | WithMetrics => Normal (withMetrics this)
  | OnPort p => Normal (onPort p this)
  | WithPlugin p => Normal (withPlugin p this)
  | WithVersioning o => Normal (withVersioning o this)
  | WithGlobalPrefix p => Normal (withGlobalPrefix p this)
  | WithCors o => Normal (withCors o this)
  | WithValidationPipe o => Normal (withValidationPipe o this)
  | UseGlobalPipe c => Normal (useGlobalPipe c this)
  | UseGlobalFilter c => Normal (useGlobalFilter c this)
  | UseGlobalGuard c => Normal (useGlobalGuard c this)
  | UseGlobalInterceptor c => Normal (useGlobalInterceptor c this)
  | WithClassSerializer => Normal (withClassSerializer this)
  | WithSwagger o => Normal (withSwagger o this)
  | WithAdvancedSwaggerUI => Normal (withAdvancedSwaggerUI h this)
  | WithGracefulShutdown => Normal (withGracefulShutdown this)
  | UseHelmet => Normal (useHelmet this)
  | EnableCompression => Normal (enableCompression this)
  | WithValidatedConfig s => Normal (withValidatedConfig s this)
  | WithTypeOrm o => Normal (withTypeOrm o this)
  | WithMongoose o => Normal (withMongoose o this)
  | WithCaching o => Normal (withCaching o this)
  | WithAutoDiscovery p => Normal (withAutoDiscovery h p this)
  | AddGlobalInterceptor i => Normal (addGlobalInterceptor i this)
  | WithResponseMapper mp => Normal (withResponseMapper mp this)
  end.

(** Running the calls of a callback body in order. *)
Fixpoint runCalls (h : Host) (l : list Method) (raises : option Thrown)
    (b : AppInitializer) : Completion AppInitializer :=
  match l with
  | [] => finish raises b
  | m :: rest =>
      match invoke h m b with
      | Normal b' => runCalls h rest raises b'
      | Throws e => Throws e
      end
  end.

(** The builder as a call leaves it, whether the call returns or throws:
    what was written before a callback threw stays written. *)
Fixpoint reached (h : Host) (m : Method) (this : AppInitializer) {struct m}
  : AppInitializer :=
  match m with
  | When condition body _ =>
      if condition then
        (fix reachedBody (l : list Method) (b : AppInitializer) {struct l}
           : AppInitializer :=
           match l with
           | [] => b
           | m' :: rest =>
               match invoke h m' b with
               | Normal b' => reachedBody rest b'
               | Throws _ => reached h m' b
               end
           end) body this
      else this
  | _ =>
      match invoke h m this with
      | Normal b' => b'
      | Throws _ => this
      end
  end.

Fixpoint reachedCalls (h : Host) (l : list Method) (b : AppInitializer)
  : AppInitializer :=
  match l with
  | [] => b
  | m :: rest =>
      match invoke h m b with
      | Normal b' => reachedCalls h rest b'
      | Throws _ => reached h m b
      end
  end.

(** [finalConfigurator(initializer)], whose result [bootstrap] does not
    use.  An ordinary function returns or throws.  An [async] function
    runs its body and returns a promise, rejected with what the body
    threw: the call itself does not throw, and the builder is as the body
    left it. *)
Definition runCallback (h : Host) (c : Callback) (b : AppInitializer)
  : Completion AppInitializer :=
  if isAsync c
  then Normal (reachedCalls h (calls c) b)
  else runCalls h (calls c) (raises c) b.

(* ================================================================== *)
(** ** Effects: the framework and the trace monad *)
(* ================================================================== *)

(** The framework and the runtime, as far as the builder observes them:
    whether a call made after a given trace throws (or rejects), the URL
    [app.getUrl()] resolves to, and the stack trace recorded for an
    error created with a given constructor and message. *)
Record Framework : Type := mkFramework {
  rejects : Trace -> FrameworkCall -> option Thrown;
  appUrl : Trace -> string;
  stackOf : string -> string -> string
}.

(** A computation takes the trace so far and gives the events it adds and
    its completion. *)
Definition M (A : Type) : Type := Trace -> Trace * Completion A.

Definition ret {A : Type} (a : A) : M A := fun _ => ([], Normal a).

Definition throw {A : Type} (e : Thrown) : M A := fun _ => ([], Throws e).

Definition bind {A B : Type} (c : M A) (k : A -> M B) : M B :=
  fun past =>
    match c past with
    | (t1, Normal a) =>
        match k a (past ++ t1) with
        | (t2, r) => (t1 ++ t2, r)
        end
    | (t1, Throws e) => (t1, Throws e)
    end.

Notation "c1 ;; c2" := (bind c1 (fun _ => c2))
  (at level 61, right associativity).
Notation "x <- c1 ;; c2" := (bind c1 (fun x => c2))
  (at level 61, c1 at next level, right associativity).

(** [try { body } catch (error) { handler }]. *)
Definition tryCatch {A : Type} (body : M A) (handler : Thrown -> M A) : M A :=
  fun past =>
    match body past with
    | (t1, Normal a) => (t1, Normal a)
    | (t1, Throws e) =>
        match handler e (past ++ t1) with
        | (t2, r) => (t1 ++ t2, r)
        end
    end.

Definition lift {A : Type} (c : Completion A) : M A := fun _ => ([], c).

(** A call that cannot throw: the logger, [process.exit]. *)
Definition emit (c : FrameworkCall) : M unit := fun _ => ([Call c], Normal tt).

(** An entry of the trace that is not a call into the framework. *)
Definition note (e : Event) : M unit := fun _ => ([e], Normal tt).

Definition rejectionOf {A : Type} (r : Completion A) : option Thrown :=
  match r with
  | Normal _ => None
  | Throws e => Some e
  end.

(** How a promise settles, or a call completes. *)
Definition settledWith (rejection : option Thrown) : Completion unit :=
  match rejection with
  | Some e => Throws e
  | None => Normal tt
  end.

(** What is awaited: a value that is not a promise, or a promise, given
    by what remains to happen until it settles; it is fulfilled when
    that returns and rejected with what that throws. *)
Inductive Awaitable : Type :=
| NotAPromise
| APromise (pending : M unit).

(** [await value]: the caller is suspended until the value has settled,
    and resumes, or throws the rejection.  Nothing else of the builder
    runs in between. *)
Definition await (value : Awaitable) : M unit :=
  match value with
  | NotAPromise => ret tt
  | APromise pending => pending
  end.

(** The application at position [index] is complete when [c] is: this
    is recorded with the way it completed. *)
Definition completes (index : nat) (c : M unit) : M unit :=
  fun past =>
    match c past with
    | (t, r) => (t ++ [ApplySettled index (rejectionOf r)], r)
    end.

Fixpoint forEach {A : Type} (f : A -> M unit) (l : list A) : M unit :=
  match l with
  | [] => ret tt
  | x :: rest => f x ;; forEach f rest
  end.

Section WithFramework.

Variable fw : Framework.

(** A call into the framework: recorded, then it returns or throws. *)
Definition call (c : FrameworkCall) : M unit :=
  fun past =>
    match rejects fw past c with
    | Some e => ([Call c], Throws e)
    | None => ([Call c], Normal tt)
    end.

(** [await this.app.getUrl()]. *)
Definition getUrl : M string :=
  fun past =>
    match rejects fw past App_getUrl with
    | Some e => ([Call App_getUrl], Throws e)
    | None => ([Call App_getUrl], Normal (appUrl fw past))
    end.

(** *** The plugins ([plugins/*.plugin.ts]) *)

Definition TypeOrmMigrationPlugin_apply : M unit :=
  tryCatch
    (call (App_get "DataSource") ;;
     emit (Logger_log "TypeOrmMigrationPlugin"
             "Iniciando execução das migrations do banco de dados...") ;;
     call DataSource_runMigrations ;;
     emit (Logger_log "TypeOrmMigrationPlugin" "Migrations executadas com sucesso."))
    (fun error =>
       emit (Logger_error "TypeOrmMigrationPlugin"
               "Falha ao obter DataSource ou executar migrations."
               (ThrownValue error)) ;;
       throw error).

(** The whole of an application of the plugin at position [index]:
    everything [plugin.apply(app)] does, during the call and until the
    promise it returns has settled, and the way it completes. *)
Definition applyPlugin (index : nat) (p : Plugin) : M unit :=
  match p with
  | RequestLoggerPlugin => call (App_use (Morgan "dev"))
  | RateLimiterPlugin options => call (App_use (RateLimit options))
  | TypeOrmMigrationPlugin => TypeOrmMigrationPlugin_apply
  | CustomPlugin _ apply =>
      fun past =>
        match apply past with
        | (effects, Threw e) => (map (PluginEffect index) effects, Throws e)
        | (effects, ReturnedVoid) => (map (PluginEffect index) effects, Normal tt)
        | (effects, ReturnedPromise deferred rejection) =>
            (map (PluginEffect index) (effects ++ deferred), settledWith rejection)
        end
  end.

(** The call [apply(app)] of the migration plugin, an [async] method: its
    body runs during the call up to [await dataSource.runMigrations()],
    and the rest runs when the migrations are over.  When [app.get]
    throws, the [catch] block runs during the call and the promise
    returned is already rejected. *)
Definition TypeOrmMigrationPlugin_call (index : nat) : M Awaitable :=
  fun past =>
    let lookup := Call (App_get "DataSource") in
    let starting :=
      Call (Logger_log "TypeOrmMigrationPlugin"
              "Iniciando execução das migrations do banco de dados...") in
    let failed error :=
      Logger_error "TypeOrmMigrationPlugin"
        "Falha ao obter DataSource ou executar migrations." (ThrownValue error) in
    match rejects fw past (App_get "DataSource") with
    | Some error =>
        ([lookup; Call (failed error); ApplySettled index (Some error)],
         Normal (APromise (throw error)))
    | None =>
        ([lookup; starting; Call DataSource_runMigrations],
         Normal
           (APromise
              (completes index
                 match rejects fw (past ++ [lookup; starting])
                         DataSource_runMigrations with
                 | Some error => emit (failed error) ;; throw error
                 | None =>
                     emit (Logger_log "TypeOrmMigrationPlugin"
                             "Migrations executadas com sucesso.")
                 end)))
    end.

(** The call [plugin.apply(this.app)] for the plugin at position [index]:
    what happens during the call, and what the call gives back.  The two
    middleware plugins have an ordinary method, which has done its work
    when it returns. *)
Definition callApply (index : nat) (p : Plugin) : M Awaitable :=
  note (ApplyCalled index) ;;
  match p with
  | RequestLoggerPlugin =>
      completes index (call (App_use (Morgan "dev"))) ;; ret NotAPromise
  | RateLimiterPlugin options =>
      completes index (call (App_use (RateLimit options))) ;; ret NotAPromise
  | TypeOrmMigrationPlugin => TypeOrmMigrationPlugin_call index
  | CustomPlugin _ apply =>
      fun past =>
        match apply past with
        | (effects, Threw e) =>
            (map (PluginEffect index) effects ++ [ApplySettled index (Some e)],
             Throws e)
        | (effects, ReturnedVoid) =>
            (map (PluginEffect index) effects ++ [ApplySettled index None],
             Normal NotAPromise)
        | (effects, ReturnedPromise deferred rejection) =>
            (map (PluginEffect index) effects,
             Normal
               (APromise
                  (completes index
                     (fun _ =>
                        (map (PluginEffect index) deferred,
                         settledWith rejection)))))
        end
  end.

(** [await plugin.apply(this.app)]. *)
Definition awaitApply (index : nat) (p : Plugin) : M unit :=
  value <- callApply index p ;;
  await value.

(** *** [listen] *)

Definition loggerContext : string := "AppInitializer".

Definition discoveredProviders (this : AppInitializer) : list ClassType :=
  match autoDiscoveredComponents this with
  | Some d => AutoDiscovery.providers d
  | None => []
  end.

Definition discoveredControllers (this : AppInitializer) : list ClassType :=
  match autoDiscoveredComponents this with
  | Some d => AutoDiscovery.controllers d
  | None => []
  end.

(** The class [DynamicRootModule] declared in [listen]. *)
Definition declareRootModule (this : AppInitializer) : DynamicRootModule :=
  let rootImports := ModuleClass (module this) :: featureModules this in
  let allProviders :=
    map ClassProvider (discoveredProviders this) ++ globalProviders this in
  let allControllers :=
    discoveredControllers this ++ factoryGeneratedControllers this in
  mkRootModule rootImports allControllers allProviders.

Definition runSetup (setup : SetupFunction) : M unit :=
  match setup with
  | Setup_enableShutdownHooks => call App_enableShutdownHooks
  | Setup_useHelmet => call (App_use Helmet)
  | Setup_useCompression => call (App_use Compression)
  end.

(** The loop over [this.plugins], from position [index] on. *)
Fixpoint applyPlugins (index : nat) (ps : list Plugin) : M unit :=
  match ps with
  | [] => ret tt
  | plugin :: rest =>
      emit (Logger_log loggerContext ("Aplicando o plugin: " ++ pluginName plugin)) ;;
      awaitApply index plugin ;;
      applyPlugins (S index) rest
  end.

Definition applyGlobalPrefix (this : AppInitializer) : M unit :=
  match globalPrefix this with
  | Some p => if truthy (JsString p) then call (App_setGlobalPrefix p) else ret tt
  | None => ret tt
  end.

Definition applyCors (this : AppInitializer) : M unit :=
  match corsOptions this with
  | Some o => if truthy (JsObject o) then call (App_enableCors o) else ret tt
  | None => ret tt
  end.

Definition applyVersioning (this : AppInitializer) : M unit :=
  match versioningOptions this with
  | Some o => if truthy (JsObject o) then call (App_enableVersioning o) else ret tt
  | None => ret tt
  end.

Definition setupSwagger (this : AppInitializer) : M unit :=
  match swaggerOptions this with
  | Some o =>
      call DocumentBuilder_new ;;
      call (DocumentBuilder_setTitle (title o)) ;;
      call (DocumentBuilder_setDescription (description o)) ;;
      call (DocumentBuilder_setVersion (version o)) ;;
      forEach (fun tag => call (DocumentBuilder_addTag (tagName tag) (tagDescription tag)))
              (Starters.dflt (tags o) []) ;;
      call DocumentBuilder_build ;;
      call (SwaggerModule_createDocument (documentOptions o)) ;;
      call (SwaggerModule_setup (Starters.dflt (path o) "docs") (customOptions o))
  | None => ret tt
  end.

Definition logSwaggerUrl (this : AppInitializer) (appUrlValue : string) : M unit :=
  match swaggerOptions this with
  | Some o =>
      let swaggerPath := Starters.dflt (path o) "docs" in
      emit (Logger_log loggerContext
              ("📄 Documentação Swagger disponível em: "
                 ++ appUrlValue ++ "/" ++ swaggerPath))
  | None => ret tt
  end.

Definition listen (this : AppInitializer) : M unit :=
  emit (Logger_log loggerContext "Criando a instância da aplicação NestJS...") ;;
  call (NestFactory_create (declareRootModule this) (adapter this)) ;;
  applyGlobalPrefix this ;;
  applyCors this ;;
  applyVersioning this ;;
  forEach runSetup (setupFunctions this) ;;
  applyPlugins 0 (plugins this) ;;
  forEach (fun interceptor => call (App_useGlobalInterceptors interceptor))
          (globalInterceptors this) ;;
  setupSwagger this ;;
  call (App_listen (port this)) ;;
  appUrlValue <- getUrl ;;
  emit (Logger_log loggerContext ("🚀 Aplicação rodando em: " ++ appUrlValue)) ;;
  logSwaggerUrl this appUrlValue.

(** *** [bootstrap] *)

(** The second argument of [bootstrap]: an adapter object or the
    configurator function. *)
Inductive AdapterOrConfigurator : Type :=
| AnAdapter (a : AbstractHttpAdapter)
| AConfigurator (c : Callback).

Definition missingConfiguratorMessage : string :=
  "Função de configuração do bootstrap não encontrada. Verifique os argumentos.".

(** The [catch] block of [bootstrap]; the first branch is that of
    [error instanceof Error]. *)
Definition bootstrapFailure (error : Thrown) : M unit :=
  (match error with
   | ErrorObject _ message stack =>
       emit (Logger_error loggerContext
               ("Falha ao inicializar a aplicação. Error: " ++ message)
               (StackTrace stack))
   | NonError _ =>
       emit (Logger_error loggerContext
               "Falha ao inicializar a aplicação com um erro não-padrão."
               (ThrownValue error))
   end) ;;
  emit (Process_exit 1).

(** The [try] block of [bootstrap]. *)
Definition bootstrapAttempt (h : Host) (finalConfigurator : Callback)
    (initializer : AppInitializer) : M unit :=
  emit (Logger_log loggerContext
          "Iniciando o processo de bootstrap da aplicação...") ;;
  configured <- lift (runCallback h finalConfigurator initializer) ;;
  listen configured.

(** [const adapter = isExpress ? undefined : adapterOrConfigurator],
    where [isExpress] tells whether the second argument is a function. *)
Definition adapterOf (adapterOrConfigurator : AdapterOrConfigurator)
  : option AbstractHttpAdapter :=
  match adapterOrConfigurator with
  | AConfigurator _ => None
  | AnAdapter a => Some a
  end.

(** [const finalConfigurator = isExpress ? adapterOrConfigurator : configurator]. *)
Definition finalConfiguratorOf (adapterOrConfigurator : AdapterOrConfigurator)
    (configurator : option Callback) : option Callback :=
  match adapterOrConfigurator with
  | AConfigurator c => Some c
  | AnAdapter _ => configurator
  end.

(** [id] is the identity of the builder that [new AppInitializer]
    allocates. *)
Definition bootstrap (h : Host) (id : nat) (module : ClassType)
    (adapterOrConfigurator : AdapterOrConfigurator)
    (configurator : option Callback) : M unit :=
  let adapter := adapterOf adapterOrConfigurator in
  match finalConfiguratorOf adapterOrConfigurator configurator with
  | None =>
      throw (ErrorObject "TypeError" missingConfiguratorMessage
               (stackOf fw "TypeError" missingConfiguratorMessage))
  | Some finalConfigurator =>
      let initializer := newAppInitializer h id module adapter in
      tryCatch (bootstrapAttempt h finalConfigurator initializer)
               bootstrapFailure
  end.

End WithFramework.

(* ================================================================== *)
(** ** Vocabulary of the properties *)
(* ================================================================== *)

(** The mutable fields of the builder. *)
Inductive Field : Type :=
| F_port
| F_globalPrefix
| F_versioningOptions
| F_corsOptions
| F_swaggerOptions
| F_setupFunctions
| F_plugins
| F_featureModules
| F_advancedSwaggerUiOptions
| F_autoDiscoveredComponents
| F_globalProviders
| F_globalInterceptors
| F_factoryGeneratedControllers.

(** Field [g] has the same value in [b] and [b']. *)
Definition unchanged (g : Field) (b b' : AppInitializer) : Prop :=
  match g with
  | F_port => port b' = port b
  | F_globalPrefix => globalPrefix b' = globalPrefix b
  | F_versioningOptions => versioningOptions b' = versioningOptions b
  | F_corsOptions => corsOptions b' = corsOptions b
  | F_swaggerOptions => swaggerOptions b' = swaggerOptions b
  | F_setupFunctions => setupFunctions b' = setupFunctions b
  | F_plugins => plugins b' = plugins b
  | F_featureModules => featureModules b' = featureModules b
  | F_advancedSwaggerUiOptions =>
      advancedSwaggerUiOptions b' = advancedSwaggerUiOptions b
  | F_autoDiscoveredComponents =>
      autoDiscoveredComponents b' = autoDiscoveredComponents b
  | F_globalProviders => globalProviders b' = globalProviders b
  | F_globalInterceptors => globalInterceptors b' = globalInterceptors b
  | F_factoryGeneratedControllers =>
      factoryGeneratedControllers b' = factoryGeneratedControllers b
  end.

(** The call returned the builder it was invoked on. *)
Definition sameInstance (b b' : AppInitializer) : Prop :=
  objId b' = objId b /\ module b' = module b /\ adapter b' = adapter b.

(** Whether [withTypeOrm(options)] asks for the migrations to run. *)
Definition runsMigrations (options : option Starters.TypeOrmStarterOptions) : bool :=
  Starters.dflt
    (Starters.runMigrationsOnStartup (Starters.dflt options emptyTypeOrmOptions))
    false.

(** The primitive calls: all but the two presets and [when]. *)
Definition primitive (m : Method) : bool :=
  match m with
  | UseDevelopmentDefaults _ => false
  | UseProductionDefaults => false
  | When _ _ _ => false
  | _ => true
  end.

(** The fields a call may write. *)
Fixpoint targets (m : Method) : list Field :=
  match m with
  | UseDevelopmentDefaults _ => [F_swaggerOptions; F_plugins]
  | UseProductionDefaults => [F_setupFunctions; F_plugins]
  | When condition body _ =>
      if condition then
        (fix all (l : list Method) : list Field :=
           match l with
           | [] => []
           | m' :: rest => targets m' ++ all rest
           end) body
      else []
  | WithHealthCheck _ => [F_featureModules]
  | WithMetrics => [F_featureModules]
  | OnPort _ => [F_port]
  | WithPlugin _ => [F_plugins]
  | WithVersioning _ => [F_versioningOptions]
  | WithGlobalPrefix _ => [F_globalPrefix]
  | WithCors _ => [F_corsOptions]
  | WithValidationPipe _ => [F_globalProviders]
  | UseGlobalPipe _ => [F_globalProviders]
  | UseGlobalFilter _ => [F_globalProviders]
  | UseGlobalGuard _ => [F_globalProviders]
  | UseGlobalInterceptor _ => [F_globalProviders]
  | WithClassSerializer => [F_globalProviders]
  | WithSwagger _ => [F_swaggerOptions]
  | WithAdvancedSwaggerUI => [F_advancedSwaggerUiOptions]
  | WithGracefulShutdown => [F_setupFunctions]
  | UseHelmet => [F_setupFunctions]
  | EnableCompression => [F_setupFunctions]
  | WithValidatedConfig _ => [F_featureModules]
  | WithTypeOrm o =>
      if runsMigrations o then [F_featureModules; F_plugins] else [F_featureModules]
  | WithMongoose _ => [F_featureModules]
  | WithCaching _ => [F_featureModules]
  | WithAutoDiscovery _ => [F_autoDiscoveredComponents]
  | AddGlobalInterceptor _ => [F_globalInterceptors]
  | WithResponseMapper _ => [F_globalInterceptors]
  end.

(** What a call guarantees about the fields it does not target. *)
Definition framed (h : Host) (m : Method) : Prop :=
  forall b b', invoke h m b = Normal b' ->
               sameInstance b b'
               /\ forall g, ~ In g (targets m) -> unchanged g b b'.

(** [b'] is [b] with the five sequences extended by the given entries. *)
Definition extends (b b' : AppInitializer) (ds : list SetupFunction)
    (dp : list Plugin) (dm : list AnyModule) (dg : list Provider)
    (di : list NestInterceptor) : Prop :=
  setupFunctions b' = setupFunctions b ++ ds
  /\ plugins b' = plugins b ++ dp
  /\ featureModules b' = featureModules b ++ dm
  /\ globalProviders b' = globalProviders b ++ dg
  /\ globalInterceptors b' = globalInterceptors b ++ di.

(** A call appends the same entries whatever the builder holds. *)
Definition appending (h : Host) (m : Method) : Prop :=
  exists ds dp dm dg di,
    forall b b', invoke h m b = Normal b' -> extends b b' ds dp dm dg di.

(** Whether a call throws does not depend on the builder. *)
Definition throwsAnywhere (h : Host) (m : Method) : Prop :=
  forall b e x, invoke h m b = Throws x -> invoke h m e = Throws x.

(** Two calls of the same method that assigns a scalar field. *)
Definition sameSetter (m1 m2 : Method) : bool :=
  match m1, m2 with
  | OnPort _, OnPort _ => true
  | WithVersioning _, WithVersioning _ => true
  | WithGlobalPrefix _, WithGlobalPrefix _ => true
  | WithCors _, WithCors _ => true
  | WithSwagger _, WithSwagger _ => true
  | WithAdvancedSwaggerUI, WithAdvancedSwaggerUI => true
  | WithAutoDiscovery _, WithAutoDiscovery _ => true
  | _, _ => false
  end.

(** What a completed call left in a sequence of the builder. *)
Definition entries {A : Type} (seq : AppInitializer -> list A)
    (r : Completion AppInitializer) : list A :=
  match r with
  | Normal b => seq b
  | Throws _ => []
  end.

(** All five sequences of the builder are empty. *)
Definition emptySequences (b : AppInitializer) : Prop :=
  setupFunctions b = [] /\ plugins b = [] /\ featureModules b = []
  /\ globalProviders b = [] /\ globalInterceptors b = [].

(** The composition roots handed to [NestFactory.create] in a trace. *)
Fixpoint createdRoots (t : Trace) : list DynamicRootModule :=
  match t with
  | [] => []
  | Call (NestFactory_create root _) :: rest => root :: createdRoots rest
  | _ :: rest => createdRoots rest
  end.

Definition isCreate (e : Event) : bool :=
  match e with
  | Call (NestFactory_create _ _) => true
  | _ => false
  end.

(** The calls of a trace that set the route prefix, the CORS policy or
    the versioning policy. *)
Definition isSetting (e : Event) : bool :=
  match e with
  | Call (App_setGlobalPrefix _) => true
  | Call (App_enableCors _) => true
  | Call (App_enableVersioning _) => true
  | _ => false
  end.

Definition settingsCalls (t : Trace) : Trace := filter isSetting t.

(** The three settings a builder holds, in the order of the
    specification; nothing for a field that is not set. *)
Definition configuredSettings (b : AppInitializer) : Trace :=
  (match globalPrefix b with Some p => [Call (App_setGlobalPrefix p)] | None => [] end)
  ++ (match corsOptions b with Some o => [Call (App_enableCors o)] | None => [] end)
  ++ (match versioningOptions b with
      | Some o => [Call (App_enableVersioning o)]
      | None => []
      end).

(** The calls and settlements of plugin applications in a trace. *)
Definition isApplyEvent (e : Event) : bool :=
  match e with
  | ApplyCalled _ => true
  | ApplySettled _ _ => true
  | _ => false
  end.

Definition applyEvents (t : Trace) : Trace := filter isApplyEvent t.

(** The schedule of [n] applications from position [i] on, each settled
    without rejection before the next is called. *)
Fixpoint completedRuns (i n : nat) : Trace :=
  match n with
  | O => []
  | S n' => ApplyCalled i :: ApplySettled i None :: completedRuns (S i) n'
  end.

(** A computation adds no event selected by [Q], from any trace. *)
Definition silent (Q : Event -> bool) {A : Type} (c : M A) : Prop :=
  forall past, filter Q (fst (c past)) = [].

(** What the plugin applications of a run of [listen] over [n] plugins
    look like: the loop was not reached because an earlier step threw; or
    all [n] plugins were applied one after the other; or the plugin at
    position [k] rejected with [e] after the [k] before it had settled,
    and [listen] rejected with [e]. *)
Definition sequentialOutcome (n : nat) (events : Trace) (r : Completion unit) : Prop :=
  (events = [] /\ exists e, r = Throws e)
  \/ events = completedRuns 0 n
  \/ (exists k e,
        (k < n)%nat
        /\ events = completedRuns 0 k ++ [ApplyCalled k; ApplySettled k (Some e)]
        /\ r = Throws e).

(** The steps of [listen] that follow the plugins, those from the
    plugins on, and those that follow the three settings. *)
Definition afterPlugins (fw : Framework) (this : AppInitializer) : M unit :=
  forEach (fun interceptor => call fw (App_useGlobalInterceptors interceptor))
          (globalInterceptors this) ;;
  setupSwagger fw this ;;
  call fw (App_listen (port this)) ;;
  appUrlValue <- getUrl fw ;;
  emit (Logger_log loggerContext ("🚀 Aplicação rodando em: " ++ appUrlValue)) ;;
  logSwaggerUrl this appUrlValue.

Definition fromPlugins (fw : Framework) (this : AppInitializer) : M unit :=
  applyPlugins fw 0 (plugins this) ;; afterPlugins fw this.

Definition afterSettings (fw : Framework) (this : AppInitializer) : M unit :=
  forEach (runSetup fw) (setupFunctions this) ;; fromPlugins fw this.

(** What the failure handler of [bootstrap] does: an error logged by the
    builder's logger, the exit of the process. *)
Definition isFailureReport (e : Event) : bool :=
  match e with
  | Call (Logger_error context _ _) => String.eqb context "AppInitializer"
  | Call (Process_exit _) => true
  | _ => false
  end.

(** The message and the detail the failure handler logs for an error. *)
Definition failureMessage (error : Thrown) : string :=
  match error with
  | ErrorObject _ message _ => "Falha ao inicializar a aplicação. Error: " ++ message
  | NonError _ => "Falha ao inicializar a aplicação com um erro não-padrão."
  end.

Definition failureDetail (error : Thrown) : LogDetail :=
  match error with
  | ErrorObject _ _ stack => StackTrace stack
  | NonError _ => ThrownValue error
  end.

(** The call that binds the network listener. *)
Definition isListen (e : Event) : bool :=
  match e with
  | Call (App_listen _) => true
  | _ => false
  end.

(* ================================================================== *)
(** ** Vocabulary of the further properties *)
(* ================================================================== *)

(** The buckets of [d1] followed by those of [d2]. *)
Definition appendDiscovered (d1 d2 : AutoDiscovery.DiscoveredComponents)
  : AutoDiscovery.DiscoveredComponents :=
  AutoDiscovery.mkDiscovered
    (AutoDiscovery.providers d1 ++ AutoDiscovery.providers d2)
    (AutoDiscovery.controllers d1 ++ AutoDiscovery.controllers d2).

(** [f] is exported by one of the files, which loads, and it is a
    function with a prototype. *)
Definition exportedBy (requireFn : AutoDiscovery.RequireFn) (files : list string)
    (f : FunctionObject) : Prop :=
  exists file exports key,
    In file files /\ requireFn file = Normal exports
    /\ In (key, JsFunction f) exports /\ fnPrototype f = true.

(** The reflector gives a truthy value for the key on [f]. *)
Definition tagged (reflectorInst : AutoDiscovery.Reflector) (key : string)
    (f : FunctionObject) : Prop :=
  exists v, reflectorInst key f = Normal v /\ truthy v = true.

(** The reflector gives a falsy value for the key on [f]. *)
Definition untagged (reflectorInst : AutoDiscovery.Reflector) (key : string)
    (f : FunctionObject) : Prop :=
  exists v, reflectorInst key f = Normal v /\ truthy v = false.

(** [obj[k]]: the value of the first property named [k], [undefined]
    when there is none. *)
Fixpoint getProp (k : string) (o : Props) : JsValue :=
  match o with
  | [] => JsUndefined
  | (k', v) :: rest => if String.eqb k k' then v else getProp k rest
  end.

(** [k in obj], for own properties. *)
Definition hasProp (k : string) (o : Props) : bool :=
  existsb (fun kv => String.eqb k (fst kv)) o.

(** An object has each of its keys once. *)
Definition wellFormed (o : Props) : Prop := NoDup (map fst o).

(** The two empty buckets a scan starts from. *)
Definition noComponents : AutoDiscovery.DiscoveredComponents :=
  AutoDiscovery.mkDiscovered [] [].

(** A reflector that always returns, like the one of [@nestjs/core]. *)
Definition neverThrows (reflectorInst : AutoDiscovery.Reflector) : Prop :=
  forall key f, exists v, reflectorInst key f = Normal v.

(** [sub] occurs in [s]. *)
Definition occursIn (sub s : string) : Prop :=
  exists before after, s = (before ++ sub ++ after)%string.

(** The key under which an indicator call reports. *)
Definition indicatorKey (c : Health.IndicatorCall) : string :=
  match c with
  | Health.Db_pingCheck key => key
  | Health.Memory_checkHeap key _ => key
  | Health.Memory_checkRSS key _ => key
  end.

Definition isPing (c : Health.IndicatorCall) : bool :=
  match c with
  | Health.Db_pingCheck _ => true
  | _ => false
  end.

(** The call a setup function makes on the application. *)
Definition setupCall (setup : SetupFunction) : FrameworkCall :=
  match setup with
  | Setup_enableShutdownHooks => App_enableShutdownHooks
  | Setup_useHelmet => App_use Helmet
  | Setup_useCompression => App_use Compression
  end.

(** The calls that build and mount the API documentation. *)
Definition swaggerCalls (this : AppInitializer) : list FrameworkCall :=
  match swaggerOptions this with
  | Some o =>
      [ DocumentBuilder_new;
        DocumentBuilder_setTitle (title o);
        DocumentBuilder_setDescription (description o);
        DocumentBuilder_setVersion (version o) ]
      ++ map (fun tag => DocumentBuilder_addTag (tagName tag) (tagDescription tag))
             (match tags o with Some l => l | None => [] end)
      ++ [ DocumentBuilder_build;
           SwaggerModule_createDocument (documentOptions o);
           SwaggerModule_setup (match path o with Some p => p | None => "docs" end)
             (customOptions o) ]
  | None => []
  end.

Definition isSetupCall (e : Event) : bool :=
  match e with
  | Call App_enableShutdownHooks => true
  | Call (App_use Helmet) => true
  | Call (App_use Compression) => true
  | _ => false
  end.

Definition isInterceptorCall (e : Event) : bool :=
  match e with
  | Call (App_useGlobalInterceptors _) => true
  | _ => false
  end.

Definition isSwaggerCall (e : Event) : bool :=
  match e with
  | Call DocumentBuilder_new => true
  | Call (DocumentBuilder_setTitle _) => true
  | Call (DocumentBuilder_setDescription _) => true
  | Call (DocumentBuilder_setVersion _) => true
  | Call (DocumentBuilder_addTag _ _) => true
  | Call DocumentBuilder_build => true
  | Call (SwaggerModule_createDocument _) => true
  | Call (SwaggerModule_setup _ _) => true
  | _ => false
  end.

(** A computation makes the calls of [cs], in order and nothing else,
    up to the first that throws: all of them when it returns. *)
Definition playsCalls (c : M unit) (cs : list FrameworkCall) : Prop :=
  forall past,
    (exists n, fst (c past) = map Call (firstn n cs))
    /\ (snd (c past) = Normal tt -> fst (c past) = map Call cs).

(** The events selected by [Q] in a run are the calls of [cs] up to the
    first that throws, all of them when the run returns. *)
Definition playedIn (Q : Event -> bool) (cs : list FrameworkCall)
    (run : Trace * Completion unit) : Prop :=
  (exists n, filter Q (fst run) = map Call (firstn n cs))
  /\ (snd run = Normal tt -> filter Q (fst run) = map Call cs).

(** The stage of [listen] an event belongs to; the logs belong to none. *)
Definition phaseOf (e : Event) : option nat :=
  match e with
  | Call (NestFactory_create _ _) => Some 1%nat
  | Call (App_setGlobalPrefix _) => Some 2%nat
  | Call (App_enableCors _) => Some 3%nat
  | Call (App_enableVersioning _) => Some 4%nat
  | Call App_enableShutdownHooks => Some 5%nat
  | Call (App_use Helmet) => Some 5%nat
  | Call (App_use Compression) => Some 5%nat
  | Call (App_use (Morgan _)) => Some 6%nat
  | Call (App_use (RateLimit _)) => Some 6%nat
  | Call (App_get _) => Some 6%nat
  | Call DataSource_runMigrations => Some 6%nat
  | ApplyCalled _ => Some 6%nat
  | ApplySettled _ _ => Some 6%nat
  | PluginEffect _ _ => Some 6%nat
  | Call (App_useGlobalInterceptors _) => Some 7%nat
  | Call DocumentBuilder_new => Some 8%nat
  | Call (DocumentBuilder_setTitle _) => Some 8%nat
  | Call (DocumentBuilder_setDescription _) => Some 8%nat
  | Call (DocumentBuilder_setVersion _) => Some 8%nat
  | Call (DocumentBuilder_addTag _ _) => Some 8%nat
  | Call DocumentBuilder_build => Some 8%nat
  | Call (SwaggerModule_createDocument _) => Some 8%nat
  | Call (SwaggerModule_setup _ _) => Some 8%nat
  | Call (App_listen _) => Some 9%nat
  | Call App_getUrl => Some 10%nat
  | Call (Logger_log _ _) => None
  | Call (Logger_error _ _ _) => None
  | Call (Process_exit _) => None
  end.

Fixpoint phases (t : Trace) : list nat :=
  match t with
  | [] => []
  | e :: rest =>
      match phaseOf e with
      | Some p => p :: phases rest
      | None => phases rest
      end
  end.

(** Every number of the list is at most those after it. *)
Fixpoint nondecreasing (l : list nat) : Prop :=
  match l with
  | [] => True
  | x :: rest => Forall (fun y => (x <= y)%nat) rest /\ nondecreasing rest
  end.

(** The stages of the events of a computation never go back, and lie
    between [lo] and [hi]. *)
Definition staged (lo hi : nat) {A : Type} (c : M A) : Prop :=
  forall past,
    nondecreasing (phases (fst (c past)))
    /\ Forall (fun p => (lo <= p <= hi)%nat) (phases (fst (c past))).

(** What a successful [listen] ends with: the listener bound, the URL
    asked for and logged, and the URL of the documentation when there is
    one. *)
Definition startupReport (this : AppInitializer) (url : string) : Trace :=
  [ Call (App_listen (port this));
    Call App_getUrl;
    Call (Logger_log "AppInitializer" ("🚀 Aplicação rodando em: " ++ url)) ]
  ++ match swaggerOptions this with
     | Some o =>
         [Call (Logger_log "AppInitializer"
                  ("📄 Documentação Swagger disponível em: " ++ url ++ "/"
                     ++ match path o with Some p => p | None => "docs" end))]
     | None => []
     end.

(** What a plugin of the user does. *)
Definition isPluginEffect (e : Event) : bool :=
  match e with
  | PluginEffect _ _ => true
  | _ => false
  end.

(** The log entry with which [listen] announces a plugin, by the name
    of its class. *)
Definition announcement (p : Plugin) : Event :=
  Call (Logger_log "AppInitializer" ("Aplicando o plugin: " ++ pluginName p)).

(** The call of an [apply] at position [k], found in a trace after [t1]
    and before [t2], the run having started from [past], is the
    application of the plugin registered at position [k] of [ps]: the
    plugin was announced just before by its name; the call is followed at
    once by the whole of what this plugin does, and by the completion of
    its application; and what plugins do later comes from later
    positions. *)
Definition appliedAt (fw : Framework) (ps : list Plugin) (k : nat)
    (past t1 t2 : Trace) : Prop :=
  exists p t0 t3,
    nth_error ps k = Some p
    /\ t1 = t0 ++ [announcement p]
    /\ t2 = fst (applyPlugin fw k p (past ++ t1 ++ [ApplyCalled k]))
            ++ ApplySettled k
                 (rejectionOf (snd (applyPlugin fw k p (past ++ t1 ++ [ApplyCalled k]))))
            :: t3
    /\ (forall i w, In (PluginEffect i w) t3 -> (k < i)%nat).

(* ================================================================== *)
(** ** Concrete inputs, after the test suites of the package *)
(* ================================================================== *)

Definition MockAppModule : ClassType := mkFunction "MockAppModule" true.
Definition MockController : ClassType := mkFunction "MockController" true.
Definition MockProvider : ClassType := mkFunction "MockProvider" true.
Definition NonDecoratedClass : ClassType := mkFunction "NonDecoratedClass" true.

(** A controller mounted at the root: [@Controller('')] stores the empty
    string under the key ['path']. *)
Definition RootController : ClassType := mkFunction "RootController" true.

Definition mockReflector : AutoDiscovery.Reflector :=
  fun metadataKey target =>
    if String.eqb metadataKey "path" && String.eqb (fnName target) "MockController"
    then Normal (JsString "/mock")
    else if String.eqb metadataKey "path"
            && String.eqb (fnName target) "RootController"
    then Normal (JsString "")
    else if String.eqb metadataKey "__injectable__"
            && String.eqb (fnName target) "MockProvider"
    then Normal (JsBool true)
    else Normal JsUndefined.

Definition mockRequire : AutoDiscovery.RequireFn :=
  fun request =>
    if String.eqb request "/fake/path/controller.js"
    then Normal [("MockController", JsFunction MockController)]
    else if String.eqb request "/fake/path/provider.js"
    then Normal [("MockProvider", JsFunction MockProvider)]
    else if String.eqb request "/fake/path/mixed.js"
    then Normal [("MockController", JsFunction MockController);
                 ("MockProvider", JsFunction MockProvider)]
    else if String.eqb request "/fake/path/non-decorated.js"
    then Normal [("NonDecoratedClass", JsFunction NonDecoratedClass)]
    else if String.eqb request "/fake/path/non-class.js"
    then Normal [("configValue", JsNumber (Finite 123))]
    else if String.eqb request "/fake/path/root.js"
    then Normal [("RootController", JsFunction RootController)]
    else if String.eqb request "/fake/path/error.js"
    then Throws (ErrorObject "Error" "Mock require error" "")
    else Normal [].

Definition mockFileSystem (files : list string) : AutoDiscovery.FileSystem :=
  AutoDiscovery.mkFileSystem (String.concat "/") (fun _ _ => files).

Definition mockHost : Host :=
  mkHost None "/dist/core"
         (mockFileSystem ["/fake/path/error.js"; "/fake/path/provider.js"])
         mockRequire mockReflector.

(** A framework in which no call fails. *)
Definition mockFramework : Framework :=
  mkFramework (fun _ _ => None) (fun _ => "http://localhost:3000")
              (fun name message => (name ++ ": " ++ message)%string).

Definition mockInitializer : AppInitializer :=
  newAppInitializer mockHost 1 MockAppModule None.

(** Plugins of the user: one whose promise settles when a timer has
    fired, one that is an ordinary method, one whose promise is rejected. *)
Definition SlowPlugin : Plugin :=
  CustomPlugin "SlowPlugin"
    (fun _ => (["timer started"], ReturnedPromise ["timer fired"] None)).

Definition FastPlugin : Plugin :=
  CustomPlugin "FastPlugin" (fun _ => (["done"], ReturnedVoid)).

Definition FailingPlugin : Plugin :=
  CustomPlugin "FailingPlugin"
    (fun _ => ([], ReturnedPromise [] (Some (ErrorObject "Error" "boom" "")))).

(** A reflector that fails on [MockController] and is [mockReflector]
    elsewhere. *)
Definition faultyReflector : AutoDiscovery.Reflector :=
  fun metadataKey target =>
    if String.eqb (fnName target) "MockController"
    then Throws (ErrorObject "TypeError" "metadata unavailable" "")
    else mockReflector metadataKey target.

(** A schema with one required variable, [DATABASE_URL]. *)
Definition EnvironmentVariables : ConfigValidator.Schema :=
  ConfigValidator.mkSchema (mkFunction "EnvironmentVariables" true)
    (fun config => config)
    (fun instance =>
       match instance with
       | [] =>
           [ConfigValidator.mkValidationError
              (Some [("isString", "DATABASE_URL must be a string");
                     ("isNotEmpty", "DATABASE_URL should not be empty")])]
       | _ => []
       end).

(* ================================================================== *)
(** * Properties *)
(* ================================================================== *)

(** ** The scanner *)

Lemma scanFiles_app (requireFn : AutoDiscovery.RequireFn)
    (reflectorInst : AutoDiscovery.Reflector) (l1 l2 : list string)
    (acc : AutoDiscovery.DiscoveredComponents) :
  fold_left (AutoDiscovery.scanFile requireFn reflectorInst) (l1 ++ l2) acc
  = fold_left (AutoDiscovery.scanFile requireFn reflectorInst) l2
      (fold_left (AutoDiscovery.scanFile requireFn reflectorInst) l1 acc).
Proof. apply fold_left_app. Qed.

Lemma scanFile_unloadable (requireFn : AutoDiscovery.RequireFn)
    (reflectorInst : AutoDiscovery.Reflector)
    (acc : AutoDiscovery.DiscoveredComponents) (file : string) (e : Thrown) :
  requireFn file = Throws e ->
  AutoDiscovery.scanFile requireFn reflectorInst acc file = acc.
Proof. intros Hload. unfold AutoDiscovery.scanFile. now rewrite Hload. Qed.

(** C5. A file whose loading throws is skipped: it adds nothing to either
    bucket, whatever was found before it, and the scan goes on with the
    files after it, so that the result of the whole scan is the result of
    the scan without that file.  [discoverComponents] is a total function:
    it returns the two buckets and never an error. *)
Theorem discoverComponents_skips_unloadable_file
    (fs : AutoDiscovery.FileSystem) (basePath : string)
    (reflectorInst : AutoDiscovery.Reflector) (requireFn : AutoDiscovery.RequireFn)
    (before after : list string) (file : string) (e : Thrown) :
  AutoDiscovery.enumerateFiles fs basePath = before ++ file :: after ->
  requireFn file = Throws e ->
  (forall acc, AutoDiscovery.scanFile requireFn reflectorInst acc file = acc)
  /\ AutoDiscovery.discoverComponents fs basePath reflectorInst requireFn
     = AutoDiscovery.scanFiles requireFn reflectorInst (before ++ after).
Proof.
  intros Hfiles Hload. split.
  - intros acc. now apply scanFile_unloadable with (e := e).
  - unfold AutoDiscovery.discoverComponents, AutoDiscovery.scanFiles.
    rewrite Hfiles. rewrite !scanFiles_app. simpl.
    now rewrite (scanFile_unloadable requireFn reflectorInst _ file Hload).
Qed.

Lemma discoverComponents_skips_unloadable_file_witness :
  AutoDiscovery.discoverComponents
    (mockFileSystem ["/fake/path/error.js"; "/fake/path/provider.js"])
    "/base" mockReflector mockRequire
  = AutoDiscovery.scanFiles mockRequire mockReflector ["/fake/path/provider.js"].
Proof.
  apply (proj2 (@discoverComponents_skips_unloadable_file
                  (mockFileSystem ["/fake/path/error.js"; "/fake/path/provider.js"])
                  "/base" mockReflector mockRequire
                  [] ["/fake/path/provider.js"] "/fake/path/error.js"
                  (ErrorObject "Error" "Mock require error" "")
                  eq_refl eq_refl)).
Defined.

(** The scenario of the test suite: the broken file is passed over and
    the provider of the next file is found. *)
Example scan_error_then_provider :
  AutoDiscovery.discoverComponents
    (mockFileSystem ["/fake/path/error.js"; "/fake/path/provider.js"])
    "/base" mockReflector mockRequire
  = AutoDiscovery.mkDiscovered [MockProvider] [].
Proof. reflexivity. Qed.

(** How one exported value is classified, by the truthiness of the two
    metadata values: a class goes to one bucket at most. *)
Lemma examineExport_classifies (reflectorInst : AutoDiscovery.Reflector)
    (acc : AutoDiscovery.DiscoveredComponents) (f : FunctionObject)
    (routingPath marker : JsValue) :
  fnPrototype f = true ->
  reflectorInst "path" f = Normal routingPath ->
  reflectorInst "__injectable__" f = Normal marker ->
  AutoDiscovery.examineExport reflectorInst acc (JsFunction f)
  = Normal
      (if truthy routingPath
       then AutoDiscovery.mkDiscovered (AutoDiscovery.providers acc)
              (AutoDiscovery.controllers acc ++ [f])
       else if truthy marker
       then AutoDiscovery.mkDiscovered (AutoDiscovery.providers acc ++ [f])
              (AutoDiscovery.controllers acc)
       else acc).
Proof.
  intros Hproto Hpath Hmarker. unfold AutoDiscovery.examineExport.
  rewrite Hproto, Hpath, Hmarker.
  now destruct (truthy routingPath), (truthy marker).
Qed.

(** A value that is not a function with a prototype is passed over. *)
Lemma examineExport_ignores (reflectorInst : AutoDiscovery.Reflector)
    (acc : AutoDiscovery.DiscoveredComponents) (v : JsValue) :
  (forall f, v = JsFunction f -> fnPrototype f = false) ->
  AutoDiscovery.examineExport reflectorInst acc v = Normal acc.
Proof.
  intros Hv. destruct v; try reflexivity.
  simpl. now rewrite (Hv f eq_refl).
Qed.

(** C6, at the input where the code departs from it.  The class
    [RootController] has a routing path registered, the empty string, and
    is exported by the only file of the directory; the scanner puts it in
    neither bucket, because it tests the truthiness of the metadata value
    and the empty string is falsy. *)
Theorem discoverComponents_misses_root_controller :
  mockReflector "path" RootController = Normal (JsString "")
  /\ mockRequire "/fake/path/root.js"
     = Normal [("RootController", JsFunction RootController)]
  /\ AutoDiscovery.discoverComponents (mockFileSystem ["/fake/path/root.js"])
       "/base" mockReflector mockRequire
     = AutoDiscovery.mkDiscovered [] [].
Proof. repeat split. Qed.

(** ** The health endpoint *)

(** C8. With [{database: true, memory: {}}] and a database indicator,
    three indicator functions are called: the database ping and the two
    memory checks; with [{database: true}] and no database indicator,
    none.  A threshold that is not configured is 200 MB for the heap and
    300 MB for the resident set, passed in bytes; a configured threshold
    is passed in bytes too. *)
Theorem health_check_invocations :
  Health.check
    (Health.mkHealthController
       (Health.mkHealthOptions (Some true) (Some (Health.mkMemoryOptions None None)))
       true)
  = [ Health.Db_pingCheck "database";
      Health.Memory_checkHeap "memory_heap" 209715200;
      Health.Memory_checkRSS "memory_rss" 314572800 ]
  /\ List.length
       (Health.checks
          (Health.mkHealthController
             (Health.mkHealthOptions (Some true)
                (Some (Health.mkMemoryOptions None None)))
             true)) = 3%nat
  /\ Health.check
       (Health.mkHealthController (Health.mkHealthOptions (Some true) None) false)
     = []
  /\ (forall (d : option bool) (dbAvailable : bool) (heap rss : option Z),
        exists dbChecks,
          Health.check
            (Health.mkHealthController
               (Health.mkHealthOptions d (Some (Health.mkMemoryOptions heap rss)))
               dbAvailable)
          = dbChecks
              ++ [ Health.Memory_checkHeap "memory_heap"
                     (match heap with Some mb => mb | None => 200 end * 1048576);
                   Health.Memory_checkRSS "memory_rss"
                     (match rss with Some mb => mb | None => 300 end * 1048576) ]).
Proof.
  repeat split.
  intros d dbAvailable heap rss.
  unfold Health.check, Health.HealthCheckService_check, Health.checks. simpl.
  rewrite map_app. simpl.
  assert (Hbytes : forall mb : Z, (mb * 1024 * 1024 = mb * 1048576)%Z)
    by (intros mb; lia).
  rewrite !Hbytes. unfold Health.orDefault.
  eexists. reflexivity.
Qed.

(** ** The route prefix *)

Lemma prefix_slash_cons (s : string) : String.prefix "/" ("/" ++ s) = true.
Proof. simpl. now destruct s. Qed.

(** C9. [withGlobalPrefix] stores ["/api"] for ["api"]; a prefix that
    starts with ["/"] is stored as it is; the stored prefix always starts
    with ["/"], and normalising twice is normalising once. *)
Theorem withGlobalPrefix_normalizes (this : AppInitializer) :
  globalPrefix (withGlobalPrefix "api" this) = Some "/api"
  /\ (forall prefix, String.prefix "/" prefix = true ->
                     globalPrefix (withGlobalPrefix prefix this) = Some prefix)
  /\ (forall prefix stored,
        globalPrefix (withGlobalPrefix prefix this) = Some stored ->
        String.prefix "/" stored = true)
  /\ (forall prefix, normalizePrefix (normalizePrefix prefix) = normalizePrefix prefix).
Proof.
  assert (Hstarts : forall p, String.prefix "/" (normalizePrefix p) = true).
  { intros p. unfold normalizePrefix.
    destruct (String.prefix "/" p) eqn:E; [exact E | apply prefix_slash_cons]. }
  repeat split.
  - intros p Hp. simpl. unfold normalizePrefix. now rewrite Hp.
  - intros p stored Hs. simpl in Hs. inversion Hs. apply Hstarts.
  - intros p. unfold normalizePrefix at 1. now rewrite Hstarts.
Qed.

Lemma withGlobalPrefix_normalizes_witness :
  globalPrefix (withGlobalPrefix "/already/prefixed" mockInitializer)
  = Some "/already/prefixed"
  /\ String.prefix "/" "/api/v1" = true.
Proof.
  split.
  - apply (proj1 (proj2 (withGlobalPrefix_normalizes mockInitializer))).
    reflexivity.
  - apply (proj1 (proj2 (proj2 (withGlobalPrefix_normalizes mockInitializer)))
             "api/v1").
    reflexivity.
Defined.

(** ** Reasoning about traces *)

Lemma bind_run {A B : Type} (c : M A) (k : A -> M B) (past : Trace) :
  bind c k past
  = match c past with
    | (t1, Normal a) => (t1 ++ fst (k a (past ++ t1)), snd (k a (past ++ t1)))
    | (t1, Throws e) => (t1, Throws e)
    end.
Proof.
  unfold bind. destruct (c past) as [t1 [a | e]]; [| reflexivity].
  now destruct (k a (past ++ t1)).
Qed.

Lemma tryCatch_run {A : Type} (body : M A) (handler : Thrown -> M A) (past : Trace) :
  tryCatch body handler past
  = match body past with
    | (t1, Normal a) => (t1, Normal a)
    | (t1, Throws e) =>
        (t1 ++ fst (handler e (past ++ t1)), snd (handler e (past ++ t1)))
    end.
Proof.
  unfold tryCatch. destruct (body past) as [t1 [a | e]]; [reflexivity |].
  now destruct (handler e (past ++ t1)).
Qed.

Section Silent.

Variable Q : Event -> bool.

Lemma silent_ret {A : Type} (a : A) : silent Q (ret a).
Proof. intros past. reflexivity. Qed.

Lemma silent_throw {A : Type} (e : Thrown) : silent Q (@throw A e).
Proof. intros past. reflexivity. Qed.

Lemma silent_lift {A : Type} (c : Completion A) : silent Q (lift c).
Proof. intros past. reflexivity. Qed.

Lemma silent_emit (c : FrameworkCall) : Q (Call c) = false -> silent Q (emit c).
Proof. intros Hc past. simpl. now rewrite Hc. Qed.

Lemma silent_call (fw : Framework) (c : FrameworkCall) :
  Q (Call c) = false -> silent Q (call fw c).
Proof.
  intros Hc past. unfold call.
  destruct (rejects fw past c); simpl; now rewrite Hc.
Qed.

Lemma silent_getUrl (fw : Framework) :
  Q (Call App_getUrl) = false -> silent Q (getUrl fw).
Proof.
  intros Hc past. unfold getUrl.
  destruct (rejects fw past App_getUrl); simpl; now rewrite Hc.
Qed.

Lemma silent_bind {A B : Type} (c : M A) (k : A -> M B) :
  silent Q c -> (forall a, silent Q (k a)) -> silent Q (bind c k).
Proof.
  intros Hc Hk past. rewrite bind_run. specialize (Hc past).
  destruct (c past) as [t1 [a | e]]; simpl in *; [| exact Hc].
  rewrite filter_app, Hc. apply Hk.
Qed.

Lemma silent_tryCatch {A : Type} (body : M A) (handler : Thrown -> M A) :
  silent Q body -> (forall e, silent Q (handler e)) ->
  silent Q (tryCatch body handler).
Proof.
  intros Hb Hh past. rewrite tryCatch_run. specialize (Hb past).
  destruct (body past) as [t1 [a | e]]; simpl in *; [exact Hb |].
  rewrite filter_app, Hb. apply Hh.
Qed.

Lemma silent_forEach {A : Type} (f : A -> M unit) (l : list A) :
  (forall x, silent Q (f x)) -> silent Q (forEach f l).
Proof.
  intros Hf. induction l as [| x rest IH]; simpl.
  - apply silent_ret.
  - apply silent_bind; [apply Hf | intros _; exact IH].
Qed.

Lemma filter_PluginEffect (index : nat) (effects : list string) :
  (forall i w, Q (PluginEffect i w) = false) ->
  filter Q (map (PluginEffect index) effects) = [].
Proof.
  intros HQ. induction effects as [| w rest IH]; simpl; [reflexivity |].
  now rewrite HQ.
Qed.

End Silent.

(** Steps through a computation built from the combinators of [M]. *)
Ltac silence :=
  repeat (intros;
    lazymatch goal with
    | |- silent _ (bind _ _) => apply silent_bind
    | |- silent _ (ret _) => apply silent_ret
    | |- silent _ (throw _) => apply silent_throw
    | |- silent _ (lift _) => apply silent_lift
    | |- silent _ (emit _) => apply silent_emit; reflexivity
    | |- silent _ (call _ _) => apply silent_call; reflexivity
    | |- silent _ (getUrl _) => apply silent_getUrl; reflexivity
    | |- silent _ (tryCatch _ _) => apply silent_tryCatch
    | |- silent _ (forEach _ _) => apply silent_forEach
    | |- silent _ (match ?x with _ => _ end) => destruct x
    | |- _ => fail
    end).

(** A silent computation in front of another leaves the events selected
    by [Q] to the second, unless it throws. *)
Lemma silent_then {A B : Type} (Q : Event -> bool) (c : M A) (k : A -> M B)
    (past : Trace) :
  silent Q c ->
  (filter Q (fst (bind c k past)) = []
   /\ exists e, snd (bind c k past) = Throws e /\ snd (c past) = Throws e)
  \/ (exists a, snd (c past) = Normal a
      /\ filter Q (fst (bind c k past)) = filter Q (fst (k a (past ++ fst (c past))))
      /\ snd (bind c k past) = snd (k a (past ++ fst (c past)))).
Proof.
  intros Hc. rewrite bind_run. specialize (Hc past).
  destruct (c past) as [t1 [a | e]]; simpl in *.
  - right. exists a. rewrite filter_app, Hc. auto.
  - left. split; [exact Hc | exists e; auto].
Qed.

(** ** [bootstrap] *)

(** C10. Called with an adapter and no configurator, [bootstrap] throws
    the [TypeError] before its [try] block: the rejection reaches the
    caller, and nothing is logged and the process does not exit, the
    trace being empty. *)
Theorem bootstrap_without_configurator_throws (fw : Framework) (h : Host)
    (id : nat) (module : ClassType) (a : AbstractHttpAdapter) (past : Trace) :
  bootstrap fw h id module (AnAdapter a) None past
  = ([], Throws (ErrorObject "TypeError"
                   "Função de configuração do bootstrap não encontrada. Verifique os argumentos."
                   (stackOf fw "TypeError" missingConfiguratorMessage)))
  /\ filter isFailureReport (fst (bootstrap fw h id module (AnAdapter a) None past)) = [].
Proof. split; reflexivity. Qed.

(** ** The chained configuration calls *)

(** Induction on calls, with the calls of a [when] callback. *)
Section MethodInduction.

Variable P : Method -> Prop.
Hypothesis P_when :
  forall condition body raises, Forall P body -> P (When condition body raises).
Hypothesis P_other :
  forall m, (forall c l r, m <> When c l r) -> P m.

Lemma Method_induction : forall m : Method, P m.
Proof.
  fix IH 1. intros m.
  destruct m;
    try (apply P_other; intros c0 l0 r0 Heq; discriminate Heq).
  apply P_when.
  induction calls0 as [| x rest IHrest]; constructor; [apply IH | exact IHrest].
Qed.

End MethodInduction.

Lemma invoke_when (h : Host) (condition : bool) (body : list Method)
    (raises : option Thrown) (b : AppInitializer) :
  invoke h (When condition body raises) b
  = if condition then runCalls h body raises b else Normal b.
Proof.
  simpl. unfold when. destruct condition; [| reflexivity].
  revert b. induction body as [| m rest IH]; intros b; simpl; [reflexivity |].
  destruct (invoke h m b); [apply IH | reflexivity].
Qed.

Lemma reached_when (h : Host) (condition : bool) (body : list Method)
    (raises : option Thrown) (b : AppInitializer) :
  reached h (When condition body raises) b
  = if condition then reachedCalls h body b else b.
Proof.
  simpl. destruct condition; [| reflexivity].
  revert b. induction body as [| m rest IH]; intros b; simpl; [reflexivity |].
  destruct (invoke h m b); [apply IH | reflexivity].
Qed.

Lemma targets_when (condition : bool) (body : list Method) (raises : option Thrown) :
  targets (When condition body raises)
  = if condition then flat_map targets body else [].
Proof.
  simpl. destruct condition; [| reflexivity].
  induction body as [| m rest IH]; simpl; [reflexivity | now rewrite IH].
Qed.

Lemma unchanged_refl (g : Field) (b : AppInitializer) : unchanged g b b.
Proof. destruct g; reflexivity. Qed.

Lemma unchanged_trans (g : Field) (b1 b2 b3 : AppInitializer) :
  unchanged g b1 b2 -> unchanged g b2 b3 -> unchanged g b1 b3.
Proof. destruct g; simpl; intros H12 H23; now rewrite H23. Qed.

Lemma sameInstance_refl (b : AppInitializer) : sameInstance b b.
Proof. repeat split. Qed.

Lemma sameInstance_trans (b1 b2 b3 : AppInitializer) :
  sameInstance b1 b2 -> sameInstance b2 b3 -> sameInstance b1 b3.
Proof.
  intros (Ha & Hb & Hc) (Ha' & Hb' & Hc'). repeat split; congruence.
Qed.

Lemma withTypeOrm_fields (o : option Starters.TypeOrmStarterOptions)
    (b : AppInitializer) :
  withTypeOrm o b
  = set_plugins
      (plugins b ++ if runsMigrations o then [TypeOrmMigrationPlugin] else [])
      (set_featureModules
         (featureModules b
            ++ [Starters.module
                  (Starters.createTypeOrmStarter
                     (Starters.dflt o emptyTypeOrmOptions))]) b).
Proof.
  unfold withTypeOrm, runsMigrations, Starters.createTypeOrmStarter.
  destruct (Starters.dflt
              (Starters.runMigrationsOnStartup (Starters.dflt o emptyTypeOrmOptions))
              false); simpl.
  - reflexivity.
  - rewrite app_nil_r. now destruct b.
Qed.

Lemma framed_other (h : Host) (m : Method) :
  (forall c l r, m <> When c l r) -> framed h m.
Proof.
  intros Hnot b b' Hrun.
  destruct m;
    try (exfalso; eapply Hnot; reflexivity);
    simpl in Hrun; try rewrite withTypeOrm_fields in Hrun;
    injection Hrun as <-;
    (split; [repeat split |]);
    intros g Hg;
    try (destruct (runsMigrations options) eqn:Emig; simpl in Hg;
         rewrite Emig in Hg);
    destruct g; try reflexivity;
    try (simpl; apply app_nil_r);
    exfalso; apply Hg; simpl; auto.
Qed.

Lemma runCalls_framed (h : Host) (body : list Method) (raises : option Thrown) :
  Forall (framed h) body ->
  forall b b', runCalls h body raises b = Normal b' ->
               sameInstance b b'
               /\ forall g, ~ In g (flat_map targets body) -> unchanged g b b'.
Proof.
  induction 1 as [| m rest Hm _ IH]; intros b b' Hrun; simpl in Hrun.
  - destruct raises; [discriminate |]. injection Hrun as <-.
    split; [apply sameInstance_refl | intros; apply unchanged_refl].
  - destruct (invoke h m b) as [b1 |] eqn:E1; [| discriminate].
    destruct (Hm _ _ E1) as [Hs1 Hf1]. destruct (IH _ _ Hrun) as [Hs2 Hf2].
    split; [eapply sameInstance_trans; eauto |].
    intros g Hg. simpl in Hg. rewrite in_app_iff in Hg.
    eapply unchanged_trans; [apply Hf1 | apply Hf2]; tauto.
Qed.

Lemma invoke_framed (h : Host) (m : Method) : framed h m.
Proof.
  induction m as [condition body r Hbody | m Hnot] using Method_induction.
  - intros b b' Hrun. rewrite invoke_when in Hrun. rewrite targets_when.
    destruct condition.
    + exact (@runCalls_framed h body r Hbody b b' Hrun).
    + injection Hrun as <-.
      split; [apply sameInstance_refl | intros; apply unchanged_refl].
  - now apply framed_other.
Qed.

Lemma extends_refl (b : AppInitializer) : extends b b [] [] [] [] [].
Proof. unfold extends. now rewrite !app_nil_r. Qed.

Lemma extends_trans (b1 b2 b3 : AppInitializer) ds dp dm dg di ds' dp' dm' dg' di' :
  extends b1 b2 ds dp dm dg di ->
  extends b2 b3 ds' dp' dm' dg' di' ->
  extends b1 b3 (ds ++ ds') (dp ++ dp') (dm ++ dm') (dg ++ dg') (di ++ di').
Proof.
  unfold extends. intros (A1 & A2 & A3 & A4 & A5) (B1 & B2 & B3 & B4 & B5).
  rewrite B1, B2, B3, B4, B5, A1, A2, A3, A4, A5.
  now rewrite !app_assoc.
Qed.

Lemma appending_other (h : Host) (m : Method) :
  (forall c l r, m <> When c l r) -> appending h m.
Proof.
  intros Hnot.
  destruct m;
    try (exfalso; eapply Hnot; reflexivity);
    do 5 eexists; intros b b' Hrun;
    simpl in Hrun; try rewrite withTypeOrm_fields in Hrun;
    injection Hrun as <-;
    unfold extends, useDevelopmentDefaults, useProductionDefaults, push; simpl;
    unfold push; rewrite <- ?app_assoc; simpl;
    repeat split;
    first [reflexivity | symmetry; apply app_nil_r].
Qed.

Lemma runCalls_appending (h : Host) (body : list Method) (r : option Thrown) :
  Forall (appending h) body ->
  exists ds dp dm dg di,
    forall b b', runCalls h body r b = Normal b' -> extends b b' ds dp dm dg di.
Proof.
  induction 1 as [| m rest Hm _ IH].
  - exists [], [], [], [], []. intros b b' Hrun. simpl in Hrun.
    destruct r; [discriminate |]. injection Hrun as <-. apply extends_refl.
  - destruct Hm as (ds & dp & dm & dg & di & Hm).
    destruct IH as (ds' & dp' & dm' & dg' & di' & IH).
    exists (ds ++ ds'), (dp ++ dp'), (dm ++ dm'), (dg ++ dg'), (di ++ di').
    intros b b' Hrun. simpl in Hrun.
    destruct (invoke h m b) as [b1 |] eqn:E1; [| discriminate].
    eapply extends_trans; eauto.
Qed.

Lemma invoke_appending (h : Host) (m : Method) : appending h m.
Proof.
  induction m as [condition body r Hbody | m Hnot] using Method_induction.
  - destruct condition.
    + destruct (@runCalls_appending h body r Hbody)
        as (ds & dp & dm & dg & di & Hall).
      exists ds, dp, dm, dg, di. intros b b' Hrun.
      rewrite invoke_when in Hrun. now apply Hall.
    + exists [], [], [], [], []. intros b b' Hrun.
      rewrite invoke_when in Hrun. injection Hrun as <-. apply extends_refl.
  - now apply appending_other.
Qed.

Lemma runCalls_throwsAnywhere (h : Host) (body : list Method) (r : option Thrown) :
  Forall (throwsAnywhere h) body ->
  forall b e x, runCalls h body r b = Throws x -> runCalls h body r e = Throws x.
Proof.
  induction 1 as [| m rest Hm _ IH]; intros b e x Hrun; simpl in *.
  - destruct r; [exact Hrun | discriminate].
  - destruct (invoke h m b) as [b1 | y] eqn:Eb.
    + destruct (invoke h m e) as [e1 | z] eqn:Ee.
      * eapply IH; eauto.
      * apply (Hm e b z) in Ee. congruence.
    + apply (Hm b e y) in Eb. rewrite Eb. exact Hrun.
Qed.

Lemma invoke_throwsAnywhere (h : Host) (m : Method) : throwsAnywhere h m.
Proof.
  induction m as [condition body r Hbody | m Hnot] using Method_induction.
  - intros b e x Hrun. rewrite invoke_when in *.
    destruct condition; [| discriminate].
    eapply runCalls_throwsAnywhere; eauto.
  - intros b e x Hrun.
    destruct m; try (exfalso; eapply Hnot; reflexivity); discriminate Hrun.
Qed.

(** Whether a call returns does not depend on the builder either. *)
Lemma invoke_returns_anywhere (h : Host) (m : Method) (b b' e : AppInitializer) :
  invoke h m b = Normal b' -> exists e', invoke h m e = Normal e'.
Proof.
  intros Hrun. destruct (invoke h m e) as [e' | x] eqn:Ee; [now exists e' |].
  apply (@invoke_throwsAnywhere h m e b x) in Ee. congruence.
Qed.

(** The entries a script leaves in the sequences are, in call order,
    those each of its calls leaves in a builder with empty sequences. *)
Lemma runCalls_entries (h : Host) (ms : list Method) (e : AppInitializer) :
  emptySequences e ->
  forall b b', runCalls h ms None b = Normal b' ->
    extends b b'
      (flat_map (fun m => entries setupFunctions (invoke h m e)) ms)
      (flat_map (fun m => entries plugins (invoke h m e)) ms)
      (flat_map (fun m => entries featureModules (invoke h m e)) ms)
      (flat_map (fun m => entries globalProviders (invoke h m e)) ms)
      (flat_map (fun m => entries globalInterceptors (invoke h m e)) ms).
Proof.
  intros (E1 & E2 & E3 & E4 & E5).
  induction ms as [| m rest IH]; intros b b' Hrun; simpl in Hrun.
  - injection Hrun as <-. apply extends_refl.
  - destruct (invoke h m b) as [b1 |] eqn:Eb; [| discriminate].
    destruct (invoke_returns_anywhere h m b e Eb) as [e1 Ee].
    destruct (invoke_appending h m) as (ds & dp & dm & dg & di & Hm).
    pose proof (Hm _ _ Eb) as Hb. pose proof (Hm _ _ Ee) as He.
    destruct He as (A1 & A2 & A3 & A4 & A5).
    rewrite E1 in A1. rewrite E2 in A2. rewrite E3 in A3.
    rewrite E4 in A4. rewrite E5 in A5. simpl in A1, A2, A3, A4, A5.
    simpl. rewrite Ee. simpl. rewrite A1, A2, A3, A4, A5.
    eapply extends_trans; eauto.
Qed.



Lemma primitive_returns (h : Host) (m : Method) (b : AppInitializer) :
  primitive m = true -> exists b', invoke h m b = Normal b'.
Proof. destruct m; try discriminate; intros _; simpl; eexists; reflexivity. Qed.





(** ** Awaiting a plugin *)

(** Awaiting the call of [apply] gives, between the call and the
    completion of the application, the whole of what the plugin does:
    also what it does after the call has returned its promise. *)
Lemma awaitApply_run (fw : Framework) (index : nat) (p : Plugin) (past : Trace) :
  awaitApply fw index p past
  = (ApplyCalled index
       :: fst (applyPlugin fw index p (past ++ [ApplyCalled index]))
       ++ [ApplySettled index
             (rejectionOf (snd (applyPlugin fw index p (past ++ [ApplyCalled index]))))],
     snd (applyPlugin fw index p (past ++ [ApplyCalled index]))).
Proof.
  unfold awaitApply, callApply.
  destruct p as [| options | | name behaviour].
  - unfold bind, note, completes, await, ret, applyPlugin, call.
    destruct (rejects fw (past ++ [ApplyCalled index]) (App_use (Morgan "dev")));
      reflexivity.
  - unfold bind, note, completes, await, ret, applyPlugin, call.
    destruct (rejects fw (past ++ [ApplyCalled index]) (App_use (RateLimit options)));
      reflexivity.
  - unfold TypeOrmMigrationPlugin_call, applyPlugin, TypeOrmMigrationPlugin_apply.
    unfold tryCatch, bind, note, completes, await, call, emit, throw.
    destruct (rejects fw (past ++ [ApplyCalled index]) (App_get "DataSource"))
      as [e1 |]; [reflexivity |].
    rewrite <- !app_assoc. cbn [app].
    destruct (rejects fw _ DataSource_runMigrations) as [e2 |]; reflexivity.
  - unfold bind, note, completes, await, ret, applyPlugin.
    destruct (behaviour (past ++ [ApplyCalled index]))
      as [effects [e | | deferred [e |]]]; cbn [fst snd app rejectionOf settledWith];
      rewrite ?map_app, <- ?app_assoc, ?app_nil_r; reflexivity.
Qed.

(** ** The stages of [listen] *)

Lemma listen_stages (fw : Framework) (this : AppInitializer) :
  listen fw this
  = (emit (Logger_log loggerContext "Criando a instância da aplicação NestJS...") ;;
     call fw (NestFactory_create (declareRootModule this) (adapter this)) ;;
     applyGlobalPrefix fw this ;;
     applyCors fw this ;;
     applyVersioning fw this ;;
     afterSettings fw this).
Proof. reflexivity. Qed.

Section SilentStages.

Variable fw : Framework.
Variable Q : Event -> bool.

Hypothesis Q_called : forall i, Q (ApplyCalled i) = false.
Hypothesis Q_settled : forall i r, Q (ApplySettled i r) = false.
Hypothesis Q_effect : forall i w, Q (PluginEffect i w) = false.
Hypothesis Q_log : forall context message, Q (Call (Logger_log context message)) = false.
Hypothesis Q_use : forall mw, Q (Call (App_use mw)) = false.
Hypothesis Q_get : forall token, Q (Call (App_get token)) = false.
Hypothesis Q_migrations : Q (Call DataSource_runMigrations) = false.
Hypothesis Q_pluginError :
  forall message detail,
    Q (Call (Logger_error "TypeOrmMigrationPlugin" message detail)) = false.
Hypothesis Q_hooks : Q (Call App_enableShutdownHooks) = false.
Hypothesis Q_interceptor :
  forall i, Q (Call (App_useGlobalInterceptors i)) = false.
Hypothesis Q_swagger :
  Q (Call DocumentBuilder_new) = false
  /\ (forall s, Q (Call (DocumentBuilder_setTitle s)) = false)
  /\ (forall s, Q (Call (DocumentBuilder_setDescription s)) = false)
  /\ (forall s, Q (Call (DocumentBuilder_setVersion s)) = false)
  /\ (forall n d, Q (Call (DocumentBuilder_addTag n d)) = false)
  /\ Q (Call DocumentBuilder_build) = false
  /\ (forall o, Q (Call (SwaggerModule_createDocument o)) = false)
  /\ (forall p o, Q (Call (SwaggerModule_setup p o)) = false).
Hypothesis Q_listen : forall p, Q (Call (App_listen p)) = false.
Hypothesis Q_getUrl : Q (Call App_getUrl) = false.

Ltac quiet :=
  repeat (intros;
    lazymatch goal with
    | |- silent _ (bind _ _) => apply silent_bind
    | |- silent _ (ret _) => apply silent_ret
    | |- silent _ (throw _) => apply silent_throw
    | |- silent _ (emit _) => apply silent_emit; auto
    | |- silent _ (call _ _) => apply silent_call; auto
    | |- silent _ (getUrl _) => apply silent_getUrl; auto
    | |- silent _ (tryCatch _ _) => apply silent_tryCatch
    | |- silent _ (forEach _ _) => apply silent_forEach
    | |- silent _ (match ?x with _ => _ end) => destruct x
    | |- _ => fail
    end).

Lemma silent_applyPlugin (index : nat) (p : Plugin) :
  silent Q (applyPlugin fw index p).
Proof.
  destruct p as [| options | | name behaviour]; simpl.
  - quiet.
  - quiet.
  - unfold TypeOrmMigrationPlugin_apply. quiet.
  - intros past. destruct (behaviour past) as [effects [e | | deferred r]]; simpl;
      now apply filter_PluginEffect.
Qed.

Lemma silent_awaitApply (index : nat) (p : Plugin) :
  silent Q (awaitApply fw index p).
Proof.
  intros past. rewrite awaitApply_run.
  pose proof (silent_applyPlugin index p (past ++ [ApplyCalled index])) as Hp.
  destruct (applyPlugin fw index p (past ++ [ApplyCalled index])) as [t r].
  simpl in *. rewrite Q_called, filter_app, Hp. simpl. now rewrite Q_settled.
Qed.

Lemma silent_applyPlugins (ps : list Plugin) (index : nat) :
  silent Q (applyPlugins fw index ps).
Proof.
  revert index. induction ps as [| p rest IH]; intros index; simpl.
  - apply silent_ret.
  - apply silent_bind; [apply silent_emit; auto | intros _].
    apply silent_bind; [apply silent_awaitApply | intros _; apply IH].
Qed.

Lemma silent_setups (l : list SetupFunction) : silent Q (forEach (runSetup fw) l).
Proof. apply silent_forEach. intros s. destruct s; simpl; quiet. Qed.

Lemma silent_afterPlugins (this : AppInitializer) : silent Q (afterPlugins fw this).
Proof.
  destruct Q_swagger as (S1 & S2 & S3 & S4 & S5 & S6 & S7 & S8).
  unfold afterPlugins, setupSwagger, logSwaggerUrl. quiet.
Qed.

Lemma silent_fromPlugins (this : AppInitializer) : silent Q (fromPlugins fw this).
Proof.
  unfold fromPlugins.
  apply silent_bind; [apply silent_applyPlugins | intros _; apply silent_afterPlugins].
Qed.

Lemma silent_afterSettings (this : AppInitializer) :
  silent Q (afterSettings fw this).
Proof.
  unfold afterSettings.
  apply silent_bind; [apply silent_setups | intros _; apply silent_fromPlugins].
Qed.

End SilentStages.

Lemma filter_bind {A B : Type} (Q : Event -> bool) (c : M A) (k : A -> M B)
    (past : Trace) :
  filter Q (fst (bind c k past))
  = filter Q (fst (c past))
      ++ match snd (c past) with
         | Normal a => filter Q (fst (k a (past ++ fst (c past))))
         | Throws _ => []
         end.
Proof.
  rewrite bind_run. destruct (c past) as [t1 [a | e]]; simpl.
  - apply filter_app.
  - symmetry. apply app_nil_r.
Qed.

Lemma snd_bind {A B : Type} (c : M A) (k : A -> M B) (past : Trace) :
  snd (bind c k past)
  = match snd (c past) with
    | Normal a => snd (k a (past ++ fst (c past)))
    | Throws e => Throws e
    end.
Proof. rewrite bind_run. now destruct (c past) as [t1 [a | e]]. Qed.

Lemma fst_call (fw : Framework) (c : FrameworkCall) (past : Trace) :
  fst (call fw c past) = [Call c].
Proof. unfold call. now destruct (rejects fw past c). Qed.

Lemma snd_call (fw : Framework) (c : FrameworkCall) (past : Trace) :
  snd (call fw c past)
  = match rejects fw past c with
    | Some e => Throws e
    | None => Normal tt
    end.
Proof. unfold call. now destruct (rejects fw past c). Qed.

(** An invariant kept by every method other than [when] is kept by
    every call, and by every script. *)
Section Invariant.

Variable h : Host.
Variable Inv : AppInitializer -> Prop.
Hypothesis Inv_other :
  forall m b b', (forall c l r, m <> When c l r) ->
                 Inv b -> invoke h m b = Normal b' -> Inv b'.

Lemma runCalls_invariant_from (body : list Method) (r : option Thrown) :
  Forall (fun m => forall b b', Inv b -> invoke h m b = Normal b' -> Inv b') body ->
  forall b b', Inv b -> runCalls h body r b = Normal b' -> Inv b'.
Proof.
  induction 1 as [| m rest Hm _ IH]; intros b b' Hb Hrun; simpl in Hrun.
  - destruct r; [discriminate |]. now injection Hrun as <-.
  - destruct (invoke h m b) as [b1 |] eqn:E1; [| discriminate]. eauto.
Qed.

Lemma invoke_invariant (m : Method) :
  forall b b', Inv b -> invoke h m b = Normal b' -> Inv b'.
Proof.
  induction m as [condition body r Hbody | m Hnot] using Method_induction;
    intros b b' Hb Hrun.
  - rewrite invoke_when in Hrun. destruct condition.
    + exact (@runCalls_invariant_from body r Hbody b b' Hb Hrun).
    + now injection Hrun as <-.
  - eapply Inv_other; eauto.
Qed.

Lemma runCalls_invariant (body : list Method) (r : option Thrown) :
  forall b b', Inv b -> runCalls h body r b = Normal b' -> Inv b'.
Proof.
  apply runCalls_invariant_from. apply Forall_forall.
  intros m _. apply invoke_invariant.
Qed.

(** The same for the builder as a throwing call leaves it. *)
Lemma reachedCalls_invariant_from (body : list Method) :
  Forall (fun m => forall b, Inv b -> Inv (reached h m b)) body ->
  forall b, Inv b -> Inv (reachedCalls h body b).
Proof.
  induction 1 as [| m rest Hm _ IH]; intros b Hb; simpl; [exact Hb |].
  destruct (invoke h m b) as [b1 | e] eqn:E1.
  - apply IH. exact (@invoke_invariant m b b1 Hb E1).
  - now apply Hm.
Qed.

Lemma reached_invariant (m : Method) :
  forall b, Inv b -> Inv (reached h m b).
Proof.
  induction m as [condition body r Hbody | m Hnot] using Method_induction;
    intros b Hb.
  - rewrite reached_when. destruct condition; [| exact Hb].
    now apply reachedCalls_invariant_from.
  - assert (Hstep : reached h m b
                    = match invoke h m b with Normal b' => b' | Throws _ => b end)
      by (destruct m; try reflexivity; exfalso; eapply Hnot; reflexivity).
    rewrite Hstep. destruct (invoke h m b) as [b1 | e] eqn:E1; [| exact Hb].
    exact (@Inv_other m b b1 Hnot Hb E1).
Qed.

Lemma runCallback_invariant (c : Callback) :
  forall b b', Inv b -> runCallback h c b = Normal b' -> Inv b'.
Proof.
  intros b b' Hb. unfold runCallback. destruct (isAsync c).
  - intros Hrun. injection Hrun as <-.
    apply reachedCalls_invariant_from; [| exact Hb].
    apply Forall_forall. intros m _. apply reached_invariant.
  - now apply runCalls_invariant.
Qed.

End Invariant.

(** The stored route prefix is never the empty string. *)
Lemma prefix_truthy (h : Host) (script : list Method) (r : option Thrown)
    (b b' : AppInitializer) :
  globalPrefix b = None ->
  runCalls h script r b = Normal b' ->
  forall p, globalPrefix b' = Some p -> truthy (JsString p) = true.
Proof.
  intros Hnone Hrun.
  assert (Hinv : forall p, globalPrefix b' = Some p -> String.prefix "/" p = true).
  { refine (@runCalls_invariant h
              (fun x => forall p, globalPrefix x = Some p -> String.prefix "/" p = true)
              _ script r b b' _ Hrun).
    - intros m x x' Hnot Hx Hm.
      destruct m; try (exfalso; eapply Hnot; reflexivity);
        simpl in Hm; try rewrite withTypeOrm_fields in Hm;
        injection Hm as <-; simpl; try exact Hx.
      intros p Hp. injection Hp as <-. unfold normalizePrefix.
      destruct (String.prefix "/" prefix) eqn:E; [exact E | apply prefix_slash_cons].
    - intros p Hp. rewrite Hnone in Hp. discriminate. }
  intros p Hp. apply Hinv in Hp. destruct p; [discriminate Hp | reflexivity].
Qed.

(** What the builder holds as discovered components is a result of the
    scanner. *)
Lemma discovered_by_scanner (h : Host) (script : list Method) (r : option Thrown)
    (b b' : AppInitializer) :
  autoDiscoveredComponents b = None ->
  runCalls h script r b = Normal b' ->
  forall d, autoDiscoveredComponents b' = Some d ->
            exists basePath,
              d = AutoDiscovery.discoverComponents (fileSystem h) basePath
                    (metadata h) (require h).
Proof.
  intros Hnone Hrun.
  refine (@runCalls_invariant h
            (fun x => forall d, autoDiscoveredComponents x = Some d ->
                                exists basePath,
                                  d = AutoDiscovery.discoverComponents
                                        (fileSystem h) basePath (metadata h) (require h))
            _ script r b b' _ Hrun).
  - intros m x x' Hnot Hx Hm.
    destruct m; try (exfalso; eapply Hnot; reflexivity);
      simpl in Hm; try rewrite withTypeOrm_fields in Hm;
      injection Hm as <-; simpl; try exact Hx.
    intros d Hd. injection Hd as <-. now exists basePath.
  - intros d Hd. rewrite Hnone in Hd. discriminate.
Qed.

(** No call writes [factoryGeneratedControllers]. *)
Lemma no_factory_controllers (h : Host) (script : list Method) (r : option Thrown)
    (b b' : AppInitializer) :
  runCalls h script r b = Normal b' ->
  factoryGeneratedControllers b' = factoryGeneratedControllers b.
Proof.
  intros Hrun.
  refine (@runCalls_invariant h
            (fun x => factoryGeneratedControllers x = factoryGeneratedControllers b)
            _ script r b b' eq_refl Hrun).
  intros m x x' Hnot Hx Hm.
  destruct m; try (exfalso; eapply Hnot; reflexivity);
    simpl in Hm; try rewrite withTypeOrm_fields in Hm;
    injection Hm as <-; simpl; exact Hx.
Qed.

Lemma runCalls_frame (h : Host) (script : list Method) (r : option Thrown)
    (b b' : AppInitializer) :
  runCalls h script r b = Normal b' ->
  sameInstance b b'
  /\ forall g, ~ In g (flat_map targets script) -> unchanged g b b'.
Proof.
  apply runCalls_framed. apply Forall_forall. intros m _. apply invoke_framed.
Qed.

(** ** The composition root *)

Lemma createdRoots_app (t1 t2 : Trace) :
  createdRoots (t1 ++ t2) = createdRoots t1 ++ createdRoots t2.
Proof.
  induction t1 as [| e rest IH]; simpl; [reflexivity |].
  destruct e as [c | | |]; try exact IH.
  destruct c; try exact IH. simpl. now rewrite IH.
Qed.

Lemma createdRoots_none (t : Trace) : filter isCreate t = [] -> createdRoots t = [].
Proof.
  induction t as [| e rest IH]; simpl; [reflexivity |].
  destruct e as [c | | |]; try exact IH.
  destruct c; try exact IH. discriminate.
Qed.

Lemma silent_create_afterSettings (fw : Framework) (this : AppInitializer) :
  silent isCreate (afterSettings fw this).
Proof. apply silent_afterSettings; repeat split; intros; reflexivity. Qed.

Lemma silent_create_settings (fw : Framework) (this : AppInitializer) :
  silent isCreate
    (applyGlobalPrefix fw this ;; applyCors fw this ;; applyVersioning fw this ;;
     afterSettings fw this).
Proof.
  unfold applyGlobalPrefix, applyCors, applyVersioning.
  do 3 (apply silent_bind; [silence | intros _]).
  apply silent_create_afterSettings.
Qed.

Lemma listen_creates_once (fw : Framework) (this : AppInitializer) (past : Trace) :
  createdRoots (fst (listen fw this past)) = [declareRootModule this].
Proof.
  rewrite listen_stages. rewrite bind_run. simpl.
  rewrite bind_run. unfold call at 1.
  destruct (rejects fw (past ++ [Call (Logger_log loggerContext _)]) _); simpl;
    [reflexivity |].
  f_equal. apply createdRoots_none. apply silent_create_settings.
Qed.

(** C1. When [listen] runs after any script of configuration calls, one
    composition root is handed to [NestFactory.create].  Its imports are
    the root module followed by the feature modules, which are the modules
    the calls registered, in call order.  Its providers are the
    injectables the scanner found (none when no call asked for the scan)
    followed by the global providers the calls registered, in call order.
    Its controllers are the handlers the scanner found followed by the
    explicitly supplied controllers, a list no call writes. *)
Theorem listen_synthesizes_one_root (fw : Framework) (h : Host) (id : nat)
    (rootModule : ClassType) (adapter0 : option AbstractHttpAdapter)
    (script : list Method) (b : AppInitializer) (past : Trace) :
  runCalls h script None (newAppInitializer h id rootModule adapter0) = Normal b ->
  exists root,
    createdRoots (fst (listen fw b past)) = [root]
    /\ imports root = ModuleClass rootModule :: featureModules b
    /\ featureModules b
       = flat_map (fun m => entries featureModules
                              (invoke h m (newAppInitializer h id rootModule adapter0)))
                  script
    /\ rootProviders root
       = map ClassProvider (discoveredProviders b) ++ globalProviders b
    /\ globalProviders b
       = flat_map (fun m => entries globalProviders
                              (invoke h m (newAppInitializer h id rootModule adapter0)))
                  script
    /\ rootControllers root
       = discoveredControllers b ++ factoryGeneratedControllers b
    /\ factoryGeneratedControllers b = []
    /\ (~ In F_autoDiscoveredComponents (flat_map targets script) ->
        discoveredProviders b = [] /\ discoveredControllers b = [])
    /\ (forall d, autoDiscoveredComponents b = Some d ->
                  (exists basePath,
                      d = AutoDiscovery.discoverComponents (fileSystem h) basePath
                            (metadata h) (require h))
                  /\ discoveredProviders b = AutoDiscovery.providers d
                  /\ discoveredControllers b = AutoDiscovery.controllers d).
Proof.
  intros Hrun.
  set (fresh := newAppInitializer h id rootModule adapter0) in *.
  destruct (@runCalls_frame h script None fresh b Hrun) as [(_ & Hmodule & _) Hframe].
  assert (Hempty : emptySequences fresh) by (repeat split).
  destruct (@runCalls_entries h script fresh Hempty fresh b Hrun)
    as (_ & _ & Hmodules & Hproviders & _).
  exists (declareRootModule b).
  split; [apply listen_creates_once |].
  split; [simpl; now rewrite Hmodule |].
  split; [exact Hmodules |].
  split; [reflexivity |].
  split; [exact Hproviders |].
  split; [reflexivity |].
  split; [exact (@no_factory_controllers h script None fresh b Hrun) |].
  split.
  - intros Hnever. apply Hframe in Hnever. simpl in Hnever.
    unfold discoveredProviders, discoveredControllers. rewrite Hnever. now split.
  - intros d Hd. split.
    + exact (@discovered_by_scanner h script None fresh b eq_refl Hrun d Hd).
    + unfold discoveredProviders, discoveredControllers. rewrite Hd. now split.
Qed.

Lemma listen_synthesizes_one_root_witness :
  exists root,
    createdRoots
      (fst (listen mockFramework
              (withMetrics
                 (useGlobalGuard MockProvider
                    (withAutoDiscovery mockHost "/base" mockInitializer)))
              []))
    = [root]
    /\ imports root = [ModuleClass MockAppModule; MetricsModule_forRoot]
    /\ rootProviders root = [ClassProvider MockProvider; UseClass APP_GUARD MockProvider]
    /\ rootControllers root = [].
Proof.
  destruct (@listen_synthesizes_one_root mockFramework mockHost 1 MockAppModule None
              [WithAutoDiscovery "/base"; UseGlobalGuard MockProvider; WithMetrics]
              (withMetrics
                 (useGlobalGuard MockProvider
                    (withAutoDiscovery mockHost "/base" mockInitializer)))
              [] eq_refl)
    as (root & Hone & Himports & _ & Hproviders & _ & Hcontrollers & _).
  exists root. split; [exact Hone |].
  split; [rewrite Himports; reflexivity |].
  split; [rewrite Hproviders; reflexivity | rewrite Hcontrollers; reflexivity].
Defined.

(** ** Route prefix, CORS, versioning *)

Lemma silent_setting_afterSettings (fw : Framework) (this : AppInitializer) :
  silent isSetting (afterSettings fw this).
Proof. apply silent_afterSettings; repeat split; intros; reflexivity. Qed.

Lemma In_firstn {A : Type} (x : A) (k : nat) (l : list A) :
  In x (firstn k l) -> In x l.
Proof.
  revert l. induction k as [| k IH]; intros l; simpl; [tauto |].
  destruct l as [| y rest]; simpl; [tauto |]. intros [H | H]; auto.
Qed.

Lemma filter_call_then {B : Type} (fw : Framework) (Q : Event -> bool)
    (c : FrameworkCall) (k : unit -> M B) (past : Trace) :
  filter Q (fst (bind (call fw c) k past))
  = (if Q (Call c) then [Call c] else [])
      ++ match rejects fw past c with
         | Some _ => []
         | None => filter Q (fst (k tt (past ++ [Call c])))
         end.
Proof.
  rewrite filter_bind, fst_call, snd_call. simpl.
  destruct (Q (Call c)), (rejects fw past c); reflexivity.
Qed.

Lemma filter_ret_then {B : Type} (Q : Event -> bool) (k : unit -> M B)
    (past : Trace) :
  filter Q (fst (bind (ret tt) k past)) = filter Q (fst (k tt (past ++ []))).
Proof. now rewrite filter_bind. Qed.

Lemma listen_settings (fw : Framework) (b : AppInitializer) (past : Trace) :
  (forall p, globalPrefix b = Some p -> truthy (JsString p) = true) ->
  (exists k, settingsCalls (fst (listen fw b past)) = firstn k (configuredSettings b))
  /\ ((forall past' c, rejects fw past' c = None) ->
      settingsCalls (fst (listen fw b past)) = configuredSettings b).
Proof.
  intros Hprefix. unfold settingsCalls, configuredSettings.
  assert (Hafter : forall past', filter isSetting (fst (afterSettings fw b past')) = [])
    by (intros past'; apply silent_setting_afterSettings).
  rewrite listen_stages, filter_bind. cbn [emit fst snd filter isSetting app].
  unfold applyGlobalPrefix, applyCors, applyVersioning.
  destruct (globalPrefix b) as [p |] eqn:Ep; [rewrite (Hprefix p eq_refl) |];
    destruct (corsOptions b) as [o |] eqn:Eo;
    destruct (versioningOptions b) as [v |] eqn:Ev;
    cbn [truthy];
    repeat (first [rewrite filter_call_then | rewrite filter_ret_then];
            cbn beta iota; cbn [isSetting app]);
    repeat match goal with
           | |- context [rejects fw ?x ?c] => destruct (rejects fw x c) eqn:?
           end;
    rewrite ?Hafter;
    (split;
     [first [exists 0%nat; reflexivity | exists 1%nat; reflexivity
            | exists 2%nat; reflexivity | exists 3%nat; reflexivity]
     | intros Hok;
       first [reflexivity
             | exfalso;
               match goal with
               | E : rejects fw _ _ = Some _ |- _ => rewrite Hok in E; discriminate E
               end]]).
Qed.

(** C7. In the trace of [listen], the calls that set the route prefix,
    the CORS policy and the versioning policy are an initial part of the
    list made, in this order, of one call for the prefix, one for CORS and
    one for versioning, each present only if its field is set; they are
    the whole list when no call into the framework fails.  A field that
    no call of the script set gives no call at all for its concern. *)
Theorem listen_applies_settings_in_order (fw : Framework) (h : Host) (id : nat)
    (rootModule : ClassType) (adapter0 : option AbstractHttpAdapter)
    (script : list Method) (b : AppInitializer) (past : Trace) :
  runCalls h script None (newAppInitializer h id rootModule adapter0) = Normal b ->
  (exists k, settingsCalls (fst (listen fw b past)) = firstn k (configuredSettings b))
  /\ ((forall past' c, rejects fw past' c = None) ->
      settingsCalls (fst (listen fw b past)) = configuredSettings b)
  /\ (globalPrefix b = None ->
      forall p, ~ In (Call (App_setGlobalPrefix p)) (fst (listen fw b past)))
  /\ (corsOptions b = None ->
      forall o, ~ In (Call (App_enableCors o)) (fst (listen fw b past)))
  /\ (versioningOptions b = None ->
      forall o, ~ In (Call (App_enableVersioning o)) (fst (listen fw b past)))
  /\ (~ In F_globalPrefix (flat_map targets script) -> globalPrefix b = None)
  /\ (~ In F_corsOptions (flat_map targets script) -> corsOptions b = None)
  /\ (~ In F_versioningOptions (flat_map targets script) -> versioningOptions b = None).
Proof.
  intros Hrun.
  set (fresh := newAppInitializer h id rootModule adapter0) in *.
  assert (Hprefix : forall p, globalPrefix b = Some p -> truthy (JsString p) = true)
    by exact (@prefix_truthy h script None fresh b eq_refl Hrun).
  destruct (@listen_settings fw b past Hprefix) as [[k Hk] Hall].
  assert (Hin : forall e, isSetting e = true -> In e (fst (listen fw b past)) ->
                          In e (configuredSettings b)).
  { intros e He Hine. apply In_firstn with (k := k). rewrite <- Hk.
    unfold settingsCalls. apply filter_In. now split. }
  destruct (@runCalls_frame h script None fresh b Hrun) as [_ Hframe].
  split; [now exists k |]. split; [exact Hall |].
  unfold configuredSettings in Hin.
  repeat split.
  - intros Hnone p Hp. apply Hin in Hp; [| reflexivity]. rewrite Hnone in Hp.
    destruct (corsOptions b), (versioningOptions b); simpl in Hp;
      intuition discriminate.
  - intros Hnone o Ho. apply Hin in Ho; [| reflexivity]. rewrite Hnone in Ho.
    destruct (globalPrefix b), (versioningOptions b); simpl in Ho;
      intuition discriminate.
  - intros Hnone o Ho. apply Hin in Ho; [| reflexivity]. rewrite Hnone in Ho.
    destruct (globalPrefix b), (corsOptions b); simpl in Ho;
      intuition discriminate.
  - intros Hnever. exact (Hframe F_globalPrefix Hnever).
  - intros Hnever. exact (Hframe F_corsOptions Hnever).
  - intros Hnever. exact (Hframe F_versioningOptions Hnever).
Qed.

Lemma listen_applies_settings_in_order_witness :
  settingsCalls
    (fst (listen mockFramework
            (withVersioning [("type", JsString "URI")]
               (withGlobalPrefix "api/v2" mockInitializer)) []))
  = [Call (App_setGlobalPrefix "/api/v2");
     Call (App_enableVersioning [("type", JsString "URI")])]
  /\ forall o,
      ~ In (Call (App_enableCors o))
           (fst (listen mockFramework
                   (withVersioning [("type", JsString "URI")]
                      (withGlobalPrefix "api/v2" mockInitializer)) [])).
Proof.
  destruct (@listen_applies_settings_in_order mockFramework mockHost 1 MockAppModule
              None
              [WithGlobalPrefix "api/v2"; WithVersioning [("type", JsString "URI")]]
              (withVersioning [("type", JsString "URI")]
                 (withGlobalPrefix "api/v2" mockInitializer))
              [] eq_refl)
    as (_ & Hall & _ & Hcors & _).
  split.
  - rewrite Hall; [reflexivity | intros past' c; reflexivity].
  - apply Hcors. reflexivity.
Defined.

(** ** The plugins *)

Lemma silent_apply_applyPlugin (fw : Framework) (index : nat) (p : Plugin) :
  silent isApplyEvent (applyPlugin fw index p).
Proof. apply silent_applyPlugin; intros; reflexivity. Qed.

Lemma silent_apply_setups (fw : Framework) (l : list SetupFunction) :
  silent isApplyEvent (forEach (runSetup fw) l).
Proof. apply silent_setups; intros; reflexivity. Qed.

Lemma silent_apply_afterPlugins (fw : Framework) (this : AppInitializer) :
  silent isApplyEvent (afterPlugins fw this).
Proof. apply silent_afterPlugins; repeat split; intros; reflexivity. Qed.

(** The loop over the plugins: every plugin is called after the one
    before it has settled, up to the first that rejects. *)
Lemma applyPlugins_schedule (fw : Framework) (ps : list Plugin) :
  forall index past,
    (snd (applyPlugins fw index ps past) = Normal tt
     /\ applyEvents (fst (applyPlugins fw index ps past))
        = completedRuns index (List.length ps))
    \/ (exists k e,
          (k < List.length ps)%nat
          /\ applyEvents (fst (applyPlugins fw index ps past))
             = completedRuns index k
                 ++ [ApplyCalled (index + k); ApplySettled (index + k) (Some e)]
          /\ snd (applyPlugins fw index ps past) = Throws e).
Proof.
  induction ps as [| p rest IH]; intros index past.
  - left. split; reflexivity.
  - cbn [applyPlugins]. unfold applyEvents.
    rewrite snd_bind, filter_bind. cbn [emit fst snd filter isApplyEvent app].
    rewrite snd_bind, filter_bind. rewrite awaitApply_run. cbn [fst snd].
    set (past1 := past ++ [Call (Logger_log loggerContext
                                   ("Aplicando o plugin: " ++ pluginName p))]).
    cbn [filter isApplyEvent]. rewrite filter_app.
    rewrite (silent_apply_applyPlugin fw index p (past1 ++ [ApplyCalled index])).
    cbn [app filter isApplyEvent].
    destruct (snd (applyPlugin fw index p (past1 ++ [ApplyCalled index])))
      as [[] | e] eqn:Eapply; cbn [rejectionOf].
    + match goal with
      | |- context [applyPlugins fw (S index) rest ?x] =>
          destruct (IH (S index) x) as [[Hr Ht] | (k & e & Hk & Ht & Hr)]
      end.
      * left. split; [exact Hr |]. unfold applyEvents in Ht. rewrite Ht. reflexivity.
      * right. exists (S k), e. split; [simpl; lia |].
        unfold applyEvents in Ht. rewrite Ht, Hr.
        replace (index + S k)%nat with (S index + k)%nat by lia.
        split; reflexivity.
    + right. exists 0%nat, e. split; [simpl; lia |].
      rewrite Nat.add_0_r. split; reflexivity.
Qed.

Lemma completedRuns_settled (i0 n i : nat) (e : Thrown) :
  ~ In (ApplySettled i (Some e)) (completedRuns i0 n).
Proof.
  revert i0. induction n as [| n IH]; intros i0; simpl; [tauto |].
  intros [H | [H | H]]; try discriminate. exact (IH _ H).
Qed.

Lemma completedRuns_called (i0 n j : nat) :
  In (ApplyCalled j) (completedRuns i0 n) -> (i0 <= j < i0 + n)%nat.
Proof.
  revert i0. induction n as [| n IH]; intros i0; simpl; [tauto |].
  intros [H | [H | H]]; try discriminate.
  - injection H as <-. lia.
  - apply IH in H. lia.
Qed.

Lemma schedule_order (n : nat) :
  forall i0 tail L1 L2 i j,
    completedRuns i0 n ++ tail = L1 ++ ApplyCalled j :: L2 ->
    (tail = []
     \/ exists e, tail = [ApplyCalled (i0 + n); ApplySettled (i0 + n) (Some e)]) ->
    (i0 <= i)%nat -> (i < j)%nat ->
    In (ApplySettled i None) L1.
Proof.
  induction n as [| n IH]; intros i0 tail L1 L2 i j Heq Htail Hi Hij.
  - simpl in Heq. destruct Htail as [-> | [e ->]].
    + destruct L1; discriminate Heq.
    + rewrite Nat.add_0_r in Heq.
      destruct L1 as [| x [| y L1']]; simpl in Heq.
      * injection Heq as Hj _. lia.
      * injection Heq as _ Habs _. discriminate Habs.
      * injection Heq as _ _ Habs. destruct L1'; discriminate Habs.
  - simpl in Heq.
    destruct L1 as [| x [| y L1']]; simpl in Heq.
    + injection Heq as Hj _. lia.
    + injection Heq as _ Habs _. discriminate Habs.
    + injection Heq as Hx Hy Hrest. subst x y.
      destruct (Nat.eq_dec i i0) as [-> | Hne].
      * simpl. auto.
      * simpl. right. right.
        apply (IH (S i0) tail L1' L2 i j Hrest); [| lia | exact Hij].
        destruct Htail as [-> | [e ->]]; [now left | right; exists e].
        now replace (S i0 + n)%nat with (i0 + S n)%nat by lia.
Qed.

Lemma reach {A B : Type} (Q : Event -> bool) (c : M A) (k : A -> M B)
    (past : Trace) (P : Trace -> Completion B -> Prop) :
  silent Q c ->
  (forall e, P [] (Throws e)) ->
  (forall a past', P (filter Q (fst (k a past'))) (snd (k a past'))) ->
  P (filter Q (fst (bind c k past))) (snd (bind c k past)).
Proof.
  intros Hc Hthrow Hk.
  destruct (@silent_then A B Q c k past Hc)
    as [(Hnil & e & Hr & _) | (a & _ & Ht & Hr)].
  - rewrite Hnil, Hr. apply Hthrow.
  - rewrite Ht, Hr. apply Hk.
Qed.

Lemma fromPlugins_outcome (fw : Framework) (b : AppInitializer) (past : Trace) :
  sequentialOutcome (List.length (plugins b))
    (applyEvents (fst (fromPlugins fw b past))) (snd (fromPlugins fw b past)).
Proof.
  unfold fromPlugins, applyEvents. rewrite filter_bind, snd_bind.
  destruct (applyPlugins_schedule fw (plugins b) 0 past)
    as [[Hr Ht] | (k & e & Hk & Ht & Hr)];
    unfold applyEvents in Ht; rewrite Ht, Hr.
  - rewrite silent_apply_afterPlugins, app_nil_r. right. now left.
  - rewrite app_nil_r. right. right. now exists k, e.
Qed.

Lemma listen_outcome (fw : Framework) (b : AppInitializer) (past : Trace) :
  sequentialOutcome (List.length (plugins b))
    (applyEvents (fst (listen fw b past))) (snd (listen fw b past)).
Proof.
  rewrite listen_stages. unfold applyEvents, afterSettings.
  assert (Hthrow : forall e, sequentialOutcome (List.length (plugins b)) []
                               (@Throws unit e))
    by (intros e; left; split; [reflexivity | now exists e]).
  apply reach; [silence | exact Hthrow | intros _ past1].
  apply reach; [silence | exact Hthrow | intros _ past2].
  apply reach; [unfold applyGlobalPrefix; silence | exact Hthrow | intros _ past3].
  apply reach; [unfold applyCors; silence | exact Hthrow | intros _ past4].
  apply reach; [unfold applyVersioning; silence | exact Hthrow | intros _ past5].
  apply reach; [apply silent_apply_setups | exact Hthrow | intros _ past6].
  apply fromPlugins_outcome.
Qed.

(** ** Which plugin is applied, and when *)

Lemma not_in_silent {A : Type} (Q : A -> bool) (t : list A) (x : A) :
  filter Q t = [] -> Q x = true -> ~ In x t.
Proof.
  intros Hnil Hx Hin.
  assert (H : In x (filter Q t)) by (apply filter_In; now split).
  rewrite Hnil in H. destruct H.
Qed.

(** An occurrence of [x] in [l1 ++ l2], where [l1] has none, is in [l2]. *)
Lemma split_past {A : Type} (l1 l2 t1 t2 : list A) (x : A) :
  l1 ++ l2 = t1 ++ x :: t2 -> ~ In x l1 ->
  exists l, t1 = l1 ++ l /\ l2 = l ++ x :: t2.
Proof.
  revert t1. induction l1 as [| a rest IH]; intros t1 Heq Hnot.
  - now exists t1.
  - destruct t1 as [| a' t1']; simpl in Heq.
    + injection Heq as -> _. exfalso. apply Hnot. now left.
    + injection Heq as -> Heq. destruct (IH t1' Heq) as (l & -> & ->).
      * intros Hin. apply Hnot. now right.
      * now exists l.
Qed.

(** An occurrence of [x] in [l1 ++ l2], where [l2] has none, is in [l1]. *)
Lemma split_before {A : Type} (l1 l2 t1 t2 : list A) (x : A) :
  l1 ++ l2 = t1 ++ x :: t2 -> ~ In x l2 ->
  exists l, l1 = t1 ++ x :: l /\ t2 = l ++ l2.
Proof.
  revert t1. induction l1 as [| a rest IH]; intros t1 Heq Hnot.
  - simpl in Heq. exfalso. apply Hnot. rewrite Heq. apply in_elt.
  - destruct t1 as [| a' t1']; simpl in Heq.
    + injection Heq as -> <-. now exists rest.
    + injection Heq as -> Heq. destruct (IH t1' Heq Hnot) as (l & -> & ->).
      now exists l.
Qed.

(** One turn of the loop over the plugins. *)
Lemma applyPlugins_cons (fw : Framework) (p : Plugin) (rest : list Plugin)
    (index : nat) (past : Trace) :
  let run := applyPlugin fw index p (past ++ [announcement p; ApplyCalled index]) in
  let turn :=
    announcement p :: ApplyCalled index
      :: fst run ++ [ApplySettled index (rejectionOf (snd run))] in
  applyPlugins fw index (p :: rest) past
  = match snd run with
    | Normal _ =>
        (turn ++ fst (applyPlugins fw (S index) rest (past ++ turn)),
         snd (applyPlugins fw (S index) rest (past ++ turn)))
    | Throws e => (turn, Throws e)
    end.
Proof.
  cbn zeta. cbn [applyPlugins]. rewrite bind_run. cbn [emit].
  rewrite bind_run, awaitApply_run. unfold announcement, loggerContext.
  rewrite <- !app_assoc. cbn [app fst snd].
  destruct (snd (applyPlugin fw index p _)) as [[] | e]; reflexivity.
Qed.

(** What a plugin does carries the position at which it is applied. *)
Lemma effects_of_applyPlugin (fw : Framework) (k : nat) (p : Plugin)
    (past : Trace) (i : nat) (w : string) :
  In (PluginEffect i w) (fst (applyPlugin fw k p past)) -> i = k.
Proof.
  destruct p as [| options | | name behaviour]; cbn [applyPlugin].
  - rewrite fst_call. intros [H | []]. discriminate H.
  - rewrite fst_call. intros [H | []]. discriminate H.
  - intros Hin. exfalso. revert Hin.
    apply (@not_in_silent _ isPluginEffect); [| reflexivity].
    revert past. change (silent isPluginEffect (TypeOrmMigrationPlugin_apply fw)).
    unfold TypeOrmMigrationPlugin_apply. silence.
  - destruct (behaviour past) as [effects [e | | deferred r]]; cbn [fst];
      intros Hin; apply in_map_iff in Hin; destruct Hin as (w' & Heq & _);
      now injection Heq.
Qed.

Lemma applyPlugins_effects_from (fw : Framework) (ps : list Plugin) :
  forall index past i w,
    In (PluginEffect i w) (fst (applyPlugins fw index ps past)) -> (index <= i)%nat.
Proof.
  induction ps as [| p rest IH]; intros index past i w Hin; [destruct Hin |].
  rewrite applyPlugins_cons in Hin. cbn zeta in Hin.
  set (run := applyPlugin fw index p (past ++ [announcement p; ApplyCalled index]))
    in Hin.
  assert (Hturn : In (PluginEffect i w)
                    (announcement p :: ApplyCalled index
                       :: fst run ++ [ApplySettled index (rejectionOf (snd run))]) ->
                  (index <= i)%nat).
  { intros [H | [H | H]]; try discriminate H.
    apply in_app_or in H. destruct H as [H | [H | []]]; [| discriminate H].
    apply effects_of_applyPlugin in H. lia. }
  destruct (snd run) as [[] | e]; cbn [fst] in Hin; [| now apply Hturn].
  apply in_app_or in Hin. destruct Hin as [H | H]; [now apply Hturn |].
  apply IH in H. lia.
Qed.

(** Every call of an [apply] in the loop is that of the plugin registered
    at the position called, announced just before by its name, and is
    followed at once by the whole of what this plugin does and by the
    completion of its application. *)
Lemma applyPlugins_called (fw : Framework) (ps : list Plugin) :
  forall index past k t1 t2,
    fst (applyPlugins fw index ps past) = t1 ++ ApplyCalled k :: t2 ->
    exists p t0 t3,
      (index <= k)%nat
      /\ nth_error ps (k - index) = Some p
      /\ t1 = t0 ++ [announcement p]
      /\ t2 = fst (applyPlugin fw k p (past ++ t1 ++ [ApplyCalled k]))
              ++ ApplySettled k
                   (rejectionOf (snd (applyPlugin fw k p (past ++ t1 ++ [ApplyCalled k]))))
              :: t3
      /\ (forall i w, In (PluginEffect i w) t3 -> (k < i)%nat).
Proof.
  induction ps as [| p rest IH]; intros index past k t1 t2 Heq.
  - destruct t1; discriminate Heq.
  - rewrite applyPlugins_cons in Heq. cbn zeta in Heq.
    set (run := applyPlugin fw index p (past ++ [announcement p; ApplyCalled index]))
      in Heq.
    set (settled := ApplySettled index (rejectionOf (snd run))) in Heq.
    assert (Hshape :
              exists R,
                [announcement p] ++ ApplyCalled index :: (fst run ++ [settled]) ++ R
                = t1 ++ ApplyCalled k :: t2
                /\ (forall i w, In (PluginEffect i w) R -> (index < i)%nat)
                /\ (R = []
                    \/ (snd run = Normal tt
                        /\ R = fst (applyPlugins fw (S index) rest
                                      (past ++ announcement p :: ApplyCalled index
                                         :: fst run ++ [settled]))))).
    { destruct (snd run) as [[] | e] eqn:Er; cbn [fst] in Heq.
      - eexists. split; [| split; [| right; split; reflexivity]].
        + rewrite <- Heq. cbn [app]. now rewrite <- app_assoc.
        + intros i w Hin. apply applyPlugins_effects_from in Hin. lia.
      - exists []. split; [| split; [intros i w [] | now left]].
        rewrite app_nil_r. exact Heq. }
    destruct Hshape as (R & Hsplit & Hafter & HR).
    apply split_past in Hsplit; [| intros [H | []]; discriminate H].
    destruct Hsplit as (l & Ht1 & Hl).
    destruct l as [| y l'].
    + (* the call of this turn *)
      injection Hl as Hk Ht2. subst k t1 t2.
      exists p, [], R. repeat split.
      * lia.
      * now rewrite Nat.sub_diag.
      * rewrite <- app_assoc. reflexivity.
      * exact Hafter.
    + (* a call of a later turn *)
      injection Hl as <- Hl.
      apply split_past in Hl.
      2:{ intros Hin. apply in_app_or in Hin. destruct Hin as [Hin | [Hin | []]].
          - revert Hin. apply (@not_in_silent _ isApplyEvent); [| reflexivity].
            apply silent_apply_applyPlugin.
          - discriminate Hin. }
      destruct Hl as (l'' & -> & HRsplit).
      destruct HR as [-> | [Hr ->]]; [destruct l''; discriminate HRsplit |].
      destruct (IH _ _ _ _ _ HRsplit) as (p' & t0' & t3 & Hle & Hnth & -> & Ht2 & Ht3).
      exists p', (announcement p :: ApplyCalled index :: (fst run ++ [settled]) ++ t0'),
        t3.
      repeat split.
      * lia.
      * replace (k - index)%nat with (S (k - S index)) by lia. exact Hnth.
      * subst t1. cbn [app]. now rewrite <- !app_assoc.
      * subst t1. rewrite Ht2.
        repeat (rewrite <- app_assoc || rewrite <- app_comm_cons). reflexivity.
      * exact Ht3.
Qed.

Lemma appliedAt_shift (fw : Framework) (ps : list Plugin) (k : nat)
    (past pre t1 t2 : Trace) :
  appliedAt fw ps k (past ++ pre) t1 t2 -> appliedAt fw ps k past (pre ++ t1) t2.
Proof.
  intros (p & t0 & t3 & Hnth & -> & Ht2 & Ht3).
  exists p, (pre ++ t0), t3. repeat split; [exact Hnth | | | exact Ht3].
  - now rewrite app_assoc.
  - rewrite Ht2. now rewrite <- !app_assoc.
Qed.

(** Steps that call no [apply], in front of a run in which one is
    called. *)
Lemma called_through {A : Type} (fw : Framework) (ps : list Plugin) (j : nat)
    (t2 : Trace) (c : M A) (k : A -> M unit) (past t1 : Trace) :
  silent isApplyEvent c ->
  (forall a past' t1',
      fst (k a past') = t1' ++ ApplyCalled j :: t2 ->
      appliedAt fw ps j past' t1' t2) ->
  fst (bind c k past) = t1 ++ ApplyCalled j :: t2 ->
  appliedAt fw ps j past t1 t2.
Proof.
  intros Hc Hk. rewrite bind_run. specialize (Hc past).
  assert (Hnot : ~ In (ApplyCalled j) (fst (c past)))
    by (apply (@not_in_silent _ isApplyEvent); [exact Hc | reflexivity]).
  destruct (c past) as [tc [a | e]]; cbn [fst] in *; intros Heq.
  - apply split_past in Heq; [| exact Hnot].
    destruct Heq as (l & -> & Hl).
    apply appliedAt_shift. now apply (Hk a).
  - exfalso. apply Hnot. rewrite Heq. apply in_elt.
Qed.

Lemma fromPlugins_called (fw : Framework) (b : AppInitializer)
    (past t1 t2 : Trace) (j : nat) :
  fst (fromPlugins fw b past) = t1 ++ ApplyCalled j :: t2 ->
  appliedAt fw (plugins b) j past t1 t2.
Proof.
  unfold fromPlugins. rewrite bind_run.
  pose proof (applyPlugins_called fw (plugins b) 0 past j t1) as Hloop.
  destruct (applyPlugins fw 0 (plugins b) past) as [tp [[] | e]];
    cbn [fst] in *; intros Heq.
  - apply split_before in Heq.
    2:{ apply (@not_in_silent _ isApplyEvent); [| reflexivity].
        apply silent_apply_afterPlugins. }
    destruct Heq as (l & Htp & ->).
    destruct (Hloop l Htp) as (p & t0 & t3 & _ & Hnth & -> & -> & Ht3).
    rewrite Nat.sub_0_r in Hnth.
    exists p, t0, (t3 ++ fst (afterPlugins fw b (past ++ tp))).
    repeat split; [exact Hnth | | ].
    + now rewrite <- app_assoc.
    + intros i w Hin. apply in_app_or in Hin. destruct Hin as [Hin | Hin].
      * now apply (Ht3 i w).
      * exfalso. revert Hin.
        apply (@not_in_silent _ isPluginEffect); [| reflexivity].
        apply silent_afterPlugins; repeat split; intros; reflexivity.
  - destruct (Hloop t2 Heq) as (p & t0 & t3 & _ & Hnth & -> & -> & Ht3).
    rewrite Nat.sub_0_r in Hnth. now exists p, t0, t3.
Qed.

Lemma listen_called (fw : Framework) (b : AppInitializer) (past t1 t2 : Trace)
    (j : nat) :
  fst (listen fw b past) = t1 ++ ApplyCalled j :: t2 ->
  appliedAt fw (plugins b) j past t1 t2.
Proof.
  rewrite listen_stages. unfold afterSettings.
  apply called_through; [silence | intros _ past1 t11].
  apply called_through; [silence | intros _ past2 t12].
  apply called_through; [unfold applyGlobalPrefix; silence | intros _ past3 t13].
  apply called_through; [unfold applyCors; silence | intros _ past4 t14].
  apply called_through; [unfold applyVersioning; silence | intros _ past5 t15].
  apply called_through; [apply silent_apply_setups | intros _ past6 t16].
  apply fromPlugins_called.
Qed.

(** C2. In any run of [listen], the plugins are applied one after the
    other, in the order of registration.  The [apply] called at position
    [k] is that of the plugin registered at position [k], announced just
    before by its name; the call is followed at once by everything this
    plugin does, also what it does after [apply] has returned its
    promise, and by the completion of its application.  Only then is the
    next plugin called: the plugin at position [j] is called only after
    every plugin before it has completed without rejection, and nothing
    that an earlier plugin does comes after that call.  When the plugin
    at position [i] throws or rejects with [e], [listen] rejects with [e]
    and no later plugin is called; and when [listen] returns, every
    plugin was applied, once. *)
Theorem listen_applies_plugins_sequentially (fw : Framework) (b : AppInitializer)
    (past : Trace) :
  sequentialOutcome (List.length (plugins b))
    (applyEvents (fst (listen fw b past))) (snd (listen fw b past))
  /\ (forall i j t1 t2,
        (i < j)%nat ->
        fst (listen fw b past) = t1 ++ ApplyCalled j :: t2 ->
        In (ApplySettled i None) t1)
  /\ (forall i e,
        In (ApplySettled i (Some e)) (fst (listen fw b past)) ->
        snd (listen fw b past) = Throws e
        /\ forall j, (i < j)%nat -> ~ In (ApplyCalled j) (fst (listen fw b past)))
  /\ (snd (listen fw b past) = Normal tt ->
      applyEvents (fst (listen fw b past))
      = completedRuns 0 (List.length (plugins b)))
  /\ (forall k t1 t2,
        fst (listen fw b past) = t1 ++ ApplyCalled k :: t2 ->
        appliedAt fw (plugins b) k past t1 t2)
  /\ (forall i j w t1 t2,
        (i < j)%nat ->
        fst (listen fw b past) = t1 ++ ApplyCalled j :: t2 ->
        ~ In (PluginEffect i w) t2).
Proof.
  pose proof (listen_outcome fw b past) as Hout.
  split; [exact Hout |].
  assert (Hnormal : snd (listen fw b past) = Normal tt ->
                    applyEvents (fst (listen fw b past))
                    = completedRuns 0 (List.length (plugins b))).
  { intros Hr.
    destruct Hout as [[_ [e He]] | [Hall | (k & e & _ & _ & He)]];
      [congruence | exact Hall | congruence]. }
  split; [| split; [| split; [exact Hnormal | split]]].
  4:{ intros i j w t1 t2 Hij Hsplit Hin.
      destruct (listen_called fw b past t1 t2 j Hsplit)
        as (p & t0 & t3 & _ & _ & -> & Hlater).
      apply in_app_or in Hin. destruct Hin as [Hin | [Hin | Hin]].
      - apply effects_of_applyPlugin in Hin. lia.
      - discriminate Hin.
      - apply Hlater in Hin. lia. }
  3:{ intros k t1 t2 Hsplit. now apply listen_called. }
  - intros i j t1 t2 Hij Hsplit.
    assert (Hev : applyEvents (fst (listen fw b past))
                  = applyEvents t1 ++ ApplyCalled j :: applyEvents t2).
    { rewrite Hsplit. unfold applyEvents. now rewrite filter_app. }
    assert (Hin : In (ApplySettled i None) (applyEvents t1)).
    { destruct Hout as [[Hnil _] | [Hall | (k & e & Hk & Hfail & _)]].
      - rewrite Hnil in Hev. destruct (applyEvents t1); discriminate Hev.
      - rewrite Hall in Hev.
        apply (@schedule_order (List.length (plugins b)) 0 []
                 (applyEvents t1) (applyEvents t2) i j);
          [now rewrite app_nil_r | now left | lia | exact Hij].
      - rewrite Hfail in Hev.
        apply (@schedule_order k 0 [ApplyCalled k; ApplySettled k (Some e)]
                 (applyEvents t1) (applyEvents t2) i j);
          [exact Hev | right; now exists e | lia | exact Hij]. }
    unfold applyEvents in Hin. now apply filter_In in Hin.
  - intros i e Hin.
    assert (Hin' : In (ApplySettled i (Some e)) (applyEvents (fst (listen fw b past))))
      by (unfold applyEvents; apply filter_In; now split).
    destruct Hout as [[Hnil _] | [Hall | (k & e' & Hk & Hfail & Hr)]].
    + rewrite Hnil in Hin'. destruct Hin'.
    + rewrite Hall in Hin'. now apply completedRuns_settled in Hin'.
    + rewrite Hfail in Hin'. apply in_app_or in Hin'.
      destruct Hin' as [Habs | [Habs | [Heq | []]]];
        [now apply completedRuns_settled in Habs | discriminate Habs |].
      injection Heq as -> ->. split; [exact Hr |].
      intros j Hij Hcalled.
      assert (Hc : In (ApplyCalled j) (applyEvents (fst (listen fw b past))))
        by (unfold applyEvents; apply filter_In; now split).
      rewrite Hfail in Hc. apply in_app_or in Hc.
      destruct Hc as [Hc | [Hc | [Hc | []]]].
      * apply completedRuns_called in Hc. lia.
      * injection Hc as ->. lia.
      * discriminate Hc.
Qed.

Lemma listen_applies_plugins_sequentially_witness :
  In (ApplySettled 0 None)
     (firstn 8
        (fst (listen mockFramework
                (withPlugin FastPlugin (withPlugin SlowPlugin mockInitializer)) [])))
  /\ snd (listen mockFramework
            (withPlugin FastPlugin (withPlugin FailingPlugin mockInitializer)) [])
     = Throws (ErrorObject "Error" "boom" "")
  /\ ~ In (ApplyCalled 1)
          (fst (listen mockFramework
                  (withPlugin FastPlugin (withPlugin FailingPlugin mockInitializer))
                  []))
  /\ appliedAt mockFramework [SlowPlugin; FastPlugin] 1 []
       (firstn 8
          (fst (listen mockFramework
                  (withPlugin FastPlugin (withPlugin SlowPlugin mockInitializer)) [])))
       (skipn 9
          (fst (listen mockFramework
                  (withPlugin FastPlugin (withPlugin SlowPlugin mockInitializer)) [])))
  /\ ~ In (PluginEffect 0 "timer fired")
          (skipn 9
             (fst (listen mockFramework
                     (withPlugin FastPlugin (withPlugin SlowPlugin mockInitializer))
                     []))).
Proof.
  split.
  { apply (proj1 (proj2 (listen_applies_plugins_sequentially mockFramework
                           (withPlugin FastPlugin
                              (withPlugin SlowPlugin mockInitializer)) []))
             0%nat 1%nat _
             (skipn 9
                (fst (listen mockFramework
                        (withPlugin FastPlugin
                           (withPlugin SlowPlugin mockInitializer)) [])))).
    - lia.
    - reflexivity. }
  destruct (proj1 (proj2 (proj2 (listen_applies_plugins_sequentially mockFramework
                                   (withPlugin FastPlugin
                                      (withPlugin FailingPlugin mockInitializer))
                                   [])))
              0%nat (ErrorObject "Error" "boom" "")) as [Hr Hlater];
    [vm_compute; tauto |].
  split; [exact Hr |].
  split; [apply Hlater; lia |].
  split.
  - apply (proj1 (proj2 (proj2 (proj2 (proj2
             (listen_applies_plugins_sequentially mockFramework
                (withPlugin FastPlugin (withPlugin SlowPlugin mockInitializer))
                [])))))
           1%nat).
    reflexivity.
  - apply (proj2 (proj2 (proj2 (proj2 (proj2
             (listen_applies_plugins_sequentially mockFramework
                (withPlugin FastPlugin (withPlugin SlowPlugin mockInitializer))
                [])))))
           0%nat 1%nat "timer fired"
           (firstn 8
              (fst (listen mockFramework
                      (withPlugin FastPlugin
                         (withPlugin SlowPlugin mockInitializer)) [])))).
    + lia.
    + reflexivity.
Defined.

(** ** The failure handler of [bootstrap] *)

Lemma bootstrapFailure_run (error : Thrown) (past : Trace) :
  bootstrapFailure error past
  = ([Call (Logger_error loggerContext (failureMessage error) (failureDetail error));
      Call (Process_exit 1)],
     Normal tt).
Proof. now destruct error. Qed.

Lemma silent_report_listen (fw : Framework) (b : AppInitializer) :
  silent isFailureReport (listen fw b).
Proof.
  rewrite listen_stages.
  unfold applyGlobalPrefix, applyCors, applyVersioning.
  do 5 (apply silent_bind; [silence | intros _]).
  apply silent_afterSettings; repeat split; intros; reflexivity.
Qed.

Lemma bootstrapAttempt_run (fw : Framework) (h : Host) (c : Callback)
    (initializer : AppInitializer) (past : Trace) :
  bootstrapAttempt fw h c initializer past
  = let started :=
      Call (Logger_log loggerContext
              "Iniciando o processo de bootstrap da aplicação...") in
    match runCallback h c initializer with
    | Throws e => ([started], Throws e)
    | Normal b =>
        (started :: fst (listen fw b (past ++ [started])),
         snd (listen fw b (past ++ [started])))
    end.
Proof.
  unfold bootstrapAttempt. rewrite bind_run. cbn [emit fst snd app].
  rewrite bind_run. unfold lift.
  destruct (runCallback h c initializer) as [b | e]; [| reflexivity].
  cbn [fst snd app]. now rewrite app_nil_r.
Qed.

(** X24. With a configurator, whatever the call of the configurator or
    [listen] throws is caught by the one handler of [bootstrap], which
    logs it and exits with status 1: the trace ends with that error log
    and [process.exit(1)], logged with the message and the stack of an
    [Error] object, and with a generic message and the thrown value
    otherwise; nothing before them is a report of the handler, and
    without an error there is none.  When the call of the configurator
    throws [Error("X")], the trace is the start-up log, the error log
    with ["X"] in its message, and the exit: the listener is not
    bound. *)
Theorem bootstrap_failure_is_fatal (fw : Framework) (h : Host) (id : nat)
    (rootModule : ClassType) (adapterOrConfigurator : AdapterOrConfigurator)
    (configurator : option Callback) (c : Callback) (past : Trace) :
  finalConfiguratorOf adapterOrConfigurator configurator = Some c ->
  let initializer :=
    newAppInitializer h id rootModule (adapterOf adapterOrConfigurator) in
  let started :=
    Call (Logger_log "AppInitializer"
            "Iniciando o processo de bootstrap da aplicação...") in
  let report (e : Thrown) :=
    [Call (Logger_error "AppInitializer" (failureMessage e) (failureDetail e));
     Call (Process_exit 1)] in
  let run := bootstrap fw h id rootModule adapterOrConfigurator configurator past in
  (forall e, runCallback h c initializer = Throws e ->
             run = (started :: report e, Normal tt))
  /\ (forall b e,
        runCallback h c initializer = Normal b ->
        snd (listen fw b (past ++ [started])) = Throws e ->
        run = (started :: fst (listen fw b (past ++ [started])) ++ report e, Normal tt)
        /\ filter isFailureReport (fst (listen fw b (past ++ [started]))) = [])
  /\ (forall b,
        runCallback h c initializer = Normal b ->
        snd (listen fw b (past ++ [started])) = Normal tt ->
        run = (started :: fst (listen fw b (past ++ [started])), Normal tt)
        /\ filter isFailureReport (fst run) = [])
  /\ (forall name message stack,
        failureMessage (ErrorObject name message stack)
        = ("Falha ao inicializar a aplicação. Error: " ++ message)%string
        /\ failureDetail (ErrorObject name message stack) = StackTrace stack)
  /\ (forall v,
        failureMessage (NonError v)
        = "Falha ao inicializar a aplicação com um erro não-padrão."
        /\ failureDetail (NonError v) = ThrownValue (NonError v))
  /\ (forall stack,
        runCallback h c initializer = Throws (ErrorObject "Error" "X" stack) ->
        run = ([started;
                Call (Logger_error "AppInitializer"
                        "Falha ao inicializar a aplicação. Error: X"
                        (StackTrace stack));
                Call (Process_exit 1)],
               Normal tt)
        /\ filter isListen (fst run) = []
        /\ createdRoots (fst run) = []).
Proof.
  intros Hc initializer started report run.
  assert (Hrun : run = tryCatch (bootstrapAttempt fw h c initializer)
                         bootstrapFailure past).
  { unfold run, bootstrap. now rewrite Hc. }
  rewrite tryCatch_run, bootstrapAttempt_run in Hrun.
  cbn zeta in Hrun. unfold loggerContext in Hrun.
  subst started report. cbn beta.
  assert (Hthrows :
            forall e, runCallback h c initializer = Throws e ->
                      run = ([Call (Logger_log "AppInitializer"
                                      "Iniciando o processo de bootstrap da aplicação...");
                              Call (Logger_error "AppInitializer" (failureMessage e)
                                      (failureDetail e));
                              Call (Process_exit 1)], Normal tt)).
  { intros e He. rewrite He in Hrun. cbn iota in Hrun.
    rewrite bootstrapFailure_run in Hrun. exact Hrun. }
  split; [exact Hthrows |].
  split.
  { intros b e Hb He. rewrite Hb in Hrun. cbn iota in Hrun.
    rewrite He in Hrun. rewrite bootstrapFailure_run in Hrun.
    split; [exact Hrun | apply silent_report_listen]. }
  split.
  { intros b Hb Hr. rewrite Hb in Hrun. cbn iota in Hrun.
    rewrite Hr in Hrun. split; [exact Hrun |].
    rewrite Hrun. cbn [fst filter isFailureReport].
    apply silent_report_listen. }
  split; [intros name message stack; split; reflexivity |].
  split; [intros v; split; reflexivity |].
  intros stack He. rewrite (Hthrows _ He). repeat split.
Qed.

Lemma bootstrap_failure_is_fatal_witness :
  bootstrap mockFramework mockHost 1 MockAppModule
    (AConfigurator
       (mkCallback false [OnPort (Finite 8080)]
          (Some (ErrorObject "Error" "X" "Error: X at main.ts"))))
    None []
  = ([Call (Logger_log "AppInitializer"
              "Iniciando o processo de bootstrap da aplicação...");
      Call (Logger_error "AppInitializer"
              "Falha ao inicializar a aplicação. Error: X"
              (StackTrace "Error: X at main.ts"));
      Call (Process_exit 1)],
     Normal tt).
Proof.
  destruct (@bootstrap_failure_is_fatal mockFramework mockHost 1 MockAppModule
              (AConfigurator
                 (mkCallback false [OnPort (Finite 8080)]
                    (Some (ErrorObject "Error" "X" "Error: X at main.ts"))))
              None
              (mkCallback false [OnPort (Finite 8080)]
                 (Some (ErrorObject "Error" "X" "Error: X at main.ts")))
              [] eq_refl)
    as (_ & _ & _ & _ & _ & Hscenario).
  exact (proj1 (Hscenario "Error: X at main.ts" eq_refl)).
Defined.

(** C3. An error thrown in an [async] configurator is not caught.
    [bootstrap] calls the configurator and does not await what it
    returns, so the promise rejected with the error is lost: whatever the
    body does and throws, [listen] runs on the builder as the body left
    it, the handler of [bootstrap] is reached only by an error of
    [listen], and [bootstrap] resolves.  For
    [async (app) => { app.onPort(8080); throw new Error("X") }] and a
    framework that does not fail, no error is logged, the process does
    not exit, and the listener is bound, on port 8080. *)
Theorem bootstrap_misses_async_configurator_error :
  (forall (fw : Framework) (h : Host) (id : nat) (rootModule : ClassType)
          (body : list Method) (e : Thrown) (past : Trace),
      let started :=
        Call (Logger_log "AppInitializer"
                "Iniciando o processo de bootstrap da aplicação...") in
      let b := reachedCalls h body (newAppInitializer h id rootModule None) in
      let outcome := listen fw b (past ++ [started]) in
      bootstrap fw h id rootModule
        (AConfigurator (mkCallback true body (Some e))) None past
      = (started
           :: fst outcome
           ++ match snd outcome with
              | Normal _ => []
              | Throws e' =>
                  [Call (Logger_error "AppInitializer" (failureMessage e')
                           (failureDetail e'));
                   Call (Process_exit 1)]
              end,
         Normal tt))
  /\ bootstrap mockFramework mockHost 1 MockAppModule
       (AConfigurator
          (mkCallback true [OnPort (Finite 8080)]
             (Some (ErrorObject "Error" "X" "Error: X at main.ts"))))
       None []
     = ([Call (Logger_log "AppInitializer"
                 "Iniciando o processo de bootstrap da aplicação...");
         Call (Logger_log "AppInitializer"
                 "Criando a instância da aplicação NestJS...");
         Call (NestFactory_create
                 (mkRootModule [ModuleClass MockAppModule] [] []) None);
         Call (App_listen (Finite 8080));
         Call App_getUrl;
         Call (Logger_log "AppInitializer"
                 "🚀 Aplicação rodando em: http://localhost:3000")],
        Normal tt).
Proof.
  split; [| reflexivity].
  intros fw h id rootModule body e past. cbn zeta.
  unfold bootstrap. cbn [finalConfiguratorOf adapterOf].
  rewrite tryCatch_run, bootstrapAttempt_run. cbn zeta.
  unfold runCallback. cbn [isAsync calls]. unfold loggerContext.
  destruct (snd (listen fw _ _)) as [[] | e'] eqn:Er; cbn [fst snd].
  - now rewrite app_nil_r.
  - rewrite bootstrapFailure_run. reflexivity.
Qed.

(** ** The scenarios of the test suites *)

Example scan_no_files :
  AutoDiscovery.discoverComponents (mockFileSystem []) "/base" mockReflector mockRequire
  = AutoDiscovery.mkDiscovered [] [].
Proof. reflexivity. Qed.

Example scan_pattern :
  AutoDiscovery.join (mockFileSystem []) ["/base"; "**/*.{ts,js}"]
  = "/base/**/*.{ts,js}".
Proof. reflexivity. Qed.

Example scan_mixed_file :
  AutoDiscovery.discoverComponents (mockFileSystem ["/fake/path/mixed.js"])
    "/base" mockReflector mockRequire
  = AutoDiscovery.mkDiscovered [MockProvider] [MockController].
Proof. reflexivity. Qed.

Example scan_non_decorated_and_non_class :
  AutoDiscovery.discoverComponents
    (mockFileSystem ["/fake/path/non-decorated.js"; "/fake/path/non-class.js"])
    "/base" mockReflector mockRequire
  = AutoDiscovery.mkDiscovered [] [].
Proof. reflexivity. Qed.

Example default_port : port mockInitializer = Finite 3000.
Proof. reflexivity. Qed.

Example parseInt_examples :
  parseInt10 "8080" = Finite 8080
  /\ parseInt10 "  42px" = Finite 42
  /\ parseInt10 "-7" = Finite (-7)
  /\ parseInt10 "abc" = NaN.
Proof. repeat split. Qed.

Example prefix_api_v1 :
  globalPrefix (withGlobalPrefix "api/v1" mockInitializer) = Some "/api/v1".
Proof. reflexivity. Qed.

Example production_defaults :
  setupFunctions (useProductionDefaults mockInitializer)
  = [Setup_useHelmet; Setup_useCompression; Setup_enableShutdownHooks]
  /\ List.length (plugins (useProductionDefaults mockInitializer)) = 1%nat
  /\ useProductionDefaults mockInitializer
     = withPlugin (newRateLimiterPlugin [])
         (withGracefulShutdown (enableCompression (useHelmet mockInitializer))).
Proof. repeat split. Qed.

Example development_defaults :
  let o := mkSwaggerOptions "Dev API" "Desc" "1.0" None None None None in
  swaggerOptions (useDevelopmentDefaults o mockInitializer)
  = Some (mkSwaggerOptions "Dev API" "Desc" "1.0" None (Some "docs") None None)
  /\ plugins (useDevelopmentDefaults o mockInitializer) = [RequestLoggerPlugin].
Proof. split; reflexivity. Qed.

Example when_false_then_true :
  invoke mockHost (When false [OnPort (Finite 1)] None) mockInitializer
  = Normal mockInitializer
  /\ invoke mockHost (When true [OnPort (Finite 1)] None) mockInitializer
     = Normal (onPort (Finite 1) mockInitializer).
Proof. split; reflexivity. Qed.

Example typeorm_without_migrations :
  plugins (withTypeOrm None mockInitializer) = []
  /\ List.length (featureModules (withTypeOrm None mockInitializer)) = 1%nat.
Proof. split; reflexivity. Qed.

Example listen_on_port_9000 :
  fst (listen mockFramework (onPort (Finite 9000) mockInitializer) [])
  = [ Call (Logger_log "AppInitializer" "Criando a instância da aplicação NestJS...");
      Call (NestFactory_create (mkRootModule [ModuleClass MockAppModule] [] []) None);
      Call (App_listen (Finite 9000));
      Call App_getUrl;
      Call (Logger_log "AppInitializer"
              "🚀 Aplicação rodando em: http://localhost:3000") ].
Proof. reflexivity. Qed.

Example listen_with_swagger :
  filter (fun e => match e with
                   | Call (SwaggerModule_setup _ _) => true
                   | Call (Logger_log _ _) => true
                   | _ => false
                   end)
    (fst (listen mockFramework
            (withSwagger (mkSwaggerOptions "T" "D" "1" None None None None)
               mockInitializer) []))
  = [ Call (Logger_log "AppInitializer" "Criando a instância da aplicação NestJS...");
      Call (SwaggerModule_setup "docs" None);
      Call (Logger_log "AppInitializer"
              "🚀 Aplicação rodando em: http://localhost:3000");
      Call (Logger_log "AppInitializer"
              "📄 Documentação Swagger disponível em: http://localhost:3000/docs") ].
Proof. reflexivity. Qed.

Example bootstrap_success :
  filter isFailureReport
    (fst (bootstrap mockFramework mockHost 1 MockAppModule
            (AConfigurator (mkCallback false [OnPort (Finite 8080)] None)) None []))
  = []
  /\ snd (bootstrap mockFramework mockHost 1 MockAppModule
            (AConfigurator (mkCallback false [OnPort (Finite 8080)] None)) None [])
     = Normal tt.
Proof. split; reflexivity. Qed.

Example migration_failure_is_logged_and_rethrown :
  let fw := mkFramework
              (fun _ c => match c with
                          | DataSource_runMigrations =>
                              Some (ErrorObject "Error" "no connection" "")
                          | _ => None
                          end)
              (fun _ => "http://localhost:3000")
              (fun name message => (name ++ ": " ++ message)%string) in
  listen fw (withPlugin FastPlugin (withPlugin TypeOrmMigrationPlugin mockInitializer)) []
  = ([ Call (Logger_log "AppInitializer" "Criando a instância da aplicação NestJS...");
       Call (NestFactory_create (mkRootModule [ModuleClass MockAppModule] [] []) None);
       Call (Logger_log "AppInitializer" "Aplicando o plugin: TypeOrmMigrationPlugin");
       ApplyCalled 0;
       Call (App_get "DataSource");
       Call (Logger_log "TypeOrmMigrationPlugin"
               "Iniciando execução das migrations do banco de dados...");
       Call DataSource_runMigrations;
       Call (Logger_error "TypeOrmMigrationPlugin"
               "Falha ao obter DataSource ou executar migrations."
               (ThrownValue (ErrorObject "Error" "no connection" "")));
       ApplySettled 0 (Some (ErrorObject "Error" "no connection" "")) ],
     Throws (ErrorObject "Error" "no connection" "")).
Proof. reflexivity. Qed.

(* ================================================================== *)
(** * Further properties of the code *)
(* ================================================================== *)

(** ** The scanner, beyond the loading of files *)

Lemma appendDiscovered_nil_r (d : AutoDiscovery.DiscoveredComponents) :
  appendDiscovered d noComponents = d.
Proof. destruct d. unfold appendDiscovered. simpl. now rewrite !app_nil_r. Qed.

Lemma appendDiscovered_assoc (d1 d2 d3 : AutoDiscovery.DiscoveredComponents) :
  appendDiscovered (appendDiscovered d1 d2) d3
  = appendDiscovered d1 (appendDiscovered d2 d3).
Proof. unfold appendDiscovered. simpl. now rewrite !app_assoc. Qed.

Lemma examineExport_shift (reflectorInst : AutoDiscovery.Reflector)
    (acc : AutoDiscovery.DiscoveredComponents) (x : JsValue) :
  AutoDiscovery.examineExport reflectorInst acc x
  = match AutoDiscovery.examineExport reflectorInst noComponents x with
    | Normal d => Normal (appendDiscovered acc d)
    | Throws e => Throws e
    end.
Proof.
  unfold AutoDiscovery.examineExport.
  destruct x; simpl; try now rewrite appendDiscovered_nil_r.
  destruct (fnPrototype f); [| now rewrite appendDiscovered_nil_r].
  destruct (reflectorInst "path" f) as [v |]; [| reflexivity].
  destruct (truthy v).
  - unfold appendDiscovered. simpl. now rewrite app_nil_r.
  - destruct (reflectorInst "__injectable__" f) as [w |]; [| reflexivity].
    destruct (truthy w); [| now rewrite appendDiscovered_nil_r].
    unfold appendDiscovered. simpl. now rewrite app_nil_r.
Qed.

Lemma examineExports_shift (reflectorInst : AutoDiscovery.Reflector)
    (exports : Props) (acc : AutoDiscovery.DiscoveredComponents) :
  AutoDiscovery.examineExports reflectorInst acc exports
  = appendDiscovered acc
      (AutoDiscovery.examineExports reflectorInst noComponents exports).
Proof.
  revert acc. induction exports as [| [key x] rest IH]; intros acc; simpl.
  - now rewrite appendDiscovered_nil_r.
  - rewrite (examineExport_shift reflectorInst acc x).
    destruct (AutoDiscovery.examineExport reflectorInst noComponents x) as [d |].
    + rewrite (IH (appendDiscovered acc d)), (IH d).
      apply appendDiscovered_assoc.
    + now rewrite appendDiscovered_nil_r.
Qed.

Lemma scanFile_shift (requireFn : AutoDiscovery.RequireFn)
    (reflectorInst : AutoDiscovery.Reflector)
    (acc : AutoDiscovery.DiscoveredComponents) (file : string) :
  AutoDiscovery.scanFile requireFn reflectorInst acc file
  = appendDiscovered acc
      (AutoDiscovery.scanFile requireFn reflectorInst noComponents file).
Proof.
  unfold AutoDiscovery.scanFile. destruct (requireFn file) as [exports |].
  - apply examineExports_shift.
  - now rewrite appendDiscovered_nil_r.
Qed.

Lemma scanFiles_shift (requireFn : AutoDiscovery.RequireFn)
    (reflectorInst : AutoDiscovery.Reflector) (files : list string)
    (acc : AutoDiscovery.DiscoveredComponents) :
  fold_left (AutoDiscovery.scanFile requireFn reflectorInst) files acc
  = appendDiscovered acc (AutoDiscovery.scanFiles requireFn reflectorInst files).
Proof.
  unfold AutoDiscovery.scanFiles. fold noComponents.
  revert acc. induction files as [| file rest IH]; intros acc; simpl.
  - now rewrite appendDiscovered_nil_r.
  - rewrite (IH (AutoDiscovery.scanFile requireFn reflectorInst acc file)),
      (IH (AutoDiscovery.scanFile requireFn reflectorInst noComponents file)).
    rewrite (scanFile_shift requireFn reflectorInst acc file).
    apply appendDiscovered_assoc.
Qed.

(** X1. The scanner works file by file: when the files of a directory
    are those of a first directory followed by those of a second, each
    bucket of the result is the bucket found in the first followed by the
    bucket found in the second.  Nothing is merged: a class met twice is
    listed twice. *)
Theorem discoverComponents_concatenates
    (fs fs1 fs2 : AutoDiscovery.FileSystem) (basePath basePath1 basePath2 : string)
    (reflectorInst : AutoDiscovery.Reflector) (requireFn : AutoDiscovery.RequireFn) :
  AutoDiscovery.enumerateFiles fs basePath
  = AutoDiscovery.enumerateFiles fs1 basePath1
      ++ AutoDiscovery.enumerateFiles fs2 basePath2 ->
  AutoDiscovery.discoverComponents fs basePath reflectorInst requireFn
  = appendDiscovered
      (AutoDiscovery.discoverComponents fs1 basePath1 reflectorInst requireFn)
      (AutoDiscovery.discoverComponents fs2 basePath2 reflectorInst requireFn).
Proof.
  intros Hfiles. unfold AutoDiscovery.discoverComponents. rewrite Hfiles.
  unfold AutoDiscovery.scanFiles at 1. rewrite fold_left_app.
  apply scanFiles_shift.
Qed.

Lemma discoverComponents_concatenates_witness :
  AutoDiscovery.discoverComponents
    (mockFileSystem ["/fake/path/mixed.js"; "/fake/path/mixed.js"])
    "/base" mockReflector mockRequire
  = AutoDiscovery.mkDiscovered [MockProvider; MockProvider]
      [MockController; MockController].
Proof.
  rewrite (@discoverComponents_concatenates
             (mockFileSystem ["/fake/path/mixed.js"; "/fake/path/mixed.js"])
             (mockFileSystem ["/fake/path/mixed.js"])
             (mockFileSystem ["/fake/path/mixed.js"])
             "/base" "/a" "/b" mockReflector mockRequire eq_refl).
  reflexivity.
Defined.

Lemma examineExport_origin (reflectorInst : AutoDiscovery.Reflector)
    (acc acc' : AutoDiscovery.DiscoveredComponents) (x : JsValue) :
  AutoDiscovery.examineExport reflectorInst acc x = Normal acc' ->
  (forall f, In f (AutoDiscovery.controllers acc') ->
             In f (AutoDiscovery.controllers acc)
             \/ (x = JsFunction f /\ fnPrototype f = true
                 /\ tagged reflectorInst "path" f))
  /\ (forall f, In f (AutoDiscovery.providers acc') ->
                In f (AutoDiscovery.providers acc)
                \/ (x = JsFunction f /\ fnPrototype f = true
                    /\ untagged reflectorInst "path" f
                    /\ tagged reflectorInst "__injectable__" f)).
Proof.
  unfold AutoDiscovery.examineExport, tagged, untagged.
  destruct x; try (intros H; injection H as <-; split; intros; now left).
  destruct (fnPrototype f) eqn:Eproto;
    [| intros H; injection H as <-; split; intros; now left].
  destruct (reflectorInst "path" f) as [v |] eqn:Epath; [| discriminate].
  destruct (truthy v) eqn:Ev.
  - intros H. injection H as <-. simpl. split; intros g Hg; [| now left].
    apply in_app_or in Hg. destruct Hg as [Hg | [<- | []]]; [now left |].
    right. repeat split; eauto.
  - destruct (reflectorInst "__injectable__" f) as [w |] eqn:Emark; [| discriminate].
    destruct (truthy w) eqn:Ew; intros H; injection H as <-;
      simpl; split; intros g Hg; try now left.
    apply in_app_or in Hg. destruct Hg as [Hg | [<- | []]]; [now left |].
    right. repeat split; eauto.
Qed.

Lemma examineExports_origin (reflectorInst : AutoDiscovery.Reflector)
    (exports : Props) (acc : AutoDiscovery.DiscoveredComponents) :
  (forall f,
      In f (AutoDiscovery.controllers
              (AutoDiscovery.examineExports reflectorInst acc exports)) ->
      In f (AutoDiscovery.controllers acc)
      \/ (exists key, In (key, JsFunction f) exports)
         /\ fnPrototype f = true /\ tagged reflectorInst "path" f)
  /\ (forall f,
        In f (AutoDiscovery.providers
                (AutoDiscovery.examineExports reflectorInst acc exports)) ->
        In f (AutoDiscovery.providers acc)
        \/ (exists key, In (key, JsFunction f) exports)
           /\ fnPrototype f = true /\ untagged reflectorInst "path" f
           /\ tagged reflectorInst "__injectable__" f).
Proof.
  revert acc. induction exports as [| [key x] rest IH]; intros acc; simpl.
  - split; intros; now left.
  - destruct (AutoDiscovery.examineExport reflectorInst acc x) as [acc' |] eqn:E;
      [| split; intros; now left].
    destruct (examineExport_origin reflectorInst acc x E) as [Hc Hp].
    destruct (IH acc') as [IHc IHp].
    split; intros f Hf.
    + apply IHc in Hf. destruct Hf as [Hf | ([k Hk] & Hrest)].
      * apply Hc in Hf. destruct Hf as [Hf | (-> & Hrest)]; [now left |].
        right. split; [exists key; now left | exact Hrest].
      * right. split; [exists k; now right | exact Hrest].
    + apply IHp in Hf. destruct Hf as [Hf | ([k Hk] & Hrest)].
      * apply Hp in Hf. destruct Hf as [Hf | (-> & Hrest)]; [now left |].
        right. split; [exists key; now left | exact Hrest].
      * right. split; [exists k; now right | exact Hrest].
Qed.

Lemma scanFiles_origin (requireFn : AutoDiscovery.RequireFn)
    (reflectorInst : AutoDiscovery.Reflector) (files : list string) :
  (forall f,
      In f (AutoDiscovery.controllers
              (AutoDiscovery.scanFiles requireFn reflectorInst files)) ->
      exportedBy requireFn files f /\ tagged reflectorInst "path" f)
  /\ (forall f,
        In f (AutoDiscovery.providers
                (AutoDiscovery.scanFiles requireFn reflectorInst files)) ->
        exportedBy requireFn files f /\ untagged reflectorInst "path" f
        /\ tagged reflectorInst "__injectable__" f).
Proof.
  induction files as [| file rest IH] using rev_ind.
  - split; intros f [].
  - unfold AutoDiscovery.scanFiles in *. rewrite fold_left_app. simpl.
    set (acc := fold_left (AutoDiscovery.scanFile requireFn reflectorInst) rest
                  (AutoDiscovery.mkDiscovered [] [])) in *.
    destruct IH as [IHc IHp].
    assert (Hweak : forall f, exportedBy requireFn rest f ->
                              exportedBy requireFn (rest ++ [file]) f).
    { intros f (fl & ex & k & Hin & Hrest). exists fl, ex, k.
      split; [apply in_or_app; now left | exact Hrest]. }
    unfold AutoDiscovery.scanFile.
    destruct (requireFn file) as [exports |] eqn:Eload.
    + destruct (examineExports_origin reflectorInst exports acc) as [Hc Hp].
      split; intros f Hf.
      * apply Hc in Hf. destruct Hf as [Hf | ([k Hk] & Hproto & Htag)].
        -- destruct (IHc f Hf). split; auto.
        -- split; [| exact Htag]. exists file, exports, k.
           repeat split; auto. apply in_or_app. right. now left.
      * apply Hp in Hf. destruct Hf as [Hf | ([k Hk] & Hproto & Htag)].
        -- destruct (IHp f Hf) as (? & ? & ?). repeat split; auto.
        -- split; [| exact Htag]. exists file, exports, k.
           repeat split; auto. apply in_or_app. right. now left.
    + split; intros f Hf.
      * destruct (IHc f Hf). split; auto.
      * destruct (IHp f Hf) as (? & ? & ?). repeat split; auto.
Qed.

(** X2. What the scanner returns was found: a class in [controllers] is
    exported, under some key, by one of the enumerated files, which
    loaded; it is a function with a prototype and its ['path'] metadata is
    truthy.  A class in [providers] is exported in the same way, its
    ['path'] metadata is falsy and its ['__injectable__'] metadata is
    truthy. *)
Theorem discoverComponents_sound
    (fs : AutoDiscovery.FileSystem) (basePath : string)
    (reflectorInst : AutoDiscovery.Reflector) (requireFn : AutoDiscovery.RequireFn)
    (f : ClassType) :
  (In f (AutoDiscovery.controllers
           (AutoDiscovery.discoverComponents fs basePath reflectorInst requireFn)) ->
   exportedBy requireFn (AutoDiscovery.enumerateFiles fs basePath) f
   /\ tagged reflectorInst "path" f)
  /\ (In f (AutoDiscovery.providers
              (AutoDiscovery.discoverComponents fs basePath reflectorInst requireFn)) ->
      exportedBy requireFn (AutoDiscovery.enumerateFiles fs basePath) f
      /\ untagged reflectorInst "path" f
      /\ tagged reflectorInst "__injectable__" f).
Proof.
  unfold AutoDiscovery.discoverComponents.
  destruct (scanFiles_origin requireFn reflectorInst
              (AutoDiscovery.enumerateFiles fs basePath)) as [Hc Hp].
  split; [apply Hc | apply Hp].
Qed.

Lemma discoverComponents_sound_witness :
  exportedBy mockRequire ["/fake/path/mixed.js"] MockController
  /\ tagged mockReflector "path" MockController
  /\ untagged mockReflector "path" MockProvider.
Proof.
  destruct (@discoverComponents_sound (mockFileSystem ["/fake/path/mixed.js"])
              "/base" mockReflector mockRequire MockController) as [Hc _].
  destruct (@discoverComponents_sound (mockFileSystem ["/fake/path/mixed.js"])
              "/base" mockReflector mockRequire MockProvider) as [_ Hp].
  destruct Hc as [He Ht]; [simpl; now left |].
  destruct Hp as (_ & Hu & _); [simpl; now left |].
  repeat split; assumption.
Defined.

(** X3. No class is in both buckets of a result. *)
Theorem discoverComponents_buckets_disjoint
    (fs : AutoDiscovery.FileSystem) (basePath : string)
    (reflectorInst : AutoDiscovery.Reflector) (requireFn : AutoDiscovery.RequireFn)
    (f : ClassType) :
  In f (AutoDiscovery.controllers
          (AutoDiscovery.discoverComponents fs basePath reflectorInst requireFn)) ->
  ~ In f (AutoDiscovery.providers
            (AutoDiscovery.discoverComponents fs basePath reflectorInst requireFn)).
Proof.
  intros Hc Hp.
  destruct (scanFiles_origin requireFn reflectorInst
              (AutoDiscovery.enumerateFiles fs basePath)) as [Sc Sp].
  destruct (Sc f Hc) as (_ & v & Hv & Htrue).
  destruct (Sp f Hp) as (_ & (w & Hw & Hfalse) & _).
  rewrite Hv in Hw. injection Hw as <-. congruence.
Qed.

Lemma discoverComponents_buckets_disjoint_witness :
  ~ In MockController
       (AutoDiscovery.providers
          (AutoDiscovery.discoverComponents (mockFileSystem ["/fake/path/mixed.js"])
             "/base" mockReflector mockRequire)).
Proof.
  apply (@discoverComponents_buckets_disjoint
           (mockFileSystem ["/fake/path/mixed.js"]) "/base" mockReflector
           mockRequire MockController).
  simpl. now left.
Defined.

Lemma examineExport_returns (reflectorInst : AutoDiscovery.Reflector)
    (acc : AutoDiscovery.DiscoveredComponents) (x : JsValue) :
  neverThrows reflectorInst ->
  exists acc', AutoDiscovery.examineExport reflectorInst acc x = Normal acc'.
Proof.
  intros Hr. unfold AutoDiscovery.examineExport.
  destruct x; try (eexists; reflexivity).
  destruct (fnPrototype f); [| eexists; reflexivity].
  destruct (Hr "path" f) as [v ->].
  destruct (truthy v); [eexists; reflexivity |].
  destruct (Hr "__injectable__" f) as [w ->].
  destruct (truthy w); eexists; reflexivity.
Qed.

Lemma examineExports_app (reflectorInst : AutoDiscovery.Reflector)
    (e1 e2 : Props) (acc : AutoDiscovery.DiscoveredComponents) :
  neverThrows reflectorInst ->
  AutoDiscovery.examineExports reflectorInst acc (e1 ++ e2)
  = AutoDiscovery.examineExports reflectorInst
      (AutoDiscovery.examineExports reflectorInst acc e1) e2.
Proof.
  intros Hr. revert acc. induction e1 as [| [key x] rest IH]; intros acc; simpl.
  - reflexivity.
  - destruct (examineExport_returns acc x Hr) as [acc' ->]. apply IH.
Qed.

Lemma scanFiles_split (requireFn : AutoDiscovery.RequireFn)
    (reflectorInst : AutoDiscovery.Reflector) (before after : list string)
    (file : string) :
  AutoDiscovery.scanFiles requireFn reflectorInst (before ++ file :: after)
  = appendDiscovered
      (appendDiscovered (AutoDiscovery.scanFiles requireFn reflectorInst before)
         (AutoDiscovery.scanFile requireFn reflectorInst noComponents file))
      (AutoDiscovery.scanFiles requireFn reflectorInst after).
Proof.
  unfold AutoDiscovery.scanFiles at 1. rewrite fold_left_app. simpl.
  rewrite scanFiles_shift. f_equal.
  fold (AutoDiscovery.scanFiles requireFn reflectorInst before).
  apply scanFile_shift.
Qed.

Lemma in_controllers_append (d1 d2 : AutoDiscovery.DiscoveredComponents)
    (f : ClassType) :
  In f (AutoDiscovery.controllers (appendDiscovered d1 d2))
  <-> In f (AutoDiscovery.controllers d1) \/ In f (AutoDiscovery.controllers d2).
Proof. unfold appendDiscovered. simpl. apply in_app_iff. Qed.

Lemma in_providers_append (d1 d2 : AutoDiscovery.DiscoveredComponents)
    (f : ClassType) :
  In f (AutoDiscovery.providers (appendDiscovered d1 d2))
  <-> In f (AutoDiscovery.providers d1) \/ In f (AutoDiscovery.providers d2).
Proof. unfold appendDiscovered. simpl. apply in_app_iff. Qed.

(** X4. With a reflector that does not throw, nothing that qualifies is
    missed: a function with a prototype exported by an enumerated file that
    loads is in [controllers] when its ['path'] metadata is truthy, and in
    [providers] when that is falsy and its ['__injectable__'] metadata is
    truthy. *)
Theorem discoverComponents_complete
    (fs : AutoDiscovery.FileSystem) (basePath : string)
    (reflectorInst : AutoDiscovery.Reflector) (requireFn : AutoDiscovery.RequireFn)
    (f : ClassType) :
  neverThrows reflectorInst ->
  exportedBy requireFn (AutoDiscovery.enumerateFiles fs basePath) f ->
  (tagged reflectorInst "path" f ->
   In f (AutoDiscovery.controllers
           (AutoDiscovery.discoverComponents fs basePath reflectorInst requireFn)))
  /\ (untagged reflectorInst "path" f ->
      tagged reflectorInst "__injectable__" f ->
      In f (AutoDiscovery.providers
              (AutoDiscovery.discoverComponents fs basePath reflectorInst requireFn))).
Proof.
  intros Hr (file & exports & key & Hfile & Hload & Hexp & Hproto).
  unfold AutoDiscovery.discoverComponents.
  apply in_split in Hfile. destruct Hfile as (before & after & ->).
  apply in_split in Hexp. destruct Hexp as (e1 & e2 & ->).
  rewrite scanFiles_split.
  assert (Hscan : AutoDiscovery.scanFile requireFn reflectorInst noComponents file
                  = AutoDiscovery.examineExports reflectorInst
                      (AutoDiscovery.examineExports reflectorInst noComponents e1)
                      ((key, JsFunction f) :: e2)).
  { unfold AutoDiscovery.scanFile. rewrite Hload. now apply examineExports_app. }
  rewrite Hscan. cbn [AutoDiscovery.examineExports].
  set (acc := AutoDiscovery.examineExports reflectorInst noComponents e1).
  split.
  - intros (v & Hv & Htrue).
    apply in_controllers_append. left. apply in_controllers_append. right.
    unfold AutoDiscovery.examineExport. rewrite Hproto, Hv, Htrue.
    rewrite examineExports_shift. apply in_controllers_append. left.
    simpl. apply in_or_app. right. now left.
  - intros (v & Hv & Hfalse) (w & Hw & Htrue).
    apply in_providers_append. left. apply in_providers_append. right.
    unfold AutoDiscovery.examineExport. rewrite Hproto, Hv, Hfalse, Hw, Htrue.
    rewrite examineExports_shift. apply in_providers_append. left.
    simpl. apply in_or_app. right. now left.
Qed.

Lemma mockReflector_neverThrows : neverThrows mockReflector.
Proof.
  intros key f. unfold mockReflector.
  repeat match goal with
         | |- context [if ?c then _ else _] => destruct c
         end; eexists; reflexivity.
Qed.

Lemma discoverComponents_complete_witness :
  In MockProvider
     (AutoDiscovery.providers
        (AutoDiscovery.discoverComponents
           (mockFileSystem ["/fake/path/error.js"; "/fake/path/mixed.js"])
           "/base" mockReflector mockRequire)).
Proof.
  apply (@discoverComponents_complete
           (mockFileSystem ["/fake/path/error.js"; "/fake/path/mixed.js"])
           "/base" mockReflector mockRequire MockProvider).
  - exact mockReflector_neverThrows.
  - exists "/fake/path/mixed.js",
      [("MockController", JsFunction MockController);
       ("MockProvider", JsFunction MockProvider)],
      "MockProvider".
    repeat split; simpl; auto.
  - exists JsUndefined. split; reflexivity.
  - exists (JsBool true). split; reflexivity.
Defined.

Lemma examineExports_stops (reflectorInst : AutoDiscovery.Reflector)
    (earlier later : Props) (key : string) (x : JsValue) (e : Thrown) :
  AutoDiscovery.examineExport reflectorInst noComponents x = Throws e ->
  forall acc,
    AutoDiscovery.examineExports reflectorInst acc (earlier ++ (key, x) :: later)
    = AutoDiscovery.examineExports reflectorInst acc earlier.
Proof.
  intros Hthrow.
  induction earlier as [| [k y] rest IH]; intros acc; simpl.
  - rewrite (examineExport_shift reflectorInst acc x), Hthrow. reflexivity.
  - destruct (AutoDiscovery.examineExport reflectorInst acc y);
      [apply IH | reflexivity].
Qed.

(** X5. The [try] block of the scanner spans the whole file: when the
    reflector throws on an export, what the earlier exports of the file
    gave is kept, the later exports of the file are not looked at, and the
    scan goes on with the next file. *)
Theorem discoverComponents_reflector_throws
    (fs : AutoDiscovery.FileSystem) (basePath : string)
    (reflectorInst : AutoDiscovery.Reflector) (requireFn : AutoDiscovery.RequireFn)
    (before after : list string) (file key : string) (earlier later : Props)
    (x : JsValue) (e : Thrown) :
  AutoDiscovery.enumerateFiles fs basePath = before ++ file :: after ->
  requireFn file = Normal (earlier ++ (key, x) :: later) ->
  AutoDiscovery.examineExport reflectorInst noComponents x = Throws e ->
  AutoDiscovery.discoverComponents fs basePath reflectorInst requireFn
  = appendDiscovered
      (appendDiscovered (AutoDiscovery.scanFiles requireFn reflectorInst before)
         (AutoDiscovery.examineExports reflectorInst noComponents earlier))
      (AutoDiscovery.scanFiles requireFn reflectorInst after).
Proof.
  intros Hfiles Hload Hthrow.
  unfold AutoDiscovery.discoverComponents. rewrite Hfiles, scanFiles_split.
  unfold AutoDiscovery.scanFile. rewrite Hload.
  now rewrite (examineExports_stops reflectorInst earlier later key x Hthrow).
Qed.

Lemma discoverComponents_reflector_throws_witness :
  AutoDiscovery.discoverComponents
    (mockFileSystem ["/fake/path/mixed.js"; "/fake/path/provider.js"])
    "/base" faultyReflector mockRequire
  = AutoDiscovery.mkDiscovered [MockProvider] [].
Proof.
  rewrite (@discoverComponents_reflector_throws
             (mockFileSystem ["/fake/path/mixed.js"; "/fake/path/provider.js"])
             "/base" faultyReflector mockRequire
             [] ["/fake/path/provider.js"] "/fake/path/mixed.js" "MockController"
             [] [("MockProvider", JsFunction MockProvider)]
             (JsFunction MockController)
             (ErrorObject "TypeError" "metadata unavailable" "")
             eq_refl eq_refl eq_refl).
  reflexivity.
Defined.

(** ** Configuration validation *)

Lemma string_app_assoc (a b c : string) :
  ((a ++ b) ++ c = a ++ b ++ c)%string.
Proof. induction a as [| ch a IH]; simpl; [reflexivity | now rewrite IH]. Qed.

Lemma string_app_nil_r (a : string) : (a ++ "" = a)%string.
Proof. induction a as [| ch a IH]; simpl; [reflexivity | now rewrite IH]. Qed.

Lemma occursIn_concat (sep s : string) (l : list string) :
  In s l -> occursIn s (String.concat sep l).
Proof.
  induction l as [| x rest IH]; intros Hin; [destruct Hin |].
  destruct Hin as [-> | Hin].
  - destruct rest as [| y rest']; simpl.
    + exists "", "". simpl. now rewrite string_app_nil_r.
    + exists "", (sep ++ String.concat sep (y :: rest'))%string. reflexivity.
  - destruct (IH Hin) as (before & after & Heq).
    destruct rest as [| y rest']; [destruct Hin |].
    exists (x ++ sep ++ before)%string, after.
    change (String.concat sep (x :: y :: rest'))
      with (x ++ sep ++ String.concat sep (y :: rest'))%string.
    rewrite Heq. now rewrite !string_app_assoc.
Qed.

Lemma occursIn_trans (a b c : string) : occursIn a b -> occursIn b c -> occursIn a c.
Proof.
  intros (p1 & q1 & ->) (p2 & q2 & ->).
  exists (p2 ++ p1)%string, (q1 ++ q2)%string. now rewrite !string_app_assoc.
Qed.

Lemma occursIn_suffix (a p s : string) : occursIn a s -> occursIn a (p ++ s).
Proof.
  intros (before & after & ->). exists (p ++ before)%string, after.
  now rewrite !string_app_assoc.
Qed.

(** X6. [validateConfig] returns the transformed configuration exactly
    when the validator reports no error.  Otherwise it throws an [Error]
    whose message starts with ["[Configuração Inválida] "] and in which
    the message of every violated constraint occurs. *)
Theorem validateConfig_outcome (stack : string) (config : Props)
    (schema : ConfigValidator.Schema) :
  let instance := ConfigValidator.plainToInstance schema config in
  let errors := ConfigValidator.validateSync schema instance in
  (errors = [] ->
   ConfigValidator.validateConfig stack config schema = Normal instance)
  /\ (forall r, ConfigValidator.validateConfig stack config schema = Normal r ->
                r = instance /\ errors = [])
  /\ (errors <> [] ->
      exists detail,
        ConfigValidator.validateConfig stack config schema
        = Throws (ErrorObject "Error" ("[Configuração Inválida] " ++ detail) stack)
        /\ forall error cs name text,
            In error errors ->
            ConfigValidator.constraints error = Some cs ->
            In (name, text) cs ->
            occursIn text detail).
Proof.
  intros instance errors. unfold ConfigValidator.validateConfig.
  fold instance. fold errors.
  destruct errors as [| err rest] eqn:E; simpl.
  - split; [reflexivity |]. split; [| intros H; now elim H].
    intros r Hr. injection Hr as <-. now split.
  - split; [discriminate |]. split; [discriminate |].
    intros _. eexists. split; [reflexivity |].
    intros error cs name text Hin Hcs Htext.
    apply occursIn_trans with (b := ConfigValidator.constraintMessages error).
    + unfold ConfigValidator.constraintMessages. rewrite Hcs.
      apply occursIn_concat. apply in_map_iff. now exists (name, text).
    + apply (occursIn_concat "; " (ConfigValidator.constraintMessages error)
               (map ConfigValidator.constraintMessages (err :: rest))).
      now apply in_map.
Qed.

Lemma validateConfig_outcome_witness :
  occursIn "DATABASE_URL should not be empty"
    "DATABASE_URL must be a string, DATABASE_URL should not be empty"
  /\ ConfigValidator.validateConfig "" [("DATABASE_URL", JsString "postgres://db")]
       EnvironmentVariables
     = Normal [("DATABASE_URL", JsString "postgres://db")].
Proof.
  destruct (validateConfig_outcome "" [] EnvironmentVariables) as (_ & _ & Hthrow).
  destruct (validateConfig_outcome "" [("DATABASE_URL", JsString "postgres://db")]
              EnvironmentVariables) as (Hok & _).
  split.
  - destruct Hthrow as (detail & Hrun & Hall); [discriminate |].
    injection Hrun as <-.
    apply (Hall (ConfigValidator.mkValidationError
                   (Some [("isString", "DATABASE_URL must be a string");
                          ("isNotEmpty", "DATABASE_URL should not be empty")]))
             [("isString", "DATABASE_URL must be a string");
              ("isNotEmpty", "DATABASE_URL should not be empty")]
             "isNotEmpty" "DATABASE_URL should not be empty").
    + now left.
    + reflexivity.
    + right. now left.
  - apply Hok. reflexivity.
Defined.

(** ** The health endpoint, for every configuration *)

(** X7. Whatever the options, [check] makes the database ping exactly
    when [database] is [true] and the indicator was injected, and the two
    memory checks exactly when [memory] is given: that many calls and no
    other, the ping first, each under a key of its own. *)
Theorem health_checks_by_options (o : Health.TerminusHealthCheckOptions)
    (dbAvailable : bool) :
  let calls := Health.check (Health.mkHealthController o dbAvailable) in
  let pings :=
    match Health.database o with
    | Some true => if dbAvailable then 1%nat else 0%nat
    | _ => 0%nat
    end in
  let memoryChecks :=
    match Health.memory o with Some _ => 2%nat | None => 0%nat end in
  List.length calls = (pings + memoryChecks)%nat
  /\ List.length (filter isPing calls) = pings
  /\ filter isPing calls = filter isPing (firstn 1 calls)
  /\ NoDup (map indicatorKey calls).
Proof.
  destruct o as [[[|] |] [m |]]; destruct dbAvailable; simpl;
    repeat split; try reflexivity;
    repeat (constructor; [simpl; intuition discriminate |]); constructor.
Qed.

(** ** Objects built by spreading defaults *)

Lemma getProp_setProp_same (k : string) (v : JsValue) (o : Props) :
  getProp k (setProp k v o) = v.
Proof.
  induction o as [| [k' v'] rest IH]; simpl.
  - now rewrite String.eqb_refl.
  - destruct (String.eqb k k') eqn:E; simpl; rewrite E; [reflexivity | exact IH].
Qed.

Lemma getProp_setProp_other (k k' : string) (v : JsValue) (o : Props) :
  k <> k' -> getProp k (setProp k' v o) = getProp k o.
Proof.
  intros Hne. induction o as [| [k0 v0] rest IH]; simpl.
  - apply String.eqb_neq in Hne. now rewrite Hne.
  - destruct (String.eqb k' k0) eqn:E; simpl.
    + apply String.eqb_eq in E. subst k0.
      apply String.eqb_neq in Hne. now rewrite Hne.
    + now rewrite IH.
Qed.

Lemma hasProp_false_not_in (k : string) (o : Props) :
  ~ In k (map fst o) -> hasProp k o = false.
Proof.
  induction o as [| [k' v'] rest IH]; simpl; intros Hnot; [reflexivity |].
  unfold hasProp in *. simpl.
  destruct (String.eqb k k') eqn:E.
  - apply String.eqb_eq in E. subst. tauto.
  - simpl. apply IH. tauto.
Qed.

(** Reading a key of [{ ...a, ...b }]: the value [b] gives it, and the
    value [a] gives it when [b] has no such key. *)
Lemma getProp_spread (k : string) (a b : Props) :
  wellFormed b ->
  getProp k (spread a b) = if hasProp k b then getProp k b else getProp k a.
Proof.
  unfold spread, wellFormed. revert a.
  induction b as [| [k1 v1] rest IH]; intros a Hwf; simpl; [reflexivity |].
  inversion Hwf as [| x l Hnot Hrest]; subst.
  rewrite (IH (setProp k1 v1 a) Hrest). unfold hasProp. simpl.
  destruct (String.eqb k k1) eqn:E; simpl.
  - apply String.eqb_eq in E. subst k1.
    pose proof (hasProp_false_not_in k rest Hnot) as Hno. unfold hasProp in Hno.
    rewrite Hno. apply getProp_setProp_same.
  - fold (hasProp k rest). destruct (hasProp k rest); [reflexivity |].
    apply getProp_setProp_other. now apply String.eqb_neq.
Qed.

(** X8. [withValidationPipe(options)] appends one provider, bound to
    [APP_PIPE], whose pipe is built from the defaults overridden by the
    caller's options: a key the caller gives has the caller's value, any
    other key has its default, which is [true] for [whitelist],
    [forbidNonWhitelisted] and [transform]. *)
Theorem withValidationPipe_options (options : Props) (this : AppInitializer) :
  wellFormed options ->
  exists finalOptions,
    globalProviders (withValidationPipe (Some options) this)
    = globalProviders this ++ [UseValue_ValidationPipe APP_PIPE finalOptions]
    /\ (forall k, hasProp k options = true ->
                  getProp k finalOptions = getProp k options)
    /\ (forall k, hasProp k options = false ->
                  getProp k finalOptions = getProp k defaultValidationPipeOptions)
    /\ getProp "whitelist" defaultValidationPipeOptions = JsBool true
    /\ getProp "forbidNonWhitelisted" defaultValidationPipeOptions = JsBool true
    /\ getProp "transform" defaultValidationPipeOptions = JsBool true
    /\ getProp "transformOptions" defaultValidationPipeOptions
       = JsObject [("enableImplicitConversion", JsBool true)].
Proof.
  intros Hwf. eexists. split; [reflexivity |].
  split; [| split; [| repeat split]].
  - intros k Hk. simpl. rewrite getProp_spread by exact Hwf. now rewrite Hk.
  - intros k Hk. simpl. rewrite getProp_spread by exact Hwf. now rewrite Hk.
Qed.

Lemma withValidationPipe_options_witness :
  exists finalOptions,
    globalProviders
      (withValidationPipe (Some [("disableErrorMessages", JsBool true);
                                 ("whitelist", JsBool false)]) mockInitializer)
    = [UseValue_ValidationPipe APP_PIPE finalOptions]
    /\ getProp "whitelist" finalOptions = JsBool false
    /\ getProp "disableErrorMessages" finalOptions = JsBool true
    /\ getProp "transform" finalOptions = JsBool true.
Proof.
  destruct (@withValidationPipe_options
              [("disableErrorMessages", JsBool true); ("whitelist", JsBool false)]
              mockInitializer)
    as (finalOptions & Hpush & Hgiven & Hdefault & _ & _ & Htransform & _).
  - repeat constructor; simpl; intuition discriminate.
  - exists finalOptions. split; [exact Hpush |].
    split; [now rewrite Hgiven |]. split; [now rewrite Hgiven |].
    rewrite Hdefault; [exact Htransform | reflexivity].
Defined.

(** X9. A [RateLimiterPlugin] keeps the options it is constructed with
    and completes them with its defaults: a window of 15 minutes, a limit
    of 100 requests, status 429, standard headers and no legacy headers.
    Its [apply] hands these very options to the rate limiter it
    installs. *)
Theorem RateLimiterPlugin_options (fw : Framework) (options : Props)
    (index : nat) (past : Trace) :
  wellFormed options ->
  exists finalOptions,
    newRateLimiterPlugin options = RateLimiterPlugin finalOptions
    /\ fst (applyPlugin fw index (newRateLimiterPlugin options) past)
       = [Call (App_use (RateLimit finalOptions))]
    /\ (forall k, hasProp k options = true ->
                  getProp k finalOptions = getProp k options)
    /\ (hasProp "windowMs" options = false ->
        getProp "windowMs" finalOptions = JsNumber (Finite 900000))
    /\ (hasProp "limit" options = false ->
        getProp "limit" finalOptions = JsNumber (Finite 100))
    /\ (hasProp "statusCode" options = false ->
        getProp "statusCode" finalOptions = JsNumber (Finite 429))
    /\ (hasProp "standardHeaders" options = false ->
        getProp "standardHeaders" finalOptions = JsBool true)
    /\ (hasProp "legacyHeaders" options = false ->
        getProp "legacyHeaders" finalOptions = JsBool false).
Proof.
  intros Hwf. eexists. split; [reflexivity |].
  split; [simpl; apply fst_call |].
  split; [intros k Hk; rewrite getProp_spread by exact Hwf; now rewrite Hk |].
  repeat split; intros Hk; rewrite getProp_spread by exact Hwf; now rewrite Hk.
Qed.

Lemma RateLimiterPlugin_options_witness :
  exists finalOptions,
    newRateLimiterPlugin [("limit", JsNumber (Finite 5))]
    = RateLimiterPlugin finalOptions
    /\ getProp "limit" finalOptions = JsNumber (Finite 5)
    /\ getProp "windowMs" finalOptions = JsNumber (Finite 900000).
Proof.
  destruct (@RateLimiterPlugin_options mockFramework [("limit", JsNumber (Finite 5))]
              0%nat [])
    as (finalOptions & Hnew & _ & Hgiven & Hwindow & _).
  - repeat constructor; simpl; intuition discriminate.
  - exists finalOptions. split; [exact Hnew |].
    split; [now rewrite Hgiven | now apply Hwindow].
Defined.

(** X10. The TypeORM starter gives a module whose factory reads the
    connection URL from the configured variable ([DATABASE_URL] unless
    another is named), loads entities automatically unless told not to,
    and never synchronises the schema, each unless [typeOrmOptions] names
    the key itself, whose keys are all passed on; and it gives the
    migration plugin exactly when [runMigrationsOnStartup] is [true]. *)
Theorem createTypeOrmStarter_result (options : Starters.TypeOrmStarterOptions)
    (configService : ConfigService) :
  wellFormed (Starters.dflt (Starters.typeOrmOptions options) []) ->
  let extra := Starters.dflt (Starters.typeOrmOptions options) [] in
  exists useFactory,
    Starters.module (Starters.createTypeOrmStarter options)
    = TypeOrmModule_forRootAsync useFactory
    /\ (forall k, hasProp k extra = true ->
                  getProp k (useFactory configService) = getProp k extra)
    /\ (hasProp "url" extra = false ->
        getProp "url" (useFactory configService)
        = configService (match Starters.databaseUrlEnvKey options with
                         | Some key => key
                         | None => "DATABASE_URL"
                         end))
    /\ (hasProp "autoLoadEntities" extra = false ->
        getProp "autoLoadEntities" (useFactory configService)
        = JsBool (match Starters.autoLoadEntities options with
                  | Some flag => flag
                  | None => true
                  end))
    /\ (hasProp "synchronize" extra = false ->
        getProp "synchronize" (useFactory configService) = JsBool false)
    /\ Starters.plugins (Starters.createTypeOrmStarter options)
       = match Starters.runMigrationsOnStartup options with
         | Some true => [TypeOrmMigrationPlugin]
         | _ => []
         end.
Proof.
  intros Hwf extra. eexists. split; [reflexivity |].
  split; [intros k Hk; rewrite getProp_spread by exact Hwf; fold extra;
          now rewrite Hk |].
  split; [intros Hk; rewrite getProp_spread by exact Hwf; fold extra;
          rewrite Hk; simpl; now destruct (Starters.databaseUrlEnvKey options) |].
  split; [intros Hk; rewrite getProp_spread by exact Hwf; fold extra;
          rewrite Hk; simpl; now destruct (Starters.autoLoadEntities options) |].
  split; [intros Hk; rewrite getProp_spread by exact Hwf; fold extra;
          now rewrite Hk |].
  simpl. now destruct (Starters.runMigrationsOnStartup options) as [[|] |].
Qed.

Lemma createTypeOrmStarter_result_witness :
  exists useFactory,
    Starters.module
      (Starters.createTypeOrmStarter
         (Starters.mkTypeOrmOptions None None (Some "CUSTOM_DB_URL")
            (Some [("logging", JsBool true)])))
    = TypeOrmModule_forRootAsync useFactory
    /\ getProp "url"
         (useFactory (fun key => if String.eqb key "CUSTOM_DB_URL"
                                 then JsString "postgres://custom"
                                 else JsUndefined))
       = JsString "postgres://custom"
    /\ getProp "synchronize" (useFactory (fun _ => JsUndefined)) = JsBool false.
Proof.
  destruct (@createTypeOrmStarter_result
              (Starters.mkTypeOrmOptions None None (Some "CUSTOM_DB_URL")
                 (Some [("logging", JsBool true)]))
              (fun key => if String.eqb key "CUSTOM_DB_URL"
                          then JsString "postgres://custom"
                          else JsUndefined))
    as (useFactory & Hmodule & _ & Hurl & _ & _ & _).
  - repeat constructor; simpl; intuition discriminate.
  - exists useFactory. split; [exact Hmodule |].
    split; [now rewrite Hurl |].
    injection Hmodule as <-. reflexivity.
Defined.

(** X11. The Mongoose starter gives a module whose factory reads the
    connection URI from the configured variable ([MONGO_URI] unless
    another is named) unless [mongooseOptions] names [uri] itself, passes
    every key of [mongooseOptions] on, and gives no plugin. *)
Theorem createMongooseStarter_result (options : Starters.MongooseStarterOptions)
    (configService : ConfigService) :
  wellFormed (Starters.dflt (Starters.mongooseOptions options) []) ->
  let extra := Starters.dflt (Starters.mongooseOptions options) [] in
  exists useFactory,
    Starters.module (Starters.createMongooseStarter options)
    = MongooseModule_forRootAsync useFactory
    /\ (forall k, hasProp k extra = true ->
                  getProp k (useFactory configService) = getProp k extra)
    /\ (hasProp "uri" extra = false ->
        getProp "uri" (useFactory configService)
        = configService (match Starters.uriEnvKey options with
                         | Some key => key
                         | None => "MONGO_URI"
                         end))
    /\ (forall k, hasProp k extra = false -> k <> "uri" ->
                  getProp k (useFactory configService) = JsUndefined)
    /\ Starters.plugins (Starters.createMongooseStarter options) = [].
Proof.
  intros Hwf extra. eexists. split; [reflexivity |].
  split; [intros k Hk; rewrite getProp_spread by exact Hwf; fold extra;
          now rewrite Hk |].
  split; [intros Hk; rewrite getProp_spread by exact Hwf; fold extra;
          rewrite Hk; simpl; now destruct (Starters.uriEnvKey options) |].
  split; [| reflexivity].
  intros k Hk Hne. rewrite getProp_spread by exact Hwf. fold extra. rewrite Hk.
  simpl. apply String.eqb_neq in Hne. now rewrite Hne.
Qed.

Lemma createMongooseStarter_result_witness :
  exists useFactory,
    Starters.module
      (Starters.createMongooseStarter
         (Starters.mkMongooseOptions None (Some [("retryAttempts", JsNumber (Finite 5))])))
    = MongooseModule_forRootAsync useFactory
    /\ getProp "retryAttempts" (useFactory (fun _ => JsString "mongodb://host/db"))
       = JsNumber (Finite 5)
    /\ getProp "uri" (useFactory (fun _ => JsString "mongodb://host/db"))
       = JsString "mongodb://host/db".
Proof.
  destruct (@createMongooseStarter_result
              (Starters.mkMongooseOptions None
                 (Some [("retryAttempts", JsNumber (Finite 5))]))
              (fun _ => JsString "mongodb://host/db"))
    as (useFactory & Hmodule & Hgiven & Huri & _).
  - repeat constructor; simpl; intuition discriminate.
  - exists useFactory. split; [exact Hmodule |].
    split; [now rewrite Hgiven | now rewrite Huri].
Defined.

(** ** The builder, beyond single calls *)

(** X13. [when(false, fn)] leaves the builder as it is and does not
    throw, even for a callback that would; and a [when] inside the
    callback of a [when] acts when both conditions hold, as one [when]
    on their conjunction. *)
Theorem when_nests (h : Host) (c1 c2 : bool) (body : list Method)
    (r : option Thrown) (b : AppInitializer) :
  invoke h (When false body r) b = Normal b
  /\ invoke h (When c1 [When c2 body r] None) b
     = invoke h (When (c1 && c2) body r) b.
Proof.
  split; [apply invoke_when |].
  rewrite (invoke_when h c1 [When c2 body r] None b).
  destruct c1; simpl andb.
  - cbn [runCalls finish]. now destruct (invoke h (When c2 body r) b).
  - now rewrite invoke_when.
Qed.

Lemma runCalls_app_normal (h : Host) (l1 l2 : list Method) (b b' : AppInitializer) :
  runCalls h (l1 ++ l2) None b = Normal b' ->
  exists b1, runCalls h l1 None b = Normal b1 /\ runCalls h l2 None b1 = Normal b'.
Proof.
  revert b. induction l1 as [| m rest IH]; intros b Hrun; simpl in *.
  - now exists b.
  - destruct (invoke h m b) as [b0 |]; [now apply IH | discriminate].
Qed.

Lemma setter_overwrites (h : Host) (m : Method) (x x' y y' : AppInitializer) :
  sameSetter m m = true ->
  invoke h m x = Normal x' ->
  invoke h m y = Normal y' ->
  forall g, In g (targets m) -> unchanged g x' y'.
Proof.
  intros Hset Hx Hy g Hg.
  destruct m; try discriminate Hset;
    simpl in Hx, Hy; injection Hx as <-; injection Hy as <-;
    simpl in Hg; destruct Hg as [<- | []]; reflexivity.
Qed.

(** X14. A scalar field holds the value of the last call that set it,
    whatever calls were made before it and whatever calls, writing other
    fields, were made after it. *)
Theorem last_setter_wins (h : Host) (before after : list Method) (m : Method)
    (b b' x x' : AppInitializer) :
  sameSetter m m = true ->
  runCalls h (before ++ m :: after) None b = Normal b' ->
  (forall g, In g (targets m) -> ~ In g (flat_map targets after)) ->
  invoke h m x = Normal x' ->
  forall g, In g (targets m) -> unchanged g x' b'.
Proof.
  intros Hset Hrun Hafter Hx g Hg.
  destruct (runCalls_app_normal h before (m :: after) b Hrun) as (b1 & _ & Hrest).
  simpl in Hrest. destruct (invoke h m b1) as [b2 |] eqn:Em; [| discriminate].
  destruct (@runCalls_frame h after None b2 b' Hrest) as [_ Hframe].
  apply unchanged_trans with (b2 := b2).
  - exact (@setter_overwrites h m x x' b1 b2 Hset Hx Em g Hg).
  - apply Hframe. now apply Hafter.
Qed.

Lemma last_setter_wins_witness :
  unchanged F_port (onPort (Finite 9000) mockInitializer)
    (useHelmet
       (withPlugin FastPlugin
          (onPort (Finite 9000)
             (withCors None (onPort (Finite 8080) mockInitializer))))).
Proof.
  apply (@last_setter_wins mockHost
           [OnPort (Finite 8080); WithCors None] [WithPlugin FastPlugin; UseHelmet]
           (OnPort (Finite 9000)) mockInitializer _ mockInitializer
           (onPort (Finite 9000) mockInitializer)).
  - reflexivity.
  - reflexivity.
  - intros g [<- | []]. simpl. intuition discriminate.
  - reflexivity.
  - simpl. now left.
Defined.

(** X15. What [withAdvancedSwaggerUI] stores is read nowhere: [listen]
    does the same, call for call, whether it was called or not. *)
Theorem advancedSwaggerUI_is_not_applied (fw : Framework) (h : Host)
    (v : option AdvancedSwaggerUiOptions) (this : AppInitializer) (past : Trace) :
  listen fw (withAdvancedSwaggerUI h this) past = listen fw this past
  /\ listen fw (set_advancedSwaggerUiOptions v this) past = listen fw this past.
Proof. split; reflexivity. Qed.

Lemma unchanged_sym (g : Field) (b1 b2 : AppInitializer) :
  unchanged g b1 b2 -> unchanged g b2 b1.
Proof. destruct g; simpl; intros H; now symmetry. Qed.

Lemma Field_eq_dec (f g : Field) : {f = g} + {f <> g}.
Proof. decide equality. Qed.

(** Two builders with the same identity and the same fields are equal. *)
Lemma builder_ext (b b' : AppInitializer) :
  sameInstance b b' -> (forall g, unchanged g b b') -> b' = b.
Proof.
  intros (Hid & Hmod & Had) Hall.
  pose proof (Hall F_port). pose proof (Hall F_globalPrefix).
  pose proof (Hall F_versioningOptions). pose proof (Hall F_corsOptions).
  pose proof (Hall F_swaggerOptions). pose proof (Hall F_setupFunctions).
  pose proof (Hall F_plugins). pose proof (Hall F_featureModules).
  pose proof (Hall F_advancedSwaggerUiOptions).
  pose proof (Hall F_autoDiscoveredComponents).
  pose proof (Hall F_globalProviders). pose proof (Hall F_globalInterceptors).
  pose proof (Hall F_factoryGeneratedControllers).
  destruct b, b'. simpl in *. subst. reflexivity.
Qed.

(** What a primitive call leaves in a field depends on what the field
    held, not on the other fields. *)
Lemma primitive_local (h : Host) (m : Method) (g : Field)
    (x y x' y' : AppInitializer) :
  primitive m = true ->
  invoke h m x = Normal x' ->
  invoke h m y = Normal y' ->
  unchanged g x y -> unchanged g x' y'.
Proof.
  intros Hprim Hx Hy Hg.
  destruct m; try discriminate Hprim;
    simpl in Hx, Hy; try rewrite withTypeOrm_fields in Hx, Hy;
    injection Hx as <-; injection Hy as <-;
    destruct g; simpl in *; unfold push; congruence.
Qed.

(** X12. Two primitive calls that write different fields can be made in
    either order: the builder is the same. *)
Theorem primitive_calls_commute (h : Host) (m1 m2 : Method) (b : AppInitializer) :
  primitive m1 = true ->
  primitive m2 = true ->
  (forall g, In g (targets m1) -> ~ In g (targets m2)) ->
  runCalls h [m1; m2] None b = runCalls h [m2; m1] None b.
Proof.
  intros P1 P2 Hdisjoint.
  destruct (primitive_returns h m1 b P1) as [b1 E1].
  destruct (primitive_returns h m2 b P2) as [b2 E2].
  destruct (primitive_returns h m2 b1 P2) as [b12 E12].
  destruct (primitive_returns h m1 b2 P1) as [b21 E21].
  cbn [runCalls finish]. rewrite E1, E2, E12, E21. f_equal.
  destruct (invoke_framed h m1 b E1) as [S1 F1].
  destruct (invoke_framed h m2 b E2) as [S2 F2].
  destruct (invoke_framed h m2 b1 E12) as [S12 F12].
  destruct (invoke_framed h m1 b2 E21) as [S21 F21].
  apply builder_ext.
  - destruct S1 as (? & ? & ?), S2 as (? & ? & ?), S12 as (? & ? & ?),
      S21 as (? & ? & ?). repeat split; congruence.
  - intros g.
    destruct (in_dec Field_eq_dec g (targets m1)) as [In1 | Out1].
    + pose proof (Hdisjoint g In1) as Out2.
      apply unchanged_trans with (b2 := b1).
      * apply unchanged_sym.
        exact (@primitive_local h m1 g b b2 b1 b21 P1 E1 E21 (F2 g Out2)).
      * exact (F12 g Out2).
    + apply unchanged_trans with (b2 := b2).
      * apply unchanged_sym. exact (F21 g Out1).
      * exact (@primitive_local h m2 g b b1 b2 b12 P2 E2 E12 (F1 g Out1)).
Qed.

Lemma primitive_calls_commute_witness :
  runCalls mockHost [WithGlobalPrefix "api"; WithPlugin FastPlugin] None mockInitializer
  = runCalls mockHost [WithPlugin FastPlugin; WithGlobalPrefix "api"] None
      mockInitializer.
Proof.
  apply primitive_calls_commute; [reflexivity | reflexivity |].
  intros g [<- | []] [Hg | []]. discriminate Hg.
Defined.

(** ** The stages of [listen], one by one *)

Lemma firstn_in_app {A : Type} (l1 l2 : list A) (n : nat) :
  exists m, firstn n l1 = firstn m (l1 ++ l2).
Proof.
  revert n. induction l1 as [| x rest IH]; intros n.
  - exists 0%nat. now destruct n.
  - destruct n as [| n]; [now exists 0%nat |].
    destruct (IH n) as [m Hm]. exists (S m). simpl. now rewrite Hm.
Qed.

Lemma playsCalls_ret : playsCalls (ret tt) [].
Proof. intros past. split; [exists 0%nat |]; reflexivity. Qed.

Lemma playsCalls_call (fw : Framework) (c : FrameworkCall) :
  playsCalls (call fw c) [c].
Proof.
  intros past. rewrite fst_call. split; [now exists 1%nat | reflexivity].
Qed.

Lemma playsCalls_bind (c1 c2 : M unit) (cs1 cs2 : list FrameworkCall) :
  playsCalls c1 cs1 -> playsCalls c2 cs2 ->
  playsCalls (c1 ;; c2) (cs1 ++ cs2).
Proof.
  intros H1 H2 past. rewrite bind_run.
  destruct (H1 past) as [[n1 Hn1] Hfull1].
  destruct (c1 past) as [t1 [[] | e]]; simpl in *.
  - rewrite (Hfull1 eq_refl) in *.
    destruct (H2 (past ++ map Call cs1)) as [[n2 Hn2] Hfull2].
    split.
    + exists (List.length cs1 + n2)%nat.
      rewrite Hn2, firstn_app_2. now rewrite map_app.
    + intros Hr. rewrite (Hfull2 Hr). now rewrite map_app.
  - split; [| discriminate].
    destruct (firstn_in_app cs1 cs2 n1) as [m Hm]. exists m.
    now rewrite <- Hm.
Qed.

Lemma playsCalls_forEach {A : Type} (f : A -> M unit)
    (g : A -> FrameworkCall) (l : list A) :
  (forall x, playsCalls (f x) [g x]) -> playsCalls (forEach f l) (map g l).
Proof.
  intros Hf. induction l as [| x rest IH]; simpl.
  - apply playsCalls_ret.
  - apply (playsCalls_bind (Hf x) IH).
Qed.

Lemma playsCalls_setups (fw : Framework) (l : list SetupFunction) :
  playsCalls (forEach (runSetup fw) l) (map setupCall l).
Proof.
  apply playsCalls_forEach. intros s. destruct s; apply playsCalls_call.
Qed.

Lemma playsCalls_swagger (fw : Framework) (this : AppInitializer) :
  playsCalls (setupSwagger fw this) (swaggerCalls this).
Proof.
  unfold setupSwagger, swaggerCalls.
  destruct (swaggerOptions this) as [o |]; [| apply playsCalls_ret].
  change (Starters.dflt (tags o) []) with (match tags o with Some l => l | None => [] end).
  change (Starters.dflt (path o) "docs")
    with (match path o with Some p => p | None => "docs" end).
  repeat (apply (@playsCalls_bind _ _ [_] _); [apply playsCalls_call |]).
  apply playsCalls_bind.
  - apply playsCalls_forEach. intros tag. apply playsCalls_call.
  - repeat (apply (@playsCalls_bind _ _ [_] _); [apply playsCalls_call |]).
    apply playsCalls_call.
Qed.

Lemma filter_all {A : Type} (Q : A -> bool) (l : list A) :
  (forall x, In x l -> Q x = true) -> filter Q l = l.
Proof.
  induction l as [| x rest IH]; intros Hall; simpl; [reflexivity |].
  rewrite (Hall x) by now left. f_equal. apply IH. intros y Hy. apply Hall. now right.
Qed.

(** A stage that plays its calls, followed by steps that make no such
    call. *)
Lemma played_stage (Q : Event -> bool) (c : M unit) (cs : list FrameworkCall)
    (k : unit -> M unit) (past : Trace) :
  playsCalls c cs ->
  (forall x, In x cs -> Q (Call x) = true) ->
  (forall a, silent Q (k a)) ->
  playedIn Q cs (bind c k past).
Proof.
  intros Hc HQ Hk. unfold playedIn. rewrite filter_bind, snd_bind.
  destruct (Hc past) as [[n Hn] Hfull].
  assert (Hkeep : filter Q (fst (c past)) = fst (c past)).
  { apply filter_all. rewrite Hn. intros e He. apply in_map_iff in He.
    destruct He as (x & <- & Hx). apply HQ. now apply In_firstn in Hx. }
  rewrite Hkeep.
  destruct (snd (c past)) as [[] | e] eqn:Er; cbn beta iota.
  - pose proof (Hk tt (past ++ fst (c past))) as Hquiet. split.
    + exists (List.length cs). rewrite Hquiet, app_nil_r, firstn_all.
      now apply Hfull.
    + intros _. rewrite Hquiet, app_nil_r. now apply Hfull.
  - split; [exists n; now rewrite app_nil_r | discriminate].
Qed.

(** Steps that make no such call, in front of a run that plays them. *)
Lemma played_after {A : Type} (Q : Event -> bool) (cs : list FrameworkCall)
    (c : M A) (k : A -> M unit) (past : Trace) :
  silent Q c ->
  (forall a past', playedIn Q cs (k a past')) ->
  playedIn Q cs (bind c k past).
Proof.
  intros Hc Hk. unfold playedIn.
  apply (@reach A unit Q c k past
           (fun evs r => (exists n, evs = map Call (firstn n cs))
                         /\ (r = Normal tt -> evs = map Call cs))).
  - exact Hc.
  - intros e. split; [now exists 0%nat | discriminate].
  - exact Hk.
Qed.

Ltac skip_stage :=
  apply played_after;
  [ first [ apply silent_setups; intros; reflexivity
          | apply silent_applyPlugins; intros; reflexivity
          | unfold applyGlobalPrefix, applyCors, applyVersioning,
              setupSwagger, logSwaggerUrl; silence ]
  | intros ? ? ].

Lemma silent_setup_applyPlugins (fw : Framework) (ps : list Plugin)
    (index : nat) :
  silent isSetupCall (applyPlugins fw index ps).
Proof.
  assert (Hplugin : forall i p, silent isSetupCall (applyPlugin fw i p)).
  { intros i [| options | | name behaviour]; simpl.
    - silence.
    - silence.
    - unfold TypeOrmMigrationPlugin_apply. silence.
    - intros past. destruct (behaviour past) as [effects [e | | deferred r]]; simpl;
        now apply filter_PluginEffect. }
  revert index. induction ps as [| p rest IH]; intros index;
    cbn [applyPlugins].
  - apply silent_ret.
  - apply silent_bind; [silence | intros _].
    apply silent_bind; [| intros _; apply IH].
    intros past. rewrite awaitApply_run.
    pose proof (Hplugin index p (past ++ [ApplyCalled index])) as Hp.
    destruct (applyPlugin fw index p (past ++ [ApplyCalled index])) as [t r].
    simpl in *. now rewrite filter_app, Hp.
Qed.

Lemma silent_setup_fromPlugins (fw : Framework) (this : AppInitializer) :
  silent isSetupCall (fromPlugins fw this).
Proof.
  unfold fromPlugins.
  apply silent_bind; [apply silent_setup_applyPlugins | intros _].
  unfold afterPlugins, setupSwagger, logSwaggerUrl. silence.
Qed.

(** X17. The setup functions run in the order they were registered: the
    calls they make on the application are, in a run of [listen], those of
    [setupFunctions] in order, up to the first call that throws, and all
    of them when [listen] returns. *)
Theorem listen_runs_setups_in_order (fw : Framework) (b : AppInitializer)
    (past : Trace) :
  playedIn isSetupCall (map setupCall (setupFunctions b)) (listen fw b past).
Proof.
  rewrite listen_stages. do 5 skip_stage.
  unfold afterSettings. apply played_stage.
  - apply playsCalls_setups.
  - intros x Hx. apply in_map_iff in Hx. destruct Hx as (s & <- & _).
    now destruct s.
  - intros _. apply silent_setup_fromPlugins.
Qed.

(** X18. The global interceptors are installed in the order they were
    added: the [useGlobalInterceptors] calls of a run of [listen] are
    those of [globalInterceptors] in order, up to the first that throws,
    and all of them when [listen] returns. *)
Theorem listen_installs_interceptors_in_order (fw : Framework)
    (b : AppInitializer) (past : Trace) :
  playedIn isInterceptorCall
    (map App_useGlobalInterceptors (globalInterceptors b)) (listen fw b past).
Proof.
  rewrite listen_stages. do 5 skip_stage.
  unfold afterSettings. skip_stage.
  unfold fromPlugins. skip_stage.
  unfold afterPlugins. apply played_stage.
  - apply playsCalls_forEach. intros i. apply playsCalls_call.
  - intros x Hx. apply in_map_iff in Hx. now destruct Hx as (i & <- & _).
  - intros _. unfold setupSwagger, logSwaggerUrl. silence.
Qed.

(** X19. The documentation is built only if it was configured: without
    [swaggerOptions], [listen] makes no call to the document builder or
    to the Swagger module; with them, it sets title, description and
    version, adds the tags in order, builds, creates the document and
    mounts it at the configured path, ['docs'] by default, in this
    order, up to the first call that throws. *)
Theorem listen_documents_when_configured (fw : Framework) (b : AppInitializer)
    (past : Trace) :
  playedIn isSwaggerCall (swaggerCalls b) (listen fw b past)
  /\ (swaggerOptions b = None ->
      filter isSwaggerCall (fst (listen fw b past)) = []).
Proof.
  assert (Hplayed : playedIn isSwaggerCall (swaggerCalls b) (listen fw b past)).
  { rewrite listen_stages. do 5 skip_stage.
    unfold afterSettings. skip_stage.
    unfold fromPlugins. skip_stage.
    unfold afterPlugins. skip_stage.
    apply played_stage.
    - apply playsCalls_swagger.
    - unfold swaggerCalls. intros x Hx.
      destruct (swaggerOptions b) as [o |]; [| destruct Hx].
      do 4 (destruct Hx as [<- | Hx]; [reflexivity |]).
      cbn [app] in Hx. apply in_app_or in Hx. destruct Hx as [Hx | Hx].
      + destruct (tags o) as [l |]; [| destruct Hx].
        apply in_map_iff in Hx. now destruct Hx as (tag & <- & _).
      + repeat (destruct Hx as [<- | Hx]; [reflexivity |]). destruct Hx.
    - intros _. unfold logSwaggerUrl. silence. }
  split; [exact Hplayed |].
  intros Hnone. destruct Hplayed as [[n Hn] _]. rewrite Hn.
  unfold swaggerCalls. rewrite Hnone. now destruct n.
Qed.

Lemma listen_documents_when_configured_witness :
  filter isSwaggerCall
    (fst (listen mockFramework (onPort (Finite 9000) mockInitializer) []))
  = [].
Proof.
  apply (proj2 (listen_documents_when_configured mockFramework
                  (onPort (Finite 9000) mockInitializer) [])).
  reflexivity.
Defined.

(** ** The order of the stages of [listen] *)

Lemma phases_app (t1 t2 : Trace) : phases (t1 ++ t2) = phases t1 ++ phases t2.
Proof.
  induction t1 as [| e rest IH]; simpl; [reflexivity |].
  destruct (phaseOf e); simpl; now rewrite IH.
Qed.

Lemma nondecreasing_app (l1 l2 : list nat) (mid : nat) :
  nondecreasing l1 -> nondecreasing l2 ->
  Forall (fun p => (p <= mid)%nat) l1 -> Forall (fun p => (mid <= p)%nat) l2 ->
  nondecreasing (l1 ++ l2).
Proof.
  intros H1 H2 Hlow Hhigh. induction l1 as [| x rest IH]; simpl; [exact H2 |].
  destruct H1 as [Hx Hrest]. inversion Hlow as [| ? ? Hxmid Hlow']; subst.
  split; [| now apply IH].
  apply Forall_app. split; [exact Hx |].
  eapply Forall_impl; [| exact Hhigh]. intros y Hy. simpl in Hy. lia.
Qed.

(** Events of stages up to [mid] followed by events of stages from [mid]
    on. *)
Lemma stages_app (lo mid hi : nat) (t1 t2 : Trace) :
  (lo <= mid <= hi)%nat ->
  nondecreasing (phases t1) /\ Forall (fun p => (lo <= p <= mid)%nat) (phases t1) ->
  nondecreasing (phases t2) /\ Forall (fun p => (mid <= p <= hi)%nat) (phases t2) ->
  nondecreasing (phases (t1 ++ t2))
  /\ Forall (fun p => (lo <= p <= hi)%nat) (phases (t1 ++ t2)).
Proof.
  intros Hmid [Hs1 Hw1] [Hs2 Hw2]. rewrite phases_app. split.
  - apply (@nondecreasing_app _ _ mid Hs1 Hs2).
    + eapply Forall_impl; [| exact Hw1]. intros p Hp. simpl in Hp. lia.
    + eapply Forall_impl; [| exact Hw2]. intros p Hp. simpl in Hp. lia.
  - apply Forall_app. split.
    + eapply Forall_impl; [| exact Hw1]. intros p Hp. simpl in Hp. lia.
    + eapply Forall_impl; [| exact Hw2]. intros p Hp. simpl in Hp. lia.
Qed.

Lemma staged_weaken (lo hi lo' hi' : nat) {A : Type} (c : M A) :
  staged lo hi c -> (lo' <= lo)%nat -> (hi <= hi')%nat -> staged lo' hi' c.
Proof.
  intros Hc Hlo Hhi past. destruct (Hc past) as [Hs Hw]. split; [exact Hs |].
  eapply Forall_impl; [| exact Hw]. intros p Hp. simpl in Hp. lia.
Qed.

Lemma staged_ret (lo hi : nat) {A : Type} (a : A) : staged lo hi (ret a).
Proof. intros past. simpl. split; [exact I | constructor]. Qed.

Lemma staged_throw (lo hi : nat) {A : Type} (e : Thrown) :
  staged lo hi (@throw A e).
Proof. intros past. simpl. split; [exact I | constructor]. Qed.

Lemma staged_event (lo hi : nat) (e : Event) :
  match phaseOf e with Some p => (lo <= p <= hi)%nat | None => True end ->
  nondecreasing (phases [e]) /\ Forall (fun p => (lo <= p <= hi)%nat) (phases [e]).
Proof.
  intros He. simpl. destruct (phaseOf e) as [p |]; simpl.
  - repeat constructor; lia.
  - split; [exact I | constructor].
Qed.

Lemma staged_emit (lo hi : nat) (c : FrameworkCall) :
  match phaseOf (Call c) with Some p => (lo <= p <= hi)%nat | None => True end ->
  staged lo hi (emit c).
Proof. intros Hc past. now apply staged_event. Qed.

Lemma staged_call (lo hi : nat) (fw : Framework) (c : FrameworkCall) :
  match phaseOf (Call c) with Some p => (lo <= p <= hi)%nat | None => True end ->
  staged lo hi (call fw c).
Proof. intros Hc past. rewrite fst_call. now apply staged_event. Qed.

Lemma staged_getUrl (lo hi : nat) (fw : Framework) :
  (lo <= 10 <= hi)%nat -> staged lo hi (getUrl fw).
Proof.
  intros H past. unfold getUrl.
  destruct (rejects fw past App_getUrl); now apply staged_event.
Qed.

Lemma staged_bind (lo mid hi : nat) {A B : Type} (c : M A) (k : A -> M B) :
  (lo <= mid <= hi)%nat ->
  staged lo mid c -> (forall a, staged mid hi (k a)) -> staged lo hi (bind c k).
Proof.
  intros Hmid Hc Hk past. rewrite bind_run. specialize (Hc past).
  destruct (c past) as [t1 [a | e]]; simpl in *.
  - apply (@stages_app lo mid hi _ _ Hmid Hc (Hk a (past ++ t1))).
  - destruct Hc as [Hs Hw]. split; [exact Hs |].
    eapply Forall_impl; [| exact Hw]. intros p Hp. simpl in Hp. lia.
Qed.

Lemma staged_tryCatch (p : nat) {A : Type} (body : M A)
    (handler : Thrown -> M A) :
  staged p p body -> (forall e, staged p p (handler e)) ->
  staged p p (tryCatch body handler).
Proof.
  intros Hc Hh past. rewrite tryCatch_run. specialize (Hc past).
  destruct (body past) as [t1 [a | e]]; simpl in *; [exact Hc |].
  apply (@stages_app p p p); [lia | exact Hc | apply Hh].
Qed.

Lemma staged_forEach (p : nat) {A : Type} (f : A -> M unit) (l : list A) :
  (forall x, staged p p (f x)) -> staged p p (forEach f l).
Proof.
  intros Hf. induction l as [| x rest IH]; simpl.
  - apply staged_ret.
  - apply (@staged_bind p p p); [lia | apply Hf | intros _; exact IH].
Qed.

(** Steps through a computation all of whose events belong to one stage. *)
Ltac stage :=
  repeat (intros;
    lazymatch goal with
    | |- staged ?p ?p (bind _ _) => apply (@staged_bind p p p); [lia | |]
    | |- staged _ _ (ret _) => apply staged_ret
    | |- staged _ _ (throw _) => apply staged_throw
    | |- staged _ _ (emit _) => apply staged_emit; cbn; first [exact I | lia]
    | |- staged _ _ (call _ _) => apply staged_call; cbn; first [exact I | lia]
    | |- staged _ _ (getUrl _) => apply staged_getUrl; lia
    | |- staged ?p ?p (tryCatch _ _) => apply staged_tryCatch
    | |- staged ?p ?p (forEach _ _) => apply staged_forEach
    | |- staged _ _ (match ?x with _ => _ end) => destruct x
    | |- _ => fail
    end).

Lemma staged_applyPlugin (fw : Framework) (index : nat) (p : Plugin) :
  staged 6 6 (applyPlugin fw index p).
Proof.
  destruct p as [| options | | name behaviour]; simpl.
  - stage.
  - stage.
  - unfold TypeOrmMigrationPlugin_apply. stage.
  - intros past.
    assert (Heffects : forall effects,
               nondecreasing (phases (map (PluginEffect index) effects))
               /\ Forall (fun p => (6 <= p <= 6)%nat)
                    (phases (map (PluginEffect index) effects))).
    { induction effects as [| w rest [IHs IHw]]; simpl.
      - split; [exact I | constructor].
      - repeat split; try assumption.
        + eapply Forall_impl; [| exact IHw]. intros q Hq. simpl in Hq. lia.
        + constructor; [lia | exact IHw]. }
    destruct (behaviour past) as [effects [e | | deferred r]]; simpl;
      apply Heffects.
Qed.

Lemma staged_awaitApply (fw : Framework) (index : nat) (p : Plugin) :
  staged 6 6 (awaitApply fw index p).
Proof.
  intros past. rewrite awaitApply_run.
  pose proof (staged_applyPlugin fw index p (past ++ [ApplyCalled index])) as Hp.
  destruct (applyPlugin fw index p (past ++ [ApplyCalled index])) as [t r].
  simpl fst in *.
  change (ApplyCalled index :: t ++ [ApplySettled index (rejectionOf r)])
    with ([ApplyCalled index] ++ t ++ [ApplySettled index (rejectionOf r)]).
  apply (@stages_app 6 6 6); [lia | apply staged_event; simpl; lia |].
  apply (@stages_app 6 6 6); [lia | exact Hp | apply staged_event; simpl; lia].
Qed.

Lemma staged_applyPlugins (fw : Framework) (ps : list Plugin) (index : nat) :
  staged 6 6 (applyPlugins fw index ps).
Proof.
  revert index. induction ps as [| p rest IH]; intros index; simpl.
  - apply staged_ret.
  - apply (@staged_bind 6 6 6); [lia | stage | intros _].
    apply (@staged_bind 6 6 6); [lia | apply staged_awaitApply | intros _; apply IH].
Qed.

Lemma staged_listen (fw : Framework) (b : AppInitializer) :
  staged 1 10 (listen fw b).
Proof.
  rewrite listen_stages.
  apply (@staged_bind 1 1 10); [lia | stage | intros _].
  apply (@staged_bind 1 1 10); [lia | stage | intros _].
  apply (@staged_bind 1 2 10); [lia | | intros _].
  { unfold applyGlobalPrefix. stage. }
  apply (@staged_bind 2 3 10); [lia | | intros _].
  { unfold applyCors. stage. }
  apply (@staged_bind 3 4 10); [lia | | intros _].
  { unfold applyVersioning. stage. }
  unfold afterSettings.
  apply (@staged_bind 4 5 10); [lia | | intros _].
  { apply (@staged_weaken 5 5); [| lia | lia].
    apply staged_forEach. intros s. destruct s; simpl; stage. }
  unfold fromPlugins.
  apply (@staged_bind 5 6 10); [lia | | intros _].
  { apply (@staged_weaken 6 6); [apply staged_applyPlugins | lia | lia]. }
  unfold afterPlugins.
  apply (@staged_bind 6 7 10); [lia | | intros _].
  { apply (@staged_weaken 7 7); [| lia | lia]. stage. }
  apply (@staged_bind 7 8 10); [lia | | intros _].
  { apply (@staged_weaken 8 8); [| lia | lia]. unfold setupSwagger. stage. }
  apply (@staged_bind 8 9 10); [lia | stage | intros _].
  apply (@staged_bind 9 10 10); [lia | stage | intros url].
  unfold logSwaggerUrl. stage.
Qed.

(** X16. The stages of [listen] follow one another and never interleave:
    the application is created, then the global prefix, CORS and
    versioning are set, then the setup functions run, then the plugins
    are applied, then the global interceptors are installed, then the
    documentation is built, then the listener is bound, then the URL is
    asked for. Whatever the builder holds and whichever call throws, an
    event of a stage is never followed by one of an earlier stage. *)
Theorem listen_stage_order (fw : Framework) (b : AppInitializer) (past : Trace)
    (before between after : Trace) (e1 e2 : Event) (p1 p2 : nat) :
  fst (listen fw b past) = before ++ e1 :: between ++ e2 :: after ->
  phaseOf e1 = Some p1 -> phaseOf e2 = Some p2 ->
  (p1 <= p2)%nat.
Proof.
  intros Htrace H1 H2.
  destruct (staged_listen fw b past) as [Hsorted _].
  rewrite Htrace in Hsorted.
  rewrite phases_app in Hsorted. simpl in Hsorted. rewrite H1 in Hsorted.
  rewrite phases_app in Hsorted. simpl in Hsorted. rewrite H2 in Hsorted.
  assert (Htail : forall l1 l2, nondecreasing (l1 ++ l2) -> nondecreasing l2).
  { induction l1 as [| x rest IH]; simpl; intros l2 H; [exact H |].
    apply IH. now destruct H. }
  apply Htail in Hsorted. destruct Hsorted as [Hall _].
  apply Forall_app in Hall. destruct Hall as [_ Hall].
  now inversion Hall.
Qed.

Lemma listen_stage_order_witness :
  fst (listen mockFramework
         (withPlugin RequestLoggerPlugin
            (useHelmet (withGlobalPrefix "api" mockInitializer))) [])
  = [ Call (Logger_log "AppInitializer" "Criando a instância da aplicação NestJS...");
      Call (NestFactory_create
              (mkRootModule [ModuleClass MockAppModule] [] []) None) ]
    ++ Call (App_setGlobalPrefix "/api")
    :: [ Call (App_use Helmet);
         Call (Logger_log "AppInitializer" "Aplicando o plugin: RequestLoggerPlugin");
         ApplyCalled 0 ]
    ++ Call (App_use (Morgan "dev"))
    :: [ ApplySettled 0 None;
         Call (App_listen (Finite 3000));
         Call App_getUrl;
         Call (Logger_log "AppInitializer"
                 "🚀 Aplicação rodando em: http://localhost:3000") ]
  /\ (2 <= 6)%nat.
Proof.
  split; [reflexivity |].
  apply (@listen_stage_order mockFramework
           (withPlugin RequestLoggerPlugin
              (useHelmet (withGlobalPrefix "api" mockInitializer))) []
           [ Call (Logger_log "AppInitializer"
                     "Criando a instância da aplicação NestJS...");
             Call (NestFactory_create
                     (mkRootModule [ModuleClass MockAppModule] [] []) None) ]
           [ Call (App_use Helmet);
             Call (Logger_log "AppInitializer"
                     "Aplicando o plugin: RequestLoggerPlugin");
             ApplyCalled 0 ]
           [ ApplySettled 0 None;
             Call (App_listen (Finite 3000));
             Call App_getUrl;
             Call (Logger_log "AppInitializer"
                     "🚀 Aplicação rodando em: http://localhost:3000") ]
           (Call (App_setGlobalPrefix "/api"))
           (Call (App_use (Morgan "dev"))) 2 6); reflexivity.
Defined.

Lemma listen_runs_setups_in_order_witness :
  filter isSetupCall
    (fst (listen mockFramework
            (addGlobalInterceptor (ResponsePatternInterceptor "mapper")
               (enableCompression (withGracefulShutdown mockInitializer))) []))
  = [Call App_enableShutdownHooks; Call (App_use Compression)].
Proof.
  apply (proj2 (listen_runs_setups_in_order mockFramework
                  (addGlobalInterceptor (ResponsePatternInterceptor "mapper")
                     (enableCompression (withGracefulShutdown mockInitializer)))
                  [])).
  reflexivity.
Defined.

Lemma listen_installs_interceptors_in_order_witness :
  filter isInterceptorCall
    (fst (listen mockFramework
            (withResponseMapper "second"
               (addGlobalInterceptor (ResponsePatternInterceptor "first")
                  mockInitializer)) []))
  = [ Call (App_useGlobalInterceptors (ResponsePatternInterceptor "first"));
      Call (App_useGlobalInterceptors (ResponsePatternInterceptor "second")) ].
Proof.
  apply (proj2 (listen_installs_interceptors_in_order mockFramework
                  (withResponseMapper "second"
                     (addGlobalInterceptor (ResponsePatternInterceptor "first")
                        mockInitializer)) [])).
  reflexivity.
Defined.

(** ** The end of a successful [listen] *)

(** Steps that bind no listener, in front of a run that ends with a given
    report. *)
Lemma report_after {A : Type} (c : M A) (k : A -> M unit) (past : Trace)
    (report : Trace -> Trace) :
  silent isListen c ->
  (forall a past',
      snd (k a past') = Normal tt ->
      exists before,
        fst (k a past') = before ++ report (past' ++ before)
        /\ filter isListen before = []) ->
  snd (bind c k past) = Normal tt ->
  exists before,
    fst (bind c k past) = before ++ report (past ++ before)
    /\ filter isListen before = [].
Proof.
  intros Hc Hk. rewrite bind_run. specialize (Hc past).
  destruct (c past) as [t1 [a | e]]; simpl in *; [| discriminate].
  intros Hr. destruct (Hk a (past ++ t1) Hr) as (before & Ht & Hquiet).
  exists (t1 ++ before). rewrite Ht, filter_app, Hc, Hquiet.
  now rewrite <- !app_assoc.
Qed.

Lemma report_of_listen (fw : Framework) (this : AppInitializer) (past : Trace) :
  let final :=
    call fw (App_listen (port this)) ;;
    appUrlValue <- getUrl fw ;;
    emit (Logger_log loggerContext ("🚀 Aplicação rodando em: " ++ appUrlValue)) ;;
    logSwaggerUrl this appUrlValue in
  snd (final past) = Normal tt ->
  fst (final past)
  = startupReport this (appUrl fw (past ++ [Call (App_listen (port this))])).
Proof.
  intros final. subst final.
  unfold bind, call, getUrl, emit, logSwaggerUrl, startupReport, loggerContext.
  destruct (rejects fw past (App_listen (port this))); simpl; [discriminate |].
  destruct (rejects fw (past ++ [Call (App_listen (port this))]) App_getUrl);
    simpl; [discriminate |].
  destruct (swaggerOptions this) as [o |]; simpl; reflexivity.
Qed.

Ltac skip_to_report :=
  apply report_after;
  [ first [ apply silent_setups; intros; reflexivity
          | apply silent_applyPlugins; intros; reflexivity
          | unfold applyGlobalPrefix, applyCors, applyVersioning,
              setupSwagger, logSwaggerUrl; silence ]
  | intros ? ? ].

(** X20. The listener is bound last, once, on the configured port: a run
    of [listen] binds no listener or the one of [port], and when it
    returns its trace ends with the listener bound on [port], the URL of
    the application asked for and logged, and the URL of the
    documentation logged when the documentation was configured; nothing
    is bound before. *)
Theorem listen_binds_port_last (fw : Framework) (b : AppInitializer)
    (past : Trace) :
  playedIn isListen [App_listen (port b)] (listen fw b past)
  /\ (snd (listen fw b past) = Normal tt ->
      exists before,
        fst (listen fw b past)
        = before
            ++ startupReport b
                 (appUrl fw (past ++ before ++ [Call (App_listen (port b))]))
        /\ filter isListen before = []).
Proof.
  split.
  - rewrite listen_stages. do 5 skip_stage.
    unfold afterSettings. skip_stage.
    unfold fromPlugins. skip_stage.
    unfold afterPlugins. do 2 skip_stage.
    apply played_stage.
    + apply playsCalls_call.
    + intros x [<- | []]. reflexivity.
    + intros _. unfold logSwaggerUrl. silence.
  - pose (report := fun pre : Trace =>
                      startupReport b (appUrl fw (pre ++ [Call (App_listen (port b))]))).
    assert (Hgoal : snd (listen fw b past) = Normal tt ->
                    exists before,
                      fst (listen fw b past) = before ++ report (past ++ before)
                      /\ filter isListen before = []).
    { rewrite listen_stages. do 5 skip_to_report.
      unfold afterSettings. skip_to_report.
      unfold fromPlugins. skip_to_report.
      unfold afterPlugins. do 2 skip_to_report.
      intros Hr. exists []. split; [| reflexivity].
      subst report. cbn beta. rewrite app_nil_r. simpl app at 1.
      now apply report_of_listen. }
    intros Hr. destruct (Hgoal Hr) as (before & Ht & Hquiet).
    exists before. subst report. cbn beta in Ht.
    now rewrite <- app_assoc in Ht.
Qed.

Lemma listen_binds_port_last_witness :
  exists before,
    fst (listen mockFramework (onPort (Finite 9000) mockInitializer) [])
    = before
        ++ startupReport (onPort (Finite 9000) mockInitializer)
             (appUrl mockFramework
                ([] ++ before
                    ++ [Call (App_listen (port (onPort (Finite 9000) mockInitializer)))]))
    /\ filter isListen before = [].
Proof.
  apply (proj2 (listen_binds_port_last mockFramework
                  (onPort (Finite 9000) mockInitializer) [])).
  reflexivity.
Defined.

(** ** From the chained calls to the framework *)

(** No chained call stores a route prefix that does not start with a
    slash, nor changes the adapter. *)
Lemma prefix_rooted (h : Host) (script : list Method) (r : option Thrown)
    (b b' : AppInitializer) :
  globalPrefix b = None ->
  runCalls h script r b = Normal b' ->
  forall p, globalPrefix b' = Some p -> String.prefix "/" p = true.
Proof.
  intros Hnone Hrun.
  refine (@runCalls_invariant h
            (fun x => forall p, globalPrefix x = Some p -> String.prefix "/" p = true)
            _ script r b b' _ Hrun).
  - intros m x x' Hnot Hx Hm.
    destruct m; try (exfalso; eapply Hnot; reflexivity);
      simpl in Hm; try rewrite withTypeOrm_fields in Hm;
      injection Hm as <-; simpl; try exact Hx.
    intros p Hp. injection Hp as <-. unfold normalizePrefix.
    destruct (String.prefix "/" prefix) eqn:E; [exact E | apply prefix_slash_cons].
  - intros p Hp. rewrite Hnone in Hp. discriminate.
Qed.

Lemma adapter_kept (h : Host) (c : Callback) (b b' : AppInitializer) :
  runCallback h c b = Normal b' -> adapter b' = adapter b.
Proof.
  intros Hrun.
  refine (@runCallback_invariant h (fun x => adapter x = adapter b)
            _ c b b' eq_refl Hrun).
  intros m x x' Hnot Hx Hm.
  destruct m; try (exfalso; eapply Hnot; reflexivity);
    simpl in Hm; try rewrite withTypeOrm_fields in Hm;
    injection Hm as <-; simpl; exact Hx.
Qed.

(** X21. Whatever the chained calls were, the framework only receives a
    route prefix that starts with a slash, and it is the one the builder
    holds: every [setGlobalPrefix] call in a run of [listen] on a builder
    configured from a new one carries the stored prefix, which starts
    with ["/"]. *)
Theorem listen_prefix_is_rooted (fw : Framework) (h : Host) (id : nat)
    (rootModule : ClassType) (adapter0 : option AbstractHttpAdapter)
    (script : list Method) (b : AppInitializer) (past : Trace) (p : string) :
  runCalls h script None (newAppInitializer h id rootModule adapter0) = Normal b ->
  In (Call (App_setGlobalPrefix p)) (fst (listen fw b past)) ->
  globalPrefix b = Some p /\ String.prefix "/" p = true.
Proof.
  intros Hrun Hin.
  pose proof (@prefix_rooted h script None
                (newAppInitializer h id rootModule adapter0) b eq_refl Hrun)
    as Hrooted.
  assert (Hstored : globalPrefix b = Some p).
  { assert (Hset : In (Call (App_setGlobalPrefix p))
                     (settingsCalls (fst (listen fw b past))))
      by (apply filter_In; split; [exact Hin | reflexivity]).
    destruct (@listen_settings fw b past) as [[k Hk] _].
    { intros q Hq. apply Hrooted in Hq. destruct q; [discriminate Hq | reflexivity]. }
    rewrite Hk in Hset. apply In_firstn in Hset.
    unfold configuredSettings in Hset.
    destruct (globalPrefix b) as [q |];
      destruct (corsOptions b); destruct (versioningOptions b);
      simpl in Hset; intuition (try discriminate; try congruence). }
  split; [exact Hstored | now apply Hrooted].
Qed.

Lemma listen_prefix_is_rooted_witness :
  globalPrefix (withGlobalPrefix "api" mockInitializer) = Some "/api"
  /\ String.prefix "/" "/api" = true.
Proof.
  apply (@listen_prefix_is_rooted mockFramework mockHost 1 MockAppModule None
           [WithGlobalPrefix "api"] (withGlobalPrefix "api" mockInitializer) []
           "/api").
  - reflexivity.
  - simpl. right. right. left. reflexivity.
Defined.

Lemma listen_plays_create (fw : Framework) (b : AppInitializer) (past : Trace) :
  playedIn isCreate [NestFactory_create (declareRootModule b) (adapter b)]
    (listen fw b past).
Proof.
  rewrite listen_stages. skip_stage.
  apply played_stage.
  - apply playsCalls_call.
  - intros x [<- | []]. reflexivity.
  - intros _. apply silent_create_settings.
Qed.

(** X22. [bootstrap] creates the application at most once, and with the
    adapter it was given: none when its second argument is the
    configurator, the second argument otherwise.  No call of the
    configurator changes it. *)
Theorem bootstrap_creates_with_given_adapter (fw : Framework) (h : Host)
    (id : nat) (rootModule : ClassType)
    (adapterOrConfigurator : AdapterOrConfigurator)
    (configurator : option Callback) (past : Trace) :
  let run := bootstrap fw h id rootModule adapterOrConfigurator configurator past in
  filter isCreate (fst run) = []
  \/ exists root,
       filter isCreate (fst run)
       = [Call (NestFactory_create root (adapterOf adapterOrConfigurator))].
Proof.
  cbn zeta. unfold bootstrap.
  destruct (finalConfiguratorOf adapterOrConfigurator configurator) as [c |];
    [| now left].
  rewrite tryCatch_run, bootstrapAttempt_run. cbn zeta.
  set (initializer := newAppInitializer h id rootModule
                        (adapterOf adapterOrConfigurator)).
  destruct (runCallback h c initializer) as [b | e] eqn:Ecallback.
  - pose proof (@adapter_kept h c initializer b Ecallback) as Hadapter.
    set (past' := past ++ [Call (Logger_log loggerContext
                     "Iniciando o processo de bootstrap da aplicação...")]).
    destruct (listen_plays_create fw b past') as [[n Hn] _].
    assert (Hcreate : filter isCreate (fst (listen fw b past')) = []
                      \/ filter isCreate (fst (listen fw b past'))
                         = [Call (NestFactory_create (declareRootModule b)
                                    (adapterOf adapterOrConfigurator))]).
    { rewrite Hn, Hadapter. destruct n as [| n]; [now left | right].
      simpl. now destruct n. }
    destruct (snd (listen fw b past')) as [[] | e] eqn:Er; cbn [fst snd].
    + cbn [filter isCreate]. destruct Hcreate as [-> | ->]; [now left | right].
      now exists (declareRootModule b).
    + rewrite bootstrapFailure_run. cbn [fst snd].
      change (Call (Logger_log loggerContext
                      "Iniciando o processo de bootstrap da aplicação...")
              :: fst (listen fw b past'))
        with ([Call (Logger_log loggerContext
                       "Iniciando o processo de bootstrap da aplicação...")]
                ++ fst (listen fw b past')).
      rewrite !filter_app. cbn [filter isCreate app]. rewrite app_nil_r.
      destruct Hcreate as [-> | ->]; [now left | right].
      now exists (declareRootModule b).
  - left. cbn [fst snd]. rewrite bootstrapFailure_run. reflexivity.
Qed.

(** ** The migration plugin *)

(** X23. [TypeOrmMigrationPlugin.apply] rethrows the error it caught,
    after logging it once: a run that throws [e] was rejected with [e] by
    the look-up of the data source or by the migrations, and its trace
    ends with the error log that carries [e], the only error it logs; a
    run that returns made the look-up, ran the migrations and logged
    their start and their end; and the migrations are run only if the
    look-up succeeded. *)
Theorem TypeOrmMigrationPlugin_rethrows (fw : Framework) (past : Trace) :
  let run := TypeOrmMigrationPlugin_apply fw past in
  let lookup := Call (App_get "DataSource") in
  let starting :=
    Call (Logger_log "TypeOrmMigrationPlugin"
            "Iniciando execução das migrations do banco de dados...") in
  let finished :=
    Call (Logger_log "TypeOrmMigrationPlugin" "Migrations executadas com sucesso.") in
  let isErrorLog (e : Event) :=
    match e with Call (Logger_error _ _ _) => true | _ => false end in
  (forall e,
      snd run = Throws e ->
      (rejects fw past (App_get "DataSource") = Some e
       \/ rejects fw (past ++ [lookup; starting]) DataSource_runMigrations = Some e)
      /\ exists before,
           fst run
           = before
               ++ [Call (Logger_error "TypeOrmMigrationPlugin"
                           "Falha ao obter DataSource ou executar migrations."
                           (ThrownValue e))]
           /\ filter isErrorLog before = [])
  /\ (snd run = Normal tt ->
      fst run = [lookup; starting; Call DataSource_runMigrations; finished])
  /\ (In (Call DataSource_runMigrations) (fst run) ->
      rejects fw past (App_get "DataSource") = None).
Proof.
  cbn zeta. unfold TypeOrmMigrationPlugin_apply, tryCatch, bind, call, emit, throw.
  destruct (rejects fw past (App_get "DataSource")) as [e1 |] eqn:E1; simpl.
  - split; [| split].
    + intros e He. injection He as <-. split; [now left |].
      now exists [Call (App_get "DataSource")].
    + discriminate.
    + intros [H | [H | []]]; discriminate H.
  - destruct (rejects fw _ DataSource_runMigrations) as [e2 |] eqn:E2; simpl.
    + split; [| split].
      * intros e He. injection He as <-. split; [right; now rewrite <- app_assoc in E2 |].
        now eexists [_; _; _].
      * discriminate.
      * reflexivity.
    + split; [| split].
      * discriminate.
      * reflexivity.
      * reflexivity.
Qed.

Lemma TypeOrmMigrationPlugin_rethrows_witness :
  fst (TypeOrmMigrationPlugin_apply mockFramework [])
  = [ Call (App_get "DataSource");
      Call (Logger_log "TypeOrmMigrationPlugin"
              "Iniciando execução das migrations do banco de dados...");
      Call DataSource_runMigrations;
      Call (Logger_log "TypeOrmMigrationPlugin" "Migrations executadas com sucesso.") ].
Proof.
  apply (proj1 (proj2 (TypeOrmMigrationPlugin_rethrows mockFramework []))).
  reflexivity.
Defined.
